(** * Kaayaan MCP News server: batch summary, request validation and
      keyword inspection of [src/mcp_server.py]

    The development embeds the decision logic of [KaayaanMCPNewsServer]:
    the three tool handlers [_handle_single_analysis],
    [_handle_batch_analysis], [_handle_keyword_analysis] and the
    aggregation [_generate_batch_summary], together with the fragment of
    the Python runtime they rely on ([dict.get], truthiness, [str.strip],
    [re.search] with [\b] and [re.IGNORECASE], [collections.Counter],
    integer true division and [round]).

    Modelling conventions.
    - Python objects that reach the handlers are JSON values; they are the
      inductive [Py.value].  Numbers are integers ([bool] included, as in
      Python); [float] inputs are outside the embedding.
    - A Python [str] is a [string] whose characters are the code points
      U+0000 .. U+00FF; the character classes below are the Unicode ones
      restricted to that range.
    - A [dict] is an association list in insertion order; the first binding
      of a key is the live one.
    - Code that can raise returns [exn + A]; handlers, which also talk to the
      analyzer, the webhook sink and the clock, live in the monad
      [Effects.M] that threads the log of collaborator calls. *)

From Stdlib Require Import List String Ascii ZArith NArith Bool Arith Lia.
From Stdlib Require Import Permutation Sorted DecimalString SpecFloat.
From Stdlib Require DecimalNat.
Import ListNotations.

Set Implicit Arguments.
Set Warnings "-register-all".

(* ================================================================== *)
(** ** Strings: [str.strip], [str.lower] and the regular expression
       [\b literal \b] under [re.IGNORECASE] *)
(* ================================================================== *)

Module Str.

Definition code (c : ascii) : N := N_of_ascii c.

Definition between (lo hi n : N) : bool := ((lo <=? n) && (n <=? hi))%N.

(** [str.isspace] on U+0000 .. U+00FF. *)
Definition is_space (c : ascii) : bool :=
  let n := code c in
  between 9 13 n || between 28 32 n || (n =? 133)%N || (n =? 160)%N.

(** The class [\w] of a [str] pattern on U+0000 .. U+00FF: alphanumerics
    and the underscore. *)
Definition is_word (c : ascii) : bool :=
  let n := code c in
  between 48 57 n || between 65 90 n || (n =? 95)%N || between 97 122 n
  || (n =? 170)%N || between 178 179 n || (n =? 181)%N
  || between 185 186 n || between 188 190 n
  || between 192 214 n || between 216 246 n || between 248 255 n.

(** Lower-case mapping on U+0000 .. U+00FF. *)
Definition lower_char (c : ascii) : ascii :=
  let n := code c in
  if between 65 90 n || between 192 214 n || between 216 222 n
  then ascii_of_N (n + 32)
  else c.

Fixpoint drop_space (s : list ascii) : list ascii :=
  match s with
  | [] => []
  | c :: s' => if is_space c then drop_space s' else s
  end.

(** [s.strip()] on character lists. *)
Definition strip_chars (s : list ascii) : list ascii :=
  rev (drop_space (rev (drop_space s))).

Definition strip (s : string) : string :=
  string_of_list_ascii (strip_chars (list_ascii_of_string s)).

Definition lower (s : string) : string :=
  string_of_list_ascii (map lower_char (list_ascii_of_string s)).

(** Plain substring test, as in ["source" in some_str]. *)
Fixpoint is_prefix (p t : list ascii) : bool :=
  match p, t with
  | [], _ => true
  | _ :: _, [] => false
  | a :: p', b :: t' => Ascii.eqb a b && is_prefix p' t'
  end.

Fixpoint is_infix (p t : list ascii) : bool :=
  is_prefix p t ||
  match t with
  | [] => false
  | _ :: t' => is_infix p t'
  end.

End Str.

(* ================================================================== *)
(** ** The Python runtime fragment *)
(* ================================================================== *)

Module Py.

(** The objects that reach the handlers: what [json.loads] builds, floats
    apart.  The numbers of this development are [int] and [bool]; a
    statement about sums or means is a statement about integers. *)
Inductive value : Type :=
| VNone
| VBool (b : bool)
| VInt (z : Z)
| VStr (s : string)
| VList (l : list value)
| VDict (d : list (string * value)).

Definition dict : Type := list (string * value).

Inductive exn : Type :=
| TypeError
| AttributeError
| KeyError
| ZeroDivisionError
| OverflowError
| Raised (msg : string).

Definition result (A : Type) : Type := (exn + A)%type.

Definition ok {A} (a : A) : result A := inr a.
Definition raise {A} (e : exn) : result A := inl e.

Definition rbind {A B} (m : result A) (k : A -> result B) : result B :=
  match m with
  | inl e => inl e
  | inr a => k a
  end.

(** [d.get(k)]: the live binding of [k], if any. *)
Fixpoint dict_get (d : dict) (k : string) : option value :=
  match d with
  | [] => None
  | (k', v) :: d' => if String.eqb k' k then Some v else dict_get d' k
  end.

(** [d.get(k, default)]. *)
Definition get (d : dict) (k : string) (default : value) : value :=
  match dict_get d k with
  | Some v => v
  | None => default
  end.

(** [d[k] = v]: an existing key keeps its place, a new key goes last. *)
Fixpoint dict_set (d : dict) (k : string) (v : value) : dict :=
  match d with
  | [] => [(k, v)]
  | (k', v') :: d' =>
      if String.eqb k' k then (k', v) :: d' else (k', v') :: dict_set d' k v
  end.

(** Keys in iteration order, each once. *)
Fixpoint dict_keys (d : dict) : list string :=
  match d with
  | [] => []
  | (k, _) :: d' =>
      k :: filter (fun k' => negb (String.eqb k k')) (dict_keys d')
  end.

(** Truth value of an object, as tested by [if x:] and [not x]. *)
Definition truthy (v : value) : bool :=
  match v with
  | VNone => false
  | VBool b => b
  | VInt z => negb (z =? 0)%Z
  | VStr s => negb (String.eqb s EmptyString)
  | VList l => match l with [] => false | _ => true end
  | VDict d => match d with [] => false | _ => true end
  end.

(** The integer a numeric object stands for; [bool] is a subclass of [int]. *)
Definition as_int (v : value) : option Z :=
  match v with
  | VInt z => Some z
  | VBool b => Some (if b then 1 else 0)%Z
  | _ => None
  end.

(** [v > n] for an integer literal [n]: ordering against a non-number
    raises [TypeError]. *)
Definition gt_int (v : value) (n : Z) : result bool :=
  match as_int v with
  | Some z => ok (n <? z)%Z
  | None => raise TypeError
  end.

(** [v == s] for a string literal [s]; never raises. *)
Definition eq_str (v : value) (s : string) : bool :=
  match v with
  | VStr s' => String.eqb s' s
  | _ => false
  end.

(** [isinstance(v, list)]. *)
Definition is_list (v : value) : bool :=
  match v with
  | VList _ => true
  | _ => false
  end.

(** The items produced by iterating over [v] (as [list.extend] does). *)
Definition iterate (v : value) : result (list value) :=
  match v with
  | VList l => ok l
  | VStr s =>
      ok (map (fun c => VStr (String c EmptyString)) (list_ascii_of_string s))
  | VDict d => ok (map VStr (dict_keys d))
  | _ => raise TypeError
  end.

(** Lists and dicts are unhashable and cannot be dictionary keys. *)
Definition hashable (v : value) : bool :=
  match v with
  | VList _ | VDict _ => false
  | _ => true
  end.

(** Key equality of hashable objects: [True == 1], strings by content. *)
Definition key_eqb (a b : value) : bool :=
  match a, b with
  | VNone, VNone => true
  | VStr s, VStr t => String.eqb s t
  | _, _ =>
      match as_int a, as_int b with
      | Some x, Some y => (x =? y)%Z
      | _, _ => false
      end
  end.

(** [v.strip()] on an arbitrary object: only a [str] has the method. *)
Definition strip_value (v : value) : result string :=
  match v with
  | VStr s => ok (Str.strip s)
  | _ => raise AttributeError
  end.

(** [s in container] for a string [s]: key test on a dict, substring test
    on a str, membership on a list. *)
Definition contains_str (container : value) (s : string) : result bool :=
  match container with
  | VDict d => ok (match dict_get d s with Some _ => true | None => false end)
  | VStr t =>
      ok (Str.is_infix (list_ascii_of_string s) (list_ascii_of_string t))
  | VList l => ok (existsb (fun v => eq_str v s) l)
  | _ => raise TypeError
  end.

(** [container[s]] for a string [s]: only a dict is indexed by strings. *)
Definition getitem_str (container : value) (s : string) : result value :=
  match container with
  | VDict d =>
      match dict_get d s with
      | Some v => ok v
      | None => raise KeyError
      end
  | _ => raise TypeError
  end.

(** [0 + v]: the running total of [sum]. *)
Definition add_int (total : Z) (v : value) : result Z :=
  match as_int v with
  | Some z => ok (total + z)%Z
  | None => raise TypeError
  end.

(** [sum(values)] over integers, from the start value [0]. *)
Fixpoint sum_from (total : Z) (l : list value) : result Z :=
  match l with
  | [] => ok total
  | v :: l' => rbind (add_int total v) (fun t => sum_from t l')
  end.

Definition sum (l : list value) : result Z := sum_from 0 l.

(** A loop whose body may raise: [for a in l: st = body(st, a)]. *)
Fixpoint for_each {S A} (body : S -> A -> result S) (st : S) (l : list A)
  : result S :=
  match l with
  | [] => ok st
  | a :: l' => rbind (body st a) (fun st' => for_each body st' l')
  end.

(** [str(i)] for a non-negative integer. *)
Definition str_of_nat (i : nat) : string :=
  NilEmpty.string_of_uint (Nat.to_uint i).

End Py.

Module Re.

(** The patterns built by the server: word-boundary assertions and
    literal characters ([re.escape] makes every character a literal). *)
Inductive atom : Type :=
| Boundary
| Literal (c : ascii).

Definition escape (k : list ascii) : list atom := map Literal k.

Definition word_opt (c : option ascii) : bool :=
  match c with
  | Some c => Str.is_word c
  | None => false
  end.

(** [\b] holds between [prev] and [next] when exactly one of them is a
    word character; the ends of the text count as non-word. *)
Definition at_boundary (prev next : option ascii) : bool :=
  xorb (word_opt prev) (word_opt next).

(** Case-insensitive comparison of a text character with a pattern
    literal. *)
Definition ci_eqb (c p : ascii) : bool :=
  Ascii.eqb (Str.lower_char c) (Str.lower_char p).

(** Match the atoms at the current position; [prev] is the character just
    before it. *)
Fixpoint match_atoms (p : list atom) (prev : option ascii) (t : list ascii)
  : bool :=
  match p with
  | [] => true
  | Boundary :: p' => at_boundary prev (hd_error t) && match_atoms p' prev t
  | Literal x :: p' =>
      match t with
      | [] => false
      | c :: t' => ci_eqb c x && match_atoms p' (Some c) t'
      end
  end.

Fixpoint search_from (p : list atom) (prev : option ascii) (t : list ascii)
  : bool :=
  match_atoms p prev t ||
  match t with
  | [] => false
  | c :: t' => search_from p (Some c) t'
  end.

(** [bool(re.search(p, text, re.IGNORECASE))]. *)
Definition search (p : list atom) (text : list ascii) : bool :=
  search_from p None text.

(** [re.search(r'\b' + re.escape(keyword) + r'\b', text, re.IGNORECASE)]. *)
Definition search_keyword (keyword text : string) : bool :=
  search (Boundary :: escape (list_ascii_of_string keyword) ++ [Boundary])
         (list_ascii_of_string text).

End Re.

(* ================================================================== *)
(** ** [collections.Counter] and [most_common] *)
(* ================================================================== *)

Module Collections.

Section Counter.
Context {K : Type} (eqb : K -> K -> bool).

(** [c[x] = c.get(x, 0) + 1] on an insertion-ordered table: a key seen
    before keeps its place, a new key is appended. *)
Fixpoint incr (x : K) (c : list (K * nat)) : list (K * nat) :=
  match c with
  | [] => [(x, 1)]
  | (y, n) :: c' =>
      if eqb y x then (y, S n) :: c' else (y, n) :: incr x c'
  end.

(** [Counter(iterable)]: elements are counted from left to right. *)
Definition Counter (l : list K) : list (K * nat) :=
  fold_left (fun c x => incr x c) l [].

(** One step of a stable descending sort on the count: the new entry
    comes from further left, so it goes before entries of equal count. *)
Fixpoint insert_desc (e : K * nat) (l : list (K * nat)) : list (K * nat) :=
  match l with
  | [] => [e]
  | h :: t => if snd e <? snd h then h :: insert_desc e t else e :: l
  end.

(** [sorted(items, key=itemgetter(1), reverse=True)]; Python's sort is
    stable, also with [reverse=True]. *)
Definition sorted_desc (l : list (K * nat)) : list (K * nat) :=
  fold_right insert_desc [] l.

(** [heapq.nlargest(n, items, key=itemgetter(1))], which is
    [sorted(items, key=..., reverse=True)[:n]]. *)
Definition nlargest (n : nat) (l : list (K * nat)) : list (K * nat) :=
  firstn n (sorted_desc l).

(** [Counter.most_common(n)]. *)
Definition most_common (n : nat) (c : list (K * nat)) : list (K * nat) :=
  nlargest n c.
End Counter.

(** [Counter(all_coins)] on Python objects: every element is hashed. *)
Definition Counter_values (l : list Py.value)
  : Py.result (list (Py.value * nat)) :=
  if forallb Py.hashable l then Py.ok (Counter Py.key_eqb l)
  else Py.raise Py.TypeError.

End Collections.

(* ================================================================== *)
(** ** Binary64 arithmetic used by the average: [int / int] and
       [round(x, 1)] *)
(* ================================================================== *)

Module Float64.

Definition prec : Z := 53.
Definition emin : Z := -1074.
Definition emax : Z := 1024.

(** A finite double, as the dyadic number [mant * 2 ^ expo]. *)
Record float : Type := Float { mant : Z; expo : Z }.

(** A decimal number with one fractional digit, [tenths / 10].
    [round(x, 1)] returns the double nearest to such a number, which is
    also how that double prints. *)
Record decimal1 : Type := Decimal1 { tenths : Z }.

(** The integer nearest to [a / b] for [b > 0], ties to the even one. *)
Definition round_half_even (a b : Z) : Z :=
  let q := (a / b)%Z in
  let r := (a mod b)%Z in
  match (2 * r ?= b)%Z with
  | Lt => q
  | Gt => (q + 1)%Z
  | Eq => if Z.even q then q else (q + 1)%Z
  end.

(** [a / (b * 2 ^ e)] as a fraction of integers. *)
Definition scaled (a b e : Z) : Z * Z :=
  if (0 <=? e)%Z then (a, (b * 2 ^ e)%Z) else ((a * 2 ^ (- e))%Z, b).

(** For [a, b > 0], the [k] with [2 ^ k <= a / b < 2 ^ (k + 1)]. *)
Definition floor_log2_quot (a b : Z) : Z :=
  let k := (Z.log2 a - Z.log2 b)%Z in
  let '(n, d) := scaled a b k in
  if (d <=? n)%Z then k else (k - 1)%Z.

(** [a / b] on Python integers: the quotient correctly rounded to a
    double (round to nearest, ties to even), with gradual underflow. *)
Definition true_div (a b : Z) : Py.result float :=
  if (b =? 0)%Z then Py.raise Py.ZeroDivisionError
  else if (a =? 0)%Z then Py.ok (Float 0 0)
  else
    let e := Z.max emin (floor_log2_quot (Z.abs a) (Z.abs b) - (prec - 1)) in
    let '(n, d) := scaled (a * Z.sgn b) (Z.abs b) e in
    let m := round_half_even n d in
    if (emax <=? Z.log2 (Z.abs m) + e)%Z then Py.raise Py.OverflowError
    else Py.ok (Float m e).

(** [round(x, 1)]: the exact value of [x] rounded to one decimal digit,
    ties to even. *)
Definition round1 (x : float) : decimal1 :=
  if (0 <=? expo x)%Z then Decimal1 (10 * mant x * 2 ^ expo x)
  else Decimal1 (round_half_even (10 * mant x) (2 ^ (- expo x))).

(** The float literal [0.0]. *)
Definition zero : decimal1 := Decimal1 0.

(** The IEEE 754 division of the Standard Library at binary64, and the
    comparison of its result with a [float] above. *)
Definition binary64_div (a b : positive) : spec_float :=
  SFdiv prec emax (S754_finite false a 0) (S754_finite false b 0).

Definition same_value (x : float) (f : spec_float) : bool :=
  match f with
  | S754_zero _ => (mant x =? 0)%Z
  | S754_finite s m e =>
      let v := if s then Zneg m else Zpos m in
      let lo := Z.min e (expo x) in
      (v * 2 ^ (e - lo) =? mant x * 2 ^ (expo x - lo))%Z
  | _ => false
  end.

Definition agrees_with_binary64 (ab : positive * positive) : bool :=
  let '(a, b) := ab in
  match true_div (Zpos a) (Zpos b), binary64_div a b with
  | inr x, f => same_value x f
  | inl _, S754_infinity _ => true
  | inl _, _ => false
  end.

End Float64.

(* ================================================================== *)
(** ** Collaborators and effects of the handlers *)
(* ================================================================== *)

Module Effects.
Import Py.

(** Calls that leave the server: to the analyzer and to the webhook sink. *)
Inductive event : Type :=
| AnalyzeSingle (title summary request_id : string)
| AnalyzeBatch (news_items : list value) (request_id : string)
| KeywordAnalysis (text : string)
| DetectCoins (text : string)
| SendBatchResults (results : list dict) (request_id : string).

(** What a handler can observe and change: the number of clock readings
    taken so far and the log of collaborator calls, oldest first. *)
Record world : Type := World { ticks : nat; calls : list event }.

Definition M (A : Type) : Type := world -> result A * world.

Definition ret {A} (a : A) : M A := fun w => (ok a, w).

Definition bind {A B} (m : M A) (k : A -> M B) : M B :=
  fun w =>
    match m w with
    | (inl e, w') => (inl e, w')
    | (inr a, w') => k a w'
    end.

(** A computation of the runtime that may raise but calls nobody. *)
Definition lift {A} (r : result A) : M A := fun w => (r, w).

(** [try: m  except Exception as e: handler(e)]. *)
Definition try_except {A} (m : M A) (handler : exn -> M A) : M A :=
  fun w =>
    match m w with
    | (inl e, w') => handler e w'
    | (inr a, w') => (inr a, w')
    end.

(** A collaborator call: it is logged, and answers or raises. *)
Definition call {A} (ev : event) (answer : result A) : M A :=
  fun w => (answer, World (ticks w) (calls w ++ [ev])).

(** [datetime.utcnow()]: the index of this clock reading. *)
Definition utcnow : M nat :=
  fun w => (ok (ticks w), World (S (ticks w)) (calls w)).

End Effects.

Declare Scope eff_scope.
Delimit Scope eff_scope with eff.
Notation "x <- m ;; k" := (Effects.bind m (fun x => k))
  (at level 61, m at next level, right associativity) : eff_scope.

(* ================================================================== *)
(** ** Interfaces of [news_analyzer] and [webhook_manager] *)
(* ================================================================== *)

Module CryptoNewsAnalyzer.
Import Py.

(** Modelled from the spec: the enumeration [ImpactClass] of
    [news_analyzer], whose [.value] the keyword handler reports
    ("enumerated value: Positive | Negative | Neutral"). *)
Inductive ImpactClass : Type := Positive | Negative | Neutral.

Definition impact_value (i : ImpactClass) : string :=
  match i with
  | Positive => "Positive"
  | Negative => "Negative"
  | Neutral => "Neutral"
  end.

(** The analyzer as the server uses it; [W] is the type of lexicon
    weights and a lexicon lists its phrases in iteration order.
    [analyze_single] stands for the call followed by [result.dict()]. *)
Record t (W : Type) : Type := {
  analyze_single : string -> string -> string -> result dict;
  analyze_batch : list value -> string -> result (list dict);
  _keyword_analysis : string -> result (ImpactClass * value);
  _detect_coins : string -> result value;
  positive_keywords : list (string * W);
  negative_keywords : list (string * W)
}.

End CryptoNewsAnalyzer.

Module WebhookManager.
Import Py.

Record t : Type := {
  send_batch_results : list dict -> string -> result unit
}.

End WebhookManager.

(* ================================================================== *)
(** ** The server *)
(* ================================================================== *)

Module Server.
Import Py Effects.

(** The two renderings of a clock reading used by the handlers:
    [strftime('%H%M%S%f')] and [isoformat()]. *)
Record Clock : Type := {
  strftime : nat -> string;
  isoformat : nat -> string
}.

(** [self] as the analysis handlers use it once [initialize] has run:
    the analyzer is set, the webhook manager may be absent.  ([__init__]
    leaves the analyzer [None]; the one place that tests it, the health
    check, reads [Host.analyzer_truthy].) *)
Record KaayaanMCPNewsServer (W : Type) : Type := {
  analyzer : CryptoNewsAnalyzer.t W;
  webhook_manager : option WebhookManager.t;
  clock : Clock
}.

(** *** JSON-RPC responses *)

(** [data], when present, is [str(e)] of the exception [e] that was
    caught; the record keeps the exception itself. *)
Record mcp_error : Type := McpError {
  code : Z;
  message : string;
  data : option exn
}.

Inductive mcp_response (A : Type) : Type :=
| Result (id : value) (result : option A)
| Error (id : value) (error : mcp_error).

Arguments Result {A} id result.
Arguments Error {A} id error.

Definition create_mcp_error (code : Z) (message : string) (data : option exn)
  : mcp_error := McpError code message data.

Definition create_mcp_response {A} (id : value) (result : option A)
  (error : option mcp_error) : mcp_response A :=
  match error with
  | Some e => Error id e
  | None => Result id result
  end.

(** *** Batch summary *)

Record batch_summary : Type := Summary {
  positive_count : nat;
  negative_count : nat;
  neutral_count : nat;
  high_confidence_count : nat;
  low_confidence_count : nat;
  error_count : nat;
  avg_confidence : Float64.decimal1;
  top_affected_coins : list (value * nat)
}.

Definition empty_summary : batch_summary :=
  Summary 0 0 0 0 0 0 Float64.zero [].

Definition count_impact (impact : value) (s : batch_summary) : batch_summary :=
  if eq_str impact "Positive" then
    Summary (positive_count s + 1) (negative_count s) (neutral_count s)
      (high_confidence_count s) (low_confidence_count s) (error_count s)
      (avg_confidence s) (top_affected_coins s)
  else if eq_str impact "Negative" then
    Summary (positive_count s) (negative_count s + 1) (neutral_count s)
      (high_confidence_count s) (low_confidence_count s) (error_count s)
      (avg_confidence s) (top_affected_coins s)
  else
    Summary (positive_count s) (negative_count s) (neutral_count s + 1)
      (high_confidence_count s) (low_confidence_count s) (error_count s)
      (avg_confidence s) (top_affected_coins s).

Definition count_confidence (high : bool) (s : batch_summary) : batch_summary :=
  if high then
    Summary (positive_count s) (negative_count s) (neutral_count s)
      (high_confidence_count s + 1) (low_confidence_count s) (error_count s)
      (avg_confidence s) (top_affected_coins s)
  else
    Summary (positive_count s) (negative_count s) (neutral_count s)
      (high_confidence_count s) (low_confidence_count s + 1) (error_count s)
      (avg_confidence s) (top_affected_coins s).

Definition count_error (err : value) (s : batch_summary) : batch_summary :=
  if truthy err then
    Summary (positive_count s) (negative_count s) (neutral_count s)
      (high_confidence_count s) (low_confidence_count s) (error_count s + 1)
      (avg_confidence s) (top_affected_coins s)
  else s.

Definition set_avg_confidence (a : Float64.decimal1) (s : batch_summary)
  : batch_summary :=
  Summary (positive_count s) (negative_count s) (neutral_count s)
    (high_confidence_count s) (low_confidence_count s) (error_count s)
    a (top_affected_coins s).

Definition set_top_affected_coins (t : list (value * nat)) (s : batch_summary)
  : batch_summary :=
  Summary (positive_count s) (negative_count s) (neutral_count s)
    (high_confidence_count s) (low_confidence_count s) (error_count s)
    (avg_confidence s) t.

(** The variables the loop of [_generate_batch_summary] updates. *)
Record loop_state : Type := LoopState {
  acc_summary : batch_summary;
  confidences : list value;
  all_coins : list value
}.

(** One iteration of [for result in results]. *)
Definition loop_body (st : loop_state) (result : dict) : Py.result loop_state :=
  let impact := get result "impact" (VStr "Neutral") in
  let confidence := get result "confidence" (VInt 0) in
  let s1 := count_impact impact (acc_summary st) in
  rbind (gt_int confidence 75) (fun high =>
  let s2 := count_confidence high s1 in
  let s3 := count_error (get result "error" VNone) s2 in
  rbind (iterate (get result "affected_coins" (VList []))) (fun coins =>
  ok (LoopState s3 (confidences st ++ [confidence]) (all_coins st ++ coins)))).

Definition _generate_batch_summary (results : list dict)
  : Py.result batch_summary :=
  rbind (for_each loop_body (LoopState empty_summary [] []) results) (fun st =>
  rbind
    (match confidences st with
     | [] => ok (acc_summary st)
     | _ :: _ =>
         rbind (sum (confidences st)) (fun total =>
         rbind (Float64.true_div total
                  (Z.of_nat (List.length (confidences st))))
           (fun mean =>
         ok (set_avg_confidence (Float64.round1 mean) (acc_summary st))))
     end) (fun s =>
  match all_coins st with
  | [] => ok s
  | _ :: _ =>
      rbind (Collections.Counter_values (all_coins st)) (fun coin_counts =>
      ok (set_top_affected_coins
            (Collections.most_common 5 coin_counts) s))
  end)).

(** *** Tool handlers *)

(** The [result] object of [crypto_news_batch_analyze]. *)
Record batch_response : Type := BatchResponse {
  results : list dict;
  total_items : nat;
  request_id : string;
  timestamp : string;
  summary : batch_summary
}.

(** An element of [positive_keywords] / [negative_keywords] in the
    keyword report: the phrase alone, or [{"keyword": .., "weight": ..}]. *)
Inductive keyword_entry (W : Type) : Type :=
| Plain (keyword : string)
| Weighted (keyword : string) (weight : W).

Arguments Plain {W} keyword.
Arguments Weighted {W} keyword weight.

(** The [result] object of [crypto_impact_keywords]. *)
Record keyword_report (W : Type) : Type := KeywordReport {
  impact : string;
  confidence : value;
  positive_keywords : list (keyword_entry W);
  negative_keywords : list (keyword_entry W);
  detected_coins : value;
  total_keywords : nat;
  analysis_timestamp : string
}.

(** The metadata loop of the batch handler,
    [for i, result in enumerate(results)], from index [i] on.  The
    results are distinct objects, so that the in-place assignments to
    one of them are a functional update of that one ([Objects.add_metadata]
    below is the loop on objects that may be shared). *)
Fixpoint add_metadata (request_id : string) (news_items : list value)
  (i : nat) (results : list dict) : Py.result (list dict) :=
  match results with
  | [] => ok []
  | result :: rest =>
      let result := dict_set result "item_index" (VInt (Z.of_nat i)) in
      let result :=
        dict_set result "analysis_id"
          (VStr (request_id ++ "_item_" ++ str_of_nat i)) in
      rbind
        (match nth_error news_items i with
         | Some item =>
             rbind (contains_str item "source") (fun present =>
             if present
             then rbind (getitem_str item "source") (fun src =>
                  ok (dict_set result "source" src))
             else ok result)
         | None => ok result
         end) (fun result =>
      rbind (add_metadata request_id news_items (S i) rest) (fun rest' =>
      ok (result :: rest')))
  end.

(** The two lexicon loops of the keyword handler: the phrases are visited
    in lexicon order and a hit is appended to the report. *)
Fixpoint matched_keywords {W} (include_weights : value) (text : string)
  (lexicon : list (string * W)) : list (keyword_entry W) :=
  match lexicon with
  | [] => []
  | (keyword, weight) :: rest =>
      if Re.search_keyword keyword text
      then (if truthy include_weights
            then Weighted keyword weight
            else Plain keyword)
           :: matched_keywords include_weights text rest
      else matched_keywords include_weights text rest
  end.

Section Handlers.
Context {W : Type} (self : KaayaanMCPNewsServer W).

Local Open Scope eff_scope.
Local Open Scope string_scope.

Definition _handle_single_analysis (id : value) (arguments : dict)
  : M (mcp_response dict) :=
  title <- lift (strip_value (get arguments "title" (VStr ""))) ;;
  summary <- lift (strip_value (get arguments "summary" (VStr ""))) ;;
  source <- lift (strip_value (get arguments "source" (VStr ""))) ;;
  if String.eqb title "" || String.eqb summary "" then
    ret (create_mcp_response id None
           (Some (create_mcp_error (-32602)
                    "Invalid params: title and summary required" None)))
  else
    now <- utcnow ;;
    let request_id := "mcp_single_" ++ strftime (clock self) now in
    try_except
      (response_data <-
         call (AnalyzeSingle title summary request_id)
              (CryptoNewsAnalyzer.analyze_single (analyzer self)
                 title summary request_id) ;;
       let response_data :=
         if String.eqb source "" then response_data
         else dict_set response_data "source" (VStr source) in
       let response_data :=
         dict_set response_data "analysis_id" (VStr request_id) in
       now' <- utcnow ;;
       let response_data :=
         dict_set response_data "timestamp"
           (VStr (isoformat (clock self) now' ++ "Z")) in
       ret (create_mcp_response id (Some response_data) None))
      (fun e =>
         ret (create_mcp_response id None
                (Some (create_mcp_error (-32603) "Analysis failed"
                         (Some e))))).

(** [not news_items or not isinstance(news_items, list)] holds of
    everything but a non-empty list, which is the first case below. *)
Definition _handle_batch_analysis (id : value) (arguments : dict)
  : M (mcp_response batch_response) :=
  match get arguments "news_items" (VList []) with
  | VList (first :: others) =>
      let news_items := first :: others in
      if (50 <? List.length news_items)%nat then
        ret (create_mcp_response id None
               (Some (create_mcp_error (-32602)
                        "Batch size limit exceeded (max 50 items)" None)))
      else
        now <- utcnow ;;
        let request_id := "mcp_batch_" ++ strftime (clock self) now in
        try_except
          (results <-
             call (AnalyzeBatch news_items request_id)
                  (CryptoNewsAnalyzer.analyze_batch (analyzer self)
                     news_items request_id) ;;
           results <- lift (add_metadata request_id news_items 0 results) ;;
           _ <- match webhook_manager self with
                | Some wm =>
                    call (SendBatchResults results request_id)
                         (WebhookManager.send_batch_results wm
                            results request_id)
                | None => ret tt
                end ;;
           now' <- utcnow ;;
           summary <- lift (_generate_batch_summary results) ;;
           ret (create_mcp_response id
                  (Some (BatchResponse results (List.length results)
                           request_id
                           (isoformat (clock self) now' ++ "Z")
                           summary))
                  None))
          (fun e =>
             ret (create_mcp_response id None
                    (Some (create_mcp_error (-32603)
                             "Batch analysis failed" (Some e)))))
  | _ =>
      ret (create_mcp_response id None
             (Some (create_mcp_error (-32602)
                      "Invalid params: news_items array required" None)))
  end.

Definition _handle_keyword_analysis (id : value) (arguments : dict)
  : M (mcp_response (keyword_report W)) :=
  text <- lift (strip_value (get arguments "text" (VStr ""))) ;;
  let include_weights := get arguments "include_weights" (VBool false) in
  if String.eqb text "" then
    ret (create_mcp_response id None
           (Some (create_mcp_error (-32602)
                    "Invalid params: text required" None)))
  else
    try_except
      (keyword_result <-
         call (KeywordAnalysis (Str.lower text))
              (CryptoNewsAnalyzer._keyword_analysis (analyzer self)
                 (Str.lower text)) ;;
       let '(impact, confidence) := keyword_result in
       let positive_keywords :=
         matched_keywords include_weights text
           (CryptoNewsAnalyzer.positive_keywords (analyzer self)) in
       let negative_keywords :=
         matched_keywords include_weights text
           (CryptoNewsAnalyzer.negative_keywords (analyzer self)) in
       detected_coins <-
         call (DetectCoins text)
              (CryptoNewsAnalyzer._detect_coins (analyzer self) text) ;;
       now <- utcnow ;;
       ret (create_mcp_response id
              (Some (KeywordReport
                       (CryptoNewsAnalyzer.impact_value impact)
                       confidence positive_keywords negative_keywords
                       detected_coins
                       (List.length positive_keywords
                        + List.length negative_keywords)
                       (isoformat (clock self) now ++ "Z")))
              None))
      (fun e =>
         ret (create_mcp_response id None
                (Some (create_mcp_error (-32603)
                         "Keyword analysis failed" (Some e))))).

End Handlers.

End Server.

(* ================================================================== *)
(** ** The batch entry point of the analysis engine *)
(* ================================================================== *)

Module AnalysisEngine.
Import Py.

Section Batch.
(** Scoring of one news item, which may fail, and the text recorded for
    a failure. *)
Variable score_item : value -> string -> result dict.
Variable describe : exn -> string.

(** Modelled from the spec: the [AnalysisResult] of [news_analyzer] for
    an item whose scoring failed ("optional [error]: present only if
    scoring could not be completed for this item; when present,
    impact/confidence fall back to [Neutral]/[0]"). *)
Definition failure_result (e : exn) (request_id : string) : dict :=
  [("impact", VStr "Neutral"); ("confidence", VInt 0);
   ("affected_coins", VList []); ("request_id", VStr request_id);
   ("error", VStr (describe e))]%string.

(** Modelled from the spec: the per-item step of [analyze_batch] of
    [news_analyzer], a successful analysis or a failure marker. *)
Definition analyze_item (request_id : string) (item : value) : dict :=
  match score_item item request_id with
  | inr r => r
  | inl e => failure_result e request_id
  end.

(** Modelled from the spec: [analyze_batch] of [news_analyzer], which is
    not part of the sources.  "Processes each item independently and in
    input order; a failure scoring one item must not abort the remaining
    items -- the failing item's result carries [error] set and neutral
    defaults, and processing continues." *)
Definition analyze_batch (items : list value) (request_id : string)
  : result (list dict) :=
  ok (map (analyze_item request_id) items).
End Batch.

End AnalysisEngine.

(* ================================================================== *)
(** ** Vocabulary of the statements *)
(* ================================================================== *)

Module Spec.
Import Py.

(** *** Result records *)

Definition impact_of (r : dict) : value := get r "impact" (VStr "Neutral").
Definition confidence_of (r : dict) : value := get r "confidence" (VInt 0).
Definition coins_of (r : dict) : value := get r "affected_coins" (VList []).

Definition is_positive (r : dict) : bool := eq_str (impact_of r) "Positive".
Definition is_negative (r : dict) : bool := eq_str (impact_of r) "Negative".
Definition is_neutral (r : dict) : bool :=
  negb (is_positive r) && negb (is_negative r).

(** The number a confidence field stands for ([0] when it is absent). *)
Definition confidence_int (r : dict) : Z :=
  match as_int (confidence_of r) with
  | Some z => z
  | None => 0%Z
  end.

Definition is_high (r : dict) : bool := (75 <? confidence_int r)%Z.

Definition is_str (v : value) : bool :=
  match v with
  | VStr _ => true
  | _ => false
  end.

Definition str_of (v : value) : string :=
  match v with
  | VStr s => s
  | _ => EmptyString
  end.

Definition has_error (r : dict) : bool := truthy (get r "error" VNone).

Definition count {A} (p : A -> bool) (l : list A) : nat :=
  List.length (filter p l).

(** What iterating over the affected coins of a record yields. *)
Definition iter_coins (r : dict) : list value :=
  match iterate (coins_of r) with
  | inr l => l
  | inl _ => []
  end.

(** The loop body of the summary on a record it accepts. *)
Definition step (st : Server.loop_state) (r : dict) : Server.loop_state :=
  Server.LoopState
    (Server.count_error (get r "error" VNone)
       (Server.count_confidence (is_high r)
          (Server.count_impact (impact_of r) (Server.acc_summary st))))
    (Server.confidences st ++ [confidence_of r])
    (Server.all_coins st ++ iter_coins r).

(** The two conditions under which the loop body does not raise. *)
Definition numeric (r : dict) : Prop := as_int (confidence_of r) <> None.
Definition iterable (r : dict) : Prop :=
  exists l, iterate (coins_of r) = inr l.

(** The exact sum of the confidences of a batch. *)
Definition total_confidence (results : list dict) : Z :=
  fold_right Z.add 0%Z (map confidence_int results).

(** [d] is the mean [total / n] rounded to one decimal place: it is
    within half a tenth of the mean, and it is the decimal [t / 10]
    whenever that one is strictly within half a tenth (so that only a
    mean exactly halfway between two tenths leaves a choice). *)
Definition is_mean_rounded (d : Float64.decimal1) (total : Z) (n : nat)
  : Prop :=
  (2 * Z.abs (Float64.tenths d * Z.of_nat n - 10 * total) <= Z.of_nat n /\
   forall t,
     2 * Z.abs (t * Z.of_nat n - 10 * total) < Z.of_nat n ->
     Float64.tenths d = t)%Z.

(** The conventions for a mean that lies exactly halfway between two
    tenths. *)
Inductive tie_rule : Type :=
| HalfUp
| HalfDown
| HalfEven
| HalfOdd.

(** [d] is the mean [total / n] rounded to one decimal place under the
    convention [rule]: a tenth nearest to the mean, and the one the
    convention picks when the mean is exactly halfway between two. *)
Definition is_mean_rounded_by (rule : tie_rule) (d : Float64.decimal1)
  (total : Z) (n : nat) : Prop :=
  (2 * Z.abs (Float64.tenths d * Z.of_nat n - 10 * total) <= Z.of_nat n /\
   (2 * Z.abs (Float64.tenths d * Z.of_nat n - 10 * total) = Z.of_nat n ->
    match rule with
    | HalfUp => 10 * total < Float64.tenths d * Z.of_nat n
    | HalfDown => Float64.tenths d * Z.of_nat n < 10 * total
    | HalfEven => Z.even (Float64.tenths d) = true
    | HalfOdd => Z.odd (Float64.tenths d) = true
    end))%Z.

(** The coin symbols of a record, in order. *)
Definition coin_names (r : dict) : list string :=
  match coins_of r with
  | VList l => map str_of l
  | _ => []
  end.

(** All coin mentions of a batch, flattened in input order. *)
Definition coin_mentions (results : list dict) : list string :=
  flat_map coin_names results.

(** A record that conforms to the data model wherever a field is present:
    the confidence is an integer in [0, 100] and the affected coins are a
    list of strings.  Nothing is asked of [impact] or [error], and any
    field may be missing. *)
Definition confidence_in_range (r : dict) : bool :=
  match dict_get r "confidence" with
  | None => true
  | Some v =>
      match as_int v with
      | Some z => (0 <=? z)%Z && (z <=? 100)%Z
      | None => false
      end
  end.

Definition coins_are_strings (r : dict) : bool :=
  match dict_get r "affected_coins" with
  | None => true
  | Some (VList l) => forallb is_str l
  | Some _ => false
  end.

(** The impact field is missing, or holds anything but ["Positive"] and
    ["Negative"]. *)
Definition impact_missing_or_other (r : dict) : bool :=
  match dict_get r "impact" with
  | None => true
  | Some v => negb (eq_str v "Positive") && negb (eq_str v "Negative")
  end.

Definition conforms (r : dict) : bool :=
  confidence_in_range r && coins_are_strings r.

(** A record with its missing fields filled in by the documented
    defaults. *)
Definition with_default (k : string) (v : value) (r : dict) : dict :=
  match dict_get r k with
  | Some _ => r
  | None => r ++ [(k, v)]
  end.

Definition fill_defaults (r : dict) : dict :=
  with_default "affected_coins" (VList [])
    (with_default "confidence" (VInt 0)
       (with_default "impact" (VStr "Neutral") r)).

(** *** Ranking of coins *)

Section Ranking.
Context {K : Type} (eqb : K -> K -> bool).

Definition mentions (l : list K) (c : K) : nat :=
  List.length (filter (eqb c) l).

(** Position of the first occurrence of [c] in [l]. *)
Fixpoint first_index (l : list K) (c : K) : nat :=
  match l with
  | [] => 0
  | x :: l' => if eqb x c then 0 else S (first_index l' c)
  end.

(** The distinct elements of [l], in order of first occurrence. *)
Definition distinct (l : list K) : list K :=
  fold_left
    (fun acc x =>
       if existsb (fun y => eqb y x) acc then acc else acc ++ [x])
    l [].

(** An entry of a counter with its key mapped by [f]. *)
Definition on_key {L : Type} (f : K -> L) (e : K * nat) : L * nat :=
  (f (fst e), snd e).

(** [a] is ahead of [b]: its count is larger, or the counts are equal
    and [a] is the earlier of the two. *)
Definition ahead (earlier : K * nat -> K * nat -> Prop) (a b : K * nat)
  : Prop :=
  snd b < snd a \/ (snd a = snd b /\ earlier a b).

(** [a] ranks before [b]: it is mentioned more often, or as often and
    first mentioned earlier. *)
Definition ranks_before (l : list K) : K * nat -> K * nat -> Prop :=
  ahead (fun a b => first_index l (fst a) < first_index l (fst b)).
End Ranking.

(** *** Word-boundary-anchored occurrences *)

(** The character just before the position reached after reading [s],
    when [prev] was the character before [s]. *)
Fixpoint last_char (prev : option ascii) (s : list ascii) : option ascii :=
  match s with
  | [] => prev
  | c :: s' => last_char (Some c) s'
  end.

(** Letters, digits and words, in the words of the spec; code points
    are those of Latin-1.  Nothing here refers to the matcher. *)

(** A letter: [A]-[Z], [a]-[z], and the letters of Latin-1 (the ordinal
    indicators, the micro sign, and the accented letters). *)
Definition letter (c : ascii) : Prop :=
  let n := N_of_ascii c in
  (65 <= n <= 90 \/ 97 <= n <= 122 \/ n = 170 \/ n = 181 \/ n = 186 \/
   192 <= n <= 214 \/ 216 <= n <= 246 \/ 248 <= n <= 255)%N.

(** A digit: [0]-[9], and the numeric characters of Latin-1 (the
    superscripts one, two and three and the three fractions). *)
Definition digit (c : ascii) : Prop :=
  let n := N_of_ascii c in
  (48 <= n <= 57 \/ 178 <= n <= 179 \/ n = 185 \/ 188 <= n <= 190)%N.

(** A character of a word: a letter, a digit or the underscore. *)
Definition word_char (c : ascii) : Prop :=
  letter c \/ digit c \/ N_of_ascii c = 95%N.

(** There is a character at this place and it belongs to a word. *)
Definition word_at (c : option ascii) : Prop :=
  exists x, c = Some x /\ word_char x.

(** A word boundary: a word character on exactly one side. *)
Definition word_boundary (prev next : option ascii) : Prop :=
  (word_at prev /\ ~ word_at next) \/ (~ word_at prev /\ word_at next).

(** [l] is the lower-case form of the upper-case letter [u]: 32 code
    points further, for [A]-[Z] and for the upper-case letters of
    Latin-1. *)
Definition lower_case_of (u l : ascii) : Prop :=
  let n := N_of_ascii u in
  ((65 <= n <= 90 \/ 192 <= n <= 214 \/ 216 <= n <= 222) /\
   N_of_ascii l = n + 32)%N.

(** The same character up to case. *)
Definition same_letter (a b : ascii) : Prop :=
  a = b \/ lower_case_of a b \/ lower_case_of b a.

(** [text] contains [keyword], compared case-insensitively, between two
    word boundaries. *)
Definition occurs_at_word_boundaries (keyword text : list ascii) : Prop :=
  exists before hit after,
    text = before ++ hit ++ after /\
    Forall2 same_letter hit keyword /\
    word_boundary (last_char None before) (hd_error (hit ++ after)) /\
    word_boundary (last_char None (before ++ hit)) (hd_error after).

(** [text] contains [keyword], compared case-insensitively, as a run that
    is neither preceded nor followed by a word character. *)
Definition occurs_as_whole_words (keyword text : list ascii) : Prop :=
  exists before hit after,
    text = before ++ hit ++ after /\
    Forall2 same_letter hit keyword /\
    ~ word_at (last_char None before) /\
    ~ word_at (hd_error after).

(** The same three notions as the matcher tests them, for the proofs
    about it. *)
Definition matcher_hit (keyword text : list ascii) : Prop :=
  exists before hit after,
    text = before ++ hit ++ after /\
    Forall2 (fun c p => Re.ci_eqb c p = true) hit keyword /\
    Re.at_boundary (last_char None before) (hd_error (hit ++ after)) = true /\
    Re.at_boundary (last_char None (before ++ hit)) (hd_error after) = true.

Definition matcher_whole_words (keyword text : list ascii) : Prop :=
  exists before hit after,
    text = before ++ hit ++ after /\
    Forall2 (fun c p => Re.ci_eqb c p = true) hit keyword /\
    Re.word_opt (last_char None before) = false /\
    Re.word_opt (hd_error after) = false.

Definition matcher_delimited (keyword : list ascii) : Prop :=
  Re.word_opt (hd_error keyword) = true /\
  Re.word_opt (last_char None keyword) = true.

(** *** Keyword reports *)

Definition entry_keyword {W} (e : Server.keyword_entry W) : string :=
  match e with
  | Server.Plain k => k
  | Server.Weighted k _ => k
  end.

Definition entry_weight {W} (e : Server.keyword_entry W) : option W :=
  match e with
  | Server.Plain _ => None
  | Server.Weighted _ w => Some w
  end.

(** The keyword starts and ends with a word character. *)
Definition word_delimited (keyword : list ascii) : Prop :=
  word_at (hd_error keyword) /\ word_at (last_char None keyword).

(** [entries] reports the phrases of [lexicon] found in [text]: the
    reported phrases are exactly the lexicon phrases that occur in the
    text between word boundaries, compared case-insensitively; a reported
    phrase that starts and ends with a word character occurs as whole
    words; and each entry carries the lexicon weight of its phrase when
    weights are requested, and the phrase alone otherwise. *)
Definition reports {W} (include_weights : bool) (text : string)
  (lexicon : list (string * W)) (entries : list (Server.keyword_entry W))
  : Prop :=
  (forall k,
     In k (map entry_keyword entries) <->
     In k (map fst lexicon) /\
     occurs_at_word_boundaries (list_ascii_of_string k)
                               (list_ascii_of_string text)) /\
  (forall k,
     In k (map entry_keyword entries) ->
     word_delimited (list_ascii_of_string k) ->
     occurs_as_whole_words (list_ascii_of_string k)
                           (list_ascii_of_string text)) /\
  (forall e,
     In e entries ->
     if include_weights
     then exists w, entry_weight e = Some w /\ In (entry_keyword e, w) lexicon
     else entry_weight e = None).

(** The string an argument stands for when it is absent (the default
    [""]) or a [str]. *)
Definition str_arg (arguments : dict) (k : string) : option string :=
  match dict_get arguments k with
  | None => Some EmptyString
  | Some (VStr s) => Some s
  | Some _ => None
  end.

(** The argument is absent, or a [str] that is empty once stripped. *)
Definition missing_or_empty (arguments : dict) (k : string) : Prop :=
  match dict_get arguments k with
  | None => True
  | Some (VStr s) => Str.strip s = EmptyString
  | Some _ => False
  end.

Definition is_dict (v : value) : bool :=
  match v with
  | VDict _ => true
  | _ => false
  end.

(** *** Batch results *)

(** The keys the batch handler writes into a result. *)
Definition metadata_key (k : string) : Prop :=
  k = "item_index"%string \/ k = "analysis_id"%string \/ k = "source"%string.

(** [r'] is the result [r] with the metadata of position [index]: it
    carries that index and agrees with [r] on every other field of the
    analysis. *)
Definition annotated_from (index : nat) (r r' : dict) : Prop :=
  dict_get r' "item_index" = Some (VInt (Z.of_nat index)) /\
  forall k, ~ metadata_key k -> dict_get r' k = dict_get r k.

(** [r] is what the batch analysis owes for [item]: the scored result,
    or, when scoring fails, a record with [error] set and the
    [Neutral] / [0] defaults. *)
Definition item_outcome (score_item : value -> string -> result dict)
  (describe : exn -> string) (request_id : string) (item : value) (r : dict)
  : Prop :=
  match score_item item request_id with
  | inr scored => r = scored
  | inl e =>
      dict_get r "error" = Some (VStr (describe e)) /\
      dict_get r "impact" = Some (VStr "Neutral") /\
      dict_get r "confidence" = Some (VInt 0)
  end.

(** *** Responses *)

(** The error code of a response, if it is an error. *)
Definition error_code {A} (r : Server.mcp_response A) : option Z :=
  match r with
  | Server.Error _ e => Some (Server.code e)
  | Server.Result _ _ => None
  end.

Definition invalid_params : Z := (-32602)%Z.

End Spec.

(* ================================================================== *)
(** ** A small server to run the handlers on *)
(* ================================================================== *)

Module Samples.
Import Py.
Local Open Scope string_scope.

(** Scoring that fails on an item without a title. *)
Definition score_item (item : value) (request_id : string) : result dict :=
  match item with
  | VDict d =>
      if truthy (get d "title" (VStr ""))
      then ok [("impact", VStr "Neutral"); ("confidence", VInt 50);
               ("affected_coins", VList []);
               ("request_id", VStr request_id)]
      else raise (Raised "title required")
  | _ => raise TypeError
  end.

Definition describe (e : exn) : string :=
  match e with
  | Raised msg => msg
  | _ => "error"
  end.

Definition analyzer : CryptoNewsAnalyzer.t Z := {|
  CryptoNewsAnalyzer.analyze_single := fun _ _ request_id =>
    ok [("impact", VStr "Neutral"); ("confidence", VInt 50);
        ("affected_coins", VList []); ("request_id", VStr request_id)];
  CryptoNewsAnalyzer.analyze_batch :=
    AnalysisEngine.analyze_batch score_item describe;
  CryptoNewsAnalyzer._keyword_analysis := fun _ =>
    ok (CryptoNewsAnalyzer.Neutral, VInt 50);
  CryptoNewsAnalyzer._detect_coins := fun _ => ok (VList []);
  CryptoNewsAnalyzer.positive_keywords := [("surge", 8); ("rally", 7)]%Z;
  CryptoNewsAnalyzer.negative_keywords :=
    [("ban", 9); ("regulatory ban", 10); ("hack", 8)]%Z
|}.

Definition clock : Server.Clock := {|
  Server.strftime := str_of_nat;
  Server.isoformat := str_of_nat
|}.

Definition server : Server.KaayaanMCPNewsServer Z := {|
  Server.analyzer := analyzer;
  Server.webhook_manager := None;
  Server.clock := clock
|}.

Definition world0 : Effects.world := Effects.World 0 [].

Definition item (title : string) : value :=
  VDict [("title", VStr title); ("summary", VStr "text")].

End Samples.

(* ================================================================== *)
(** ** The rest of the server: remaining collaborators *)
(* ================================================================== *)

Module CacheManager.
Import Py.

(** The cache as the server uses it: what each call answers or raises. *)
Record t : Type := {
  get : string -> result value;
  set : string -> value -> Z -> result unit;
  is_connected : result value;
  get_stats : result value
}.

End CacheManager.

Module Runtime.
Import Py.

(** What [json.loads] does with a line: it returns the value, raises
    [JSONDecodeError], or raises something else ([RecursionError] on
    deeply nested input, [ValueError] on an integer of too many
    digits). *)
Inductive loaded : Type :=
| Loaded (v : value)
| JSONDecodeError
| LoadRaised (e : exn).

(** Built-ins whose results the server only passes on: [str] of an object
    that is not a [str], [sorted] of anything but a list of [str], [hash]
    of a [str], the process environment, [json.loads]. *)
Record t : Type := {
  str_other : value -> string;
  sorted_other : value -> result (list value);
  hash : string -> Z;
  getenv : string -> option string;
  json_loads : string -> loaded
}.

(** [str(v)], also what an f-string puts for [{v}]. *)
Definition str (rt : t) (v : value) : string :=
  match v with
  | VStr s => s
  | _ => str_other rt v
  end.

(** [str(z)] for an integer. *)
Definition str_of_Z (z : Z) : string := NilZero.string_of_int (Z.to_int z).

(** One step of sorting strings by code points. *)
Fixpoint insert_str (s : string) (l : list string) : list string :=
  match l with
  | [] => [s]
  | h :: t => if String.leb s h then s :: l else h :: insert_str s t
  end.

Definition sort_strs (l : list string) : list string :=
  fold_right insert_str [] l.

(** [sorted(v)]. *)
Definition sorted (rt : t) (v : value) : result (list value) :=
  match v with
  | VList l =>
      if forallb Spec.is_str l
      then ok (map VStr (sort_strs (map Spec.str_of l)))
      else sorted_other rt v
  | _ => sorted_other rt v
  end.

(** [v.get] needs a dict: any other object has no such attribute. *)
Definition as_dict (v : value) : result dict :=
  match v with
  | VDict d => ok d
  | _ => raise AttributeError
  end.

(** [NameError] for a name that neither the module nor the built-ins
    define. *)
Definition NameError (name : string) : exn :=
  Raised ("name '" ++ name ++ "' is not defined").

(** The names a literal of the module can refer to. *)
Definition lookup_name (name : string) : result value :=
  if String.eqb name "True" then ok (VBool true)
  else if String.eqb name "False" then ok (VBool false)
  else if String.eqb name "None" then ok VNone
  else raise (NameError name).

(** Displays made of literals and names, and their evaluation from left
    to right. *)
Inductive expr : Type :=
| EStr (s : string)
| EInt (z : Z)
| EName (name : string)
| EList (items : list expr)
| EDict (items : list (string * expr)).

Fixpoint eval (e : expr) : result value :=
  match e with
  | EStr s => ok (VStr s)
  | EInt z => ok (VInt z)
  | EName name => lookup_name name
  | EList items =>
      rbind
        ((fix eval_items (l : list expr) : result (list value) :=
            match l with
            | [] => ok []
            | e' :: l' =>
                rbind (eval e') (fun v =>
                rbind (eval_items l') (fun vs => ok (v :: vs)))
            end) items)
        (fun vs => ok (VList vs))
  | EDict items =>
      rbind
        ((fix eval_pairs (d : dict) (l : list (string * expr))
            : result dict :=
            match l with
            | [] => ok d
            | (k, e') :: l' =>
                rbind (eval e') (fun v => eval_pairs (dict_set d k v) l')
            end) [] items)
        (fun d => ok (VDict d))
  end.

End Runtime.

Module Host.
Import Py.
Local Open Scope string_scope.

(** *** Effects *)

(** Calls that leave the server: those of the analysis handlers, and the
    calls to the cache and to the webhook probe. *)
Inductive event : Type :=
| Analysis (e : Effects.event)
| CacheGet (key : string)
| CacheSet (key : string) (data : value) (ttl : Z)
| CacheIsConnected
| CacheGetStats
| TestWebhook.

Record world : Type := World { ticks : nat; calls : list event }.

Definition M (A : Type) : Type := world -> result A * world.

Definition ret {A} (a : A) : M A := fun w => (ok a, w).

Definition bind {A B} (m : M A) (k : A -> M B) : M B :=
  fun w =>
    match m w with
    | (inl e, w') => (inl e, w')
    | (inr a, w') => k a w'
    end.

Definition lift {A} (r : result A) : M A := fun w => (r, w).

Definition try_except {A} (m : M A) (handler : exn -> M A) : M A :=
  fun w =>
    match m w with
    | (inl e, w') => handler e w'
    | (inr a, w') => (inr a, w')
    end.

Definition call {A} (ev : event) (answer : result A) : M A :=
  fun w => (answer, World (ticks w) (calls w ++ [ev])).

Definition utcnow : M nat :=
  fun w => (ok (ticks w), World (S (ticks w)) (calls w)).

(** A handler of the analysis tools run inside the server: it reads the
    same clock and its calls go to the same log. *)
Definition core {A} (m : Effects.M A) : M A :=
  fun w =>
    let '(r, w') := m (Effects.World (ticks w) []) in
    (r, World (Effects.ticks w') (calls w ++ map Analysis (Effects.calls w'))).

(** *** The server object *)

(** [self] with everything the remaining handlers touch: the cache
    manager, the two members of the webhook manager that the health check
    uses ([enabled] and [test_webhook()]), the truth value of
    [self.analyzer] as the health check tests it (false while it is
    [None], as [__init__] leaves it; what its class makes of it once
    [initialize] has set it), and the built-ins. *)
Record t (W : Type) : Type := {
  server : Server.KaayaanMCPNewsServer W;
  cache_manager : option CacheManager.t;
  webhook_enabled : value;
  test_webhook : result value;
  analyzer_truthy : bool;
  runtime : Runtime.t
}.

Definition server_name : string := "kaayaan-mcp-news".
Definition version : string := "2.1.0".

(** *** Responses *)

(** The [health_data] object of [server_health_check]; [components] and
    [environment] are flattened into it. *)
Record health_data : Type := HealthData {
  health_server_name : string;
  health_version : string;
  status : string;
  health_timestamp : string;
  timezone : string;
  redis_cache : string;
  webhook_manager_status : value;
  news_analyzer : string;
  cache_stats : value;
  log_level : string;
  mongodb_configured : bool;
  redis_configured : bool;
  whatsapp_configured : bool;
  openai_configured : bool
}.

(** What a response of the server can carry as its [result]. *)
Inductive payload (W : Type) : Type :=
| Initialize (info : value)
| ToolsList (listing : value)
| SingleAnalysis (data : dict)
| BatchAnalysis (b : Server.batch_response)
| MarketSentiment (data : value)
| Keywords (r : Server.keyword_report W)
| Health (h : health_data).

Arguments Initialize {W} info.
Arguments ToolsList {W} listing.
Arguments SingleAnalysis {W} data.
Arguments BatchAnalysis {W} b.
Arguments MarketSentiment {W} data.
Arguments Keywords {W} r.
Arguments Health {W} h.

Definition response (W : Type) : Type := Server.mcp_response (payload W).

(** A handler's response as a response of the server. *)
Definition as_payload {A W} (f : A -> payload W) (r : Server.mcp_response A)
  : response W :=
  match r with
  | Server.Result id (Some a) => Server.Result id (Some (f a))
  | Server.Result id None => Server.Result id None
  | Server.Error id e => Server.Error id e
  end.

(** *** [handle_tools_list] *)

Definition string_schema (description : option string)
  (min_length : option Z) (max_length : Z) : Runtime.expr :=
  Runtime.EDict
    ([("type", Runtime.EStr "string")]
     ++ match description with
        | Some d => [("description", Runtime.EStr d)]
        | None => []
        end
     ++ match min_length with
        | Some n => [("minLength", Runtime.EInt n)]
        | None => []
        end
     ++ [("maxLength", Runtime.EInt max_length)])%list.

(** The display [tools = [...]] of [handle_tools_list], entry by entry and
    key by key as written. *)
Definition tools_display : Runtime.expr :=
  Runtime.EList [
    Runtime.EDict [
      ("name", Runtime.EStr "crypto_news_analyze");
      ("description",
       Runtime.EStr "Analyze cryptocurrency news for sentiment and market impact with AI-powered analysis");
      ("inputSchema", Runtime.EDict [
         ("type", Runtime.EStr "object");
         ("properties", Runtime.EDict [
            ("title",
             string_schema (Some "News headline or title") (Some 1%Z) 500);
            ("summary",
             string_schema (Some "News content or description") (Some 1%Z)
               2000);
            ("source",
             string_schema (Some "News source (optional)") None 100)]);
         ("required",
          Runtime.EList [Runtime.EStr "title"; Runtime.EStr "summary"])])];
    Runtime.EDict [
      ("name", Runtime.EStr "crypto_news_batch_analyze");
      ("description",
       Runtime.EStr "Analyze multiple cryptocurrency news items in batch for efficiency");
      ("inputSchema", Runtime.EDict [
         ("type", Runtime.EStr "object");
         ("properties", Runtime.EDict [
            ("news_items", Runtime.EDict [
               ("type", Runtime.EStr "array");
               ("description", Runtime.EStr "Array of news items to analyze");
               ("minItems", Runtime.EInt 1);
               ("maxItems", Runtime.EInt 50);
               ("items", Runtime.EDict [
                  ("type", Runtime.EStr "object");
                  ("properties", Runtime.EDict [
                     ("title", string_schema None (Some 1%Z) 500);
                     ("summary", string_schema None (Some 1%Z) 2000);
                     ("source", string_schema None None 100)]);
                  ("required",
                   Runtime.EList
                     [Runtime.EStr "title"; Runtime.EStr "summary"])])])]);
         ("required", Runtime.EList [Runtime.EStr "news_items"])])];
    Runtime.EDict [
      ("name", Runtime.EStr "crypto_market_sentiment");
      ("description",
       Runtime.EStr "Get overall cryptocurrency market sentiment from recent news analysis");
      ("inputSchema", Runtime.EDict [
         ("type", Runtime.EStr "object");
         ("properties", Runtime.EDict [
            ("timeframe", Runtime.EDict [
               ("type", Runtime.EStr "string");
               ("description", Runtime.EStr "Analysis timeframe");
               ("enum",
                Runtime.EList
                  [Runtime.EStr "1h"; Runtime.EStr "6h"; Runtime.EStr "24h"]);
               ("default", Runtime.EStr "24h")]);
            ("coins", Runtime.EDict [
               ("type", Runtime.EStr "array");
               ("description",
                Runtime.EStr "Specific coins to analyze (optional)");
               ("items", Runtime.EDict [("type", Runtime.EStr "string")]);
               ("maxItems", Runtime.EInt 10)])])])];
    Runtime.EDict [
      ("name", Runtime.EStr "crypto_impact_keywords");
      ("description",
       Runtime.EStr "Extract and analyze impact keywords from cryptocurrency text");
      ("inputSchema", Runtime.EDict [
         ("type", Runtime.EStr "object");
         ("properties", Runtime.EDict [
            ("text",
             string_schema
               (Some "Text to analyze for crypto impact keywords")
               (Some 1%Z) 5000);
            ("include_weights", Runtime.EDict [
               ("type", Runtime.EStr "boolean");
               ("description",
                Runtime.EStr "Include keyword impact weights in response");
               ("default", Runtime.EName "false")])]);
         ("required", Runtime.EList [Runtime.EStr "text"])])];
    Runtime.EDict [
      ("name", Runtime.EStr "server_health_check");
      ("description",
       Runtime.EStr "Check server health and performance metrics");
      ("inputSchema", Runtime.EDict [
         ("type", Runtime.EStr "object");
         ("properties", Runtime.EDict [])])]
  ].

Declare Scope host_scope.
Delimit Scope host_scope with host.
Notation "x <- m ;; k" := (bind m (fun x => k))
  (at level 61, m at next level, right associativity) : host_scope.

Section Handlers.
Context {W : Type} (self : t W).

Local Open Scope host_scope.

Definition internal_error : Z := (-32603)%Z.
Definition method_not_found : Z := (-32601)%Z.
Definition parse_error : Z := (-32700)%Z.

Definition error_response (id : value) (code : Z) (message : string)
  (data : option exn) : response W :=
  Server.create_mcp_response id None
    (Some (Server.create_mcp_error code message data)).

Definition handle_tools_list (id : value) : M (response W) :=
  tools <- lift (Runtime.eval tools_display) ;;
  ret (Server.create_mcp_response id
         (Some (ToolsList (VDict [("tools", tools)]))) None).

(** [_calculate_market_sentiment]. *)
Definition _calculate_market_sentiment (timeframe specific_coins : value)
  : M dict :=
  now <- utcnow ;;
  let sentiment_data :=
    [("timeframe", timeframe);
     ("overall_sentiment", VStr "Neutral");
     ("confidence", VInt 50);
     ("analyzed_items", VInt 0);
     ("sentiment_breakdown",
      VDict [("positive", VInt 0); ("negative", VInt 0);
             ("neutral", VInt 0)]);
     ("top_coins_mentioned", VList []);
     ("timestamp",
      VStr (Server.isoformat (Server.clock (server self)) now ++ "Z"))] in
  ret (if truthy specific_coins
       then dict_set sentiment_data "filtered_coins" specific_coins
       else sentiment_data).

(** The cache key of a sentiment query,
    [f"market_sentiment:{timeframe}:{hash(str(sorted(specific_coins)))}"]. *)
Definition cache_key (timeframe specific_coins : value) : result string :=
  rbind (Runtime.sorted (runtime self) specific_coins) (fun coins =>
  ok ("market_sentiment:" ++ Runtime.str (runtime self) timeframe ++ ":"
      ++ Runtime.str_of_Z
           (Runtime.hash (runtime self)
              (Runtime.str (runtime self) (VList coins))))).

(** A method of [self.cache_manager]; there is none on [None]. *)
Definition with_cache {A} (k : CacheManager.t -> M A) : M A :=
  match cache_manager self with
  | Some cache => k cache
  | None => lift (raise AttributeError)
  end.

Definition _handle_market_sentiment (id : value) (arguments : dict)
  : M (response W) :=
  let timeframe := get arguments "timeframe" (VStr "24h") in
  let specific_coins := get arguments "coins" (VList []) in
  try_except
    (key <- lift (cache_key timeframe specific_coins) ;;
     cached_sentiment <-
       with_cache (fun cache =>
         call (CacheGet key) (CacheManager.get cache key)) ;;
     if truthy cached_sentiment then
       ret (Server.create_mcp_response id
              (Some (MarketSentiment cached_sentiment)) None)
     else
       sentiment_data <- _calculate_market_sentiment timeframe specific_coins ;;
       _ <- with_cache (fun cache =>
              call (CacheSet key (VDict sentiment_data) 1800)
                   (CacheManager.set cache key (VDict sentiment_data) 1800)) ;;
       ret (Server.create_mcp_response id
              (Some (MarketSentiment (VDict sentiment_data))) None))
    (fun e =>
       ret (error_response id internal_error
              "Market sentiment analysis failed" (Some e))).

(** [bool(os.getenv(name))]. *)
Definition configured (name : string) : bool :=
  match Runtime.getenv (runtime self) name with
  | Some s => negb (String.eqb s "")
  | None => false
  end.

Definition _handle_health_check (id : value) : M (response W) :=
  try_except
    (redis_healthy <-
       match cache_manager self with
       | Some cache => call CacheIsConnected (CacheManager.is_connected cache)
       | None => ret (VBool false)
       end ;;
     cache_stats <-
       match cache_manager self with
       | Some cache => call CacheGetStats (CacheManager.get_stats cache)
       | None => ret (VDict [])
       end ;;
     webhook_status <-
       match Server.webhook_manager (server self) with
       | Some _ =>
           if truthy (webhook_enabled self) then
             webhook_test <- call TestWebhook (test_webhook self) ;;
             webhook_test <- lift (Runtime.as_dict webhook_test) ;;
             ret (get webhook_test "status" (VStr "unknown"))
           else ret (VStr "disabled")
       | None => ret (VStr "disabled")
       end ;;
     now <- utcnow ;;
     ret (Server.create_mcp_response id
            (Some (Health
               (HealthData server_name version "healthy"
                  (Server.isoformat (Server.clock (server self)) now ++ "Z")
                  "Asia/Kuwait"
                  (if truthy redis_healthy then "healthy" else "unhealthy")
                  webhook_status
                  (if analyzer_truthy self then "healthy" else "unhealthy")
                  cache_stats
                  (match Runtime.getenv (runtime self) "LOG_LEVEL" with
                   | Some level => level
                   | None => "INFO"
                   end)
                  (configured "MONGODB_URL")
                  (configured "REDIS_URL")
                  (configured "WHATSAPP_API")
                  (configured "OPENAI_API_KEY"))))
            None))
    (fun e =>
       ret (error_response id internal_error "Health check failed" (Some e))).

(** [handle_tool_call]: [params.get] is outside the [try], the handlers
    and their own [arguments.get] are inside. *)
Definition handle_tool_call (id : value) (params : value) : M (response W) :=
  params <- lift (Runtime.as_dict params) ;;
  let tool_name := get params "name" VNone in
  let arguments := get params "arguments" (VDict []) in
  try_except
    (if eq_str tool_name "crypto_news_analyze" then
       arguments <- lift (Runtime.as_dict arguments) ;;
       r <- core (Server._handle_single_analysis (server self) id arguments) ;;
       ret (as_payload SingleAnalysis r)
     else if eq_str tool_name "crypto_news_batch_analyze" then
       arguments <- lift (Runtime.as_dict arguments) ;;
       r <- core (Server._handle_batch_analysis (server self) id arguments) ;;
       ret (as_payload BatchAnalysis r)
     else if eq_str tool_name "crypto_market_sentiment" then
       arguments <- lift (Runtime.as_dict arguments) ;;
       _handle_market_sentiment id arguments
     else if eq_str tool_name "crypto_impact_keywords" then
       arguments <- lift (Runtime.as_dict arguments) ;;
       r <- core (Server._handle_keyword_analysis (server self) id arguments) ;;
       ret (as_payload Keywords r)
     else if eq_str tool_name "server_health_check" then
       _handle_health_check id
     else
       ret (error_response id method_not_found
              ("Unknown tool: " ++ Runtime.str (runtime self) tool_name)
              None))
    (fun e =>
       ret (error_response id internal_error "Internal server error"
              (Some e))).

(** [handle_request]: nothing here is inside a [try]. *)
Definition handle_request (request_data : value) : M (response W) :=
  request_data <- lift (Runtime.as_dict request_data) ;;
  let method := get request_data "method" VNone in
  let params := get request_data "params" (VDict []) in
  let id := get request_data "id" VNone in
  if eq_str method "initialize" then
    ret (Server.create_mcp_response id
           (Some (Initialize
              (VDict [("protocolVersion", VStr "2024-11-05");
                      ("capabilities", VDict [("tools", VDict [])]);
                      ("serverInfo",
                       VDict [("name", VStr server_name);
                              ("version", VStr version)])])))
           None)
  else if eq_str method "tools/list" then handle_tools_list id
  else if eq_str method "tools/call" then handle_tool_call id params
  else
    ret (error_response id method_not_found
           ("Method not found: " ++ Runtime.str (runtime self) method) None).

(** One turn of the message loop of [run] on a line that is neither the
    end of the input nor blank: what is printed, if anything.  [dumps] is
    [json.dumps] on responses.  Only [JSONDecodeError] is caught next to
    [json.loads]; any other exception of the turn, of [json.loads]
    included, reaches [except Exception], is logged, and the turn prints
    nothing. *)
Definition process_line (dumps : response W -> result string)
  (line : string) : M (list string) :=
  try_except
    (match Runtime.json_loads (runtime self) line with
     | Runtime.JSONDecodeError =>
         out <- lift (dumps (error_response VNone parse_error "Parse error"
                               None)) ;;
         ret [out]
     | Runtime.LoadRaised e => lift (raise e)
     | Runtime.Loaded request_data =>
         response <- handle_request request_data ;;
         out <- lift (dumps response) ;;
         ret [out]
     end)
    (fun _ => ret []).

(** The message loop of [run] over the lines that [readline] returns, up
    to the end of the input (no line left, or [readline] returning the
    empty string). *)
Fixpoint message_loop (dumps : response W -> result string)
  (lines : list string) : M (list string) :=
  match lines with
  | [] => ret []
  | line :: rest =>
      if String.eqb line "" then ret []
      else
        let line := Str.strip line in
        if String.eqb line "" then message_loop dumps rest
        else
          printed <- process_line dumps line ;;
          later <- message_loop dumps rest ;;
          ret (printed ++ later)%list
  end.

End Handlers.

End Host.

(* ================================================================== *)
(** ** Result objects that may be shared *)
(* ================================================================== *)

Module Objects.
Import Py.
Local Open Scope string_scope.

(** The results of a batch as Python holds them: a list of references to
    result objects.  A [heap] gives the content of each object by
    address; two positions of a result list may hold the same address. *)
Definition heap : Type := list dict.

Definition load (h : heap) (a : nat) : dict := nth a h [].

Fixpoint store (h : heap) (a : nat) (d : dict) : heap :=
  match h, a with
  | [], _ => []
  | _ :: h', 0 => d :: h'
  | x :: h', S a' => x :: store h' a' d
  end.

(** The result list as a reader sees it. *)
Definition view (h : heap) (results : list nat) : list dict :=
  map (load h) results.

(** The metadata loop of the batch handler,
    [for i, result in enumerate(results)], from index [i] on, with its
    three assignments made in the object that [result] refers to. *)
Fixpoint add_metadata (request_id : string) (news_items : list value)
  (i : nat) (results : list nat) (h : heap) : Py.result heap :=
  match results with
  | [] => ok h
  | result :: rest =>
      let h :=
        store h result
          (dict_set (load h result) "item_index" (VInt (Z.of_nat i))) in
      let h :=
        store h result
          (dict_set (load h result) "analysis_id"
             (VStr (request_id ++ "_item_" ++ str_of_nat i))) in
      rbind
        (match nth_error news_items i with
         | Some item =>
             rbind (contains_str item "source") (fun present =>
             if present
             then rbind (getitem_str item "source") (fun src =>
                  ok (store h result
                        (dict_set (load h result) "source" src)))
             else ok h)
         | None => ok h
         end) (fun h =>
      add_metadata request_id news_items (S i) rest h)
  end.

End Objects.

(* ================================================================== *)
(** ** Further vocabulary and samples *)
(* ================================================================== *)

Module Props.
Import Py.
Local Open Scope string_scope.

(** Two records that the summary cannot tell apart: they agree on the
    four fields it reads. *)
Definition same_analysis (r r' : dict) : Prop :=
  dict_get r' "impact" = dict_get r "impact" /\
  dict_get r' "confidence" = dict_get r "confidence" /\
  dict_get r' "error" = dict_get r "error" /\
  dict_get r' "affected_coins" = dict_get r "affected_coins".

(** The confidence of a record is an integer (a [bool] counts as one),
    or is absent and defaults to the integer 0. *)
Definition integer_confidence (r : dict) : bool :=
  match Spec.confidence_of r with
  | VInt _ | VBool _ => true
  | _ => false
  end.

(** The [id] of a response. *)
Definition response_id {A} (r : Server.mcp_response A) : value :=
  match r with
  | Server.Result id _ => id
  | Server.Error id _ => id
  end.

(** The error of a response, if it is one. *)
Definition response_error {A} (r : Server.mcp_response A)
  : option Server.mcp_error :=
  match r with
  | Server.Result _ _ => None
  | Server.Error _ e => Some e
  end.

(** The sum of the counts of a counter. *)
Definition total_count {K} (c : list (K * nat)) : nat :=
  fold_right Nat.add 0 (map snd c).

(** An item on which ["source" in item] raises: [None] or a number. *)
Definition not_a_container (v : value) : bool :=
  match v with
  | VNone | VBool _ | VInt _ => true
  | _ => false
  end.

(** The [source] that the batch handler copies from an item: that of an
    item that is an object with the key. *)
Definition item_source (item : option value) : option value :=
  match item with
  | Some (VDict d) => dict_get d "source"
  | _ => None
  end.

(** The [source] that the metadata loop, run from index [i] on over the
    references [results], leaves in the object at address [a] whose
    source was [current]: that of the last position holding the object
    whose item has a source. *)
Fixpoint final_source (news_items : list value) (i : nat)
  (results : list nat) (a : nat) (current : option value) : option value :=
  match results with
  | [] => current
  | b :: rest =>
      final_source news_items (S i) rest a
        (if Nat.eqb b a
         then match item_source (nth_error news_items i) with
              | Some src => Some src
              | None => current
              end
         else current)
  end.

(** The five tool names of the dispatch. *)
Definition tool_names : list string :=
  ["crypto_news_analyze"; "crypto_news_batch_analyze";
   "crypto_market_sentiment"; "crypto_impact_keywords";
   "server_health_check"].

(** The lines of the input that get a turn of the message loop: those
    before the end of the input that are not blank. *)
Fixpoint turns (lines : list string) : list string :=
  match lines with
  | [] => []
  | line :: rest =>
      if String.eqb line "" then []
      else if String.eqb (Str.strip line) "" then turns rest
      else Str.strip line :: turns rest
  end.

End Props.

Module HostSamples.
Import Py.
Local Open Scope string_scope.

Definition cache : CacheManager.t := {|
  CacheManager.get := fun _ => ok VNone;
  CacheManager.set := fun _ _ _ => ok tt;
  CacheManager.is_connected := ok (VBool true);
  CacheManager.get_stats := ok (VDict [("keys", VInt 0)])
|}.

(** A cache that already holds an answer. *)
Definition warm_cache : CacheManager.t := {|
  CacheManager.get := fun _ => ok (VDict [("overall_sentiment", VStr "Positive")]);
  CacheManager.set := fun _ _ _ => ok tt;
  CacheManager.is_connected := ok (VBool true);
  CacheManager.get_stats := ok (VDict [])
|}.

Definition json_loads (line : string) : Runtime.loaded :=
  if String.eqb line "[1, 2]" then Runtime.Loaded (VList [VInt 1; VInt 2])
  else if String.eqb line "init" then
    Runtime.Loaded (VDict [("method", VStr "initialize"); ("id", VInt 1)])
  else if String.eqb line "list" then
    Runtime.Loaded (VDict [("method", VStr "tools/list"); ("id", VInt 2)])
  else if String.eqb line "health" then
    Runtime.Loaded
      (VDict [("method", VStr "tools/call"); ("id", VInt 3);
              ("params", VDict [("name", VStr "server_health_check")])])
  else if String.eqb line "call" then
    Runtime.Loaded
      (VDict [("method", VStr "tools/call"); ("id", VInt 4);
              ("params", VList [])])
  else if String.eqb line "[[[[" then
    Runtime.LoadRaised (Raised "RecursionError")
  else Runtime.JSONDecodeError.

Definition runtime : Runtime.t := {|
  Runtime.str_other := fun _ => "?";
  Runtime.sorted_other := fun _ => raise TypeError;
  Runtime.hash := fun s => Z.of_nat (String.length s);
  Runtime.getenv := fun _ => None;
  Runtime.json_loads := json_loads
|}.

Definition host : Host.t Z := {|
  Host.server := Samples.server;
  Host.cache_manager := Some cache;
  Host.webhook_enabled := VBool false;
  Host.test_webhook := ok (VDict []);
  Host.analyzer_truthy := true;
  Host.runtime := runtime
|}.

Definition warm_host : Host.t Z := {|
  Host.server := Samples.server;
  Host.cache_manager := Some warm_cache;
  Host.webhook_enabled := VBool false;
  Host.test_webhook := ok (VDict []);
  Host.analyzer_truthy := true;
  Host.runtime := runtime
|}.

(** A server that was not given a cache manager, and whose analyzer
    tests false. *)
Definition bare_host : Host.t Z := {|
  Host.server := Samples.server;
  Host.cache_manager := None;
  Host.webhook_enabled := VBool false;
  Host.test_webhook := ok (VDict []);
  Host.analyzer_truthy := false;
  Host.runtime := runtime
|}.

Definition world0 : Host.world := Host.World 0 [].

(** A serialiser that prints the id and the kind of a response. *)
Definition dumps (r : Host.response Z) : result string :=
  ok (match r with
      | Server.Result id _ => "result " ++ Runtime.str runtime id
      | Server.Error id e =>
          "error " ++ Runtime.str_of_Z (Server.code e)
      end).

(** An analyzer that fails. *)
Definition failing_analyzer : CryptoNewsAnalyzer.t Z := {|
  CryptoNewsAnalyzer.analyze_single := fun _ _ _ => raise (Raised "down");
  CryptoNewsAnalyzer.analyze_batch := fun _ _ => raise (Raised "down");
  CryptoNewsAnalyzer._keyword_analysis := fun _ => raise (Raised "down");
  CryptoNewsAnalyzer._detect_coins := fun _ => raise (Raised "down");
  CryptoNewsAnalyzer.positive_keywords := [];
  CryptoNewsAnalyzer.negative_keywords := []
|}.

Definition failing_server : Server.KaayaanMCPNewsServer Z := {|
  Server.analyzer := failing_analyzer;
  Server.webhook_manager := None;
  Server.clock := Samples.clock
|}.

(** A webhook sink that accepts everything, and a server that has it. *)
Definition sink : WebhookManager.t := {|
  WebhookManager.send_batch_results := fun _ _ => ok tt
|}.

(** An analyzer whose batch results cannot be summarised. *)
Definition odd_analyzer : CryptoNewsAnalyzer.t Z := {|
  CryptoNewsAnalyzer.analyze_single := fun _ _ _ => ok [];
  CryptoNewsAnalyzer.analyze_batch := fun _ _ =>
    ok [[("confidence", VStr "high")]];
  CryptoNewsAnalyzer._keyword_analysis := fun _ =>
    ok (CryptoNewsAnalyzer.Neutral, VInt 50);
  CryptoNewsAnalyzer._detect_coins := fun _ => raise (Raised "down");
  CryptoNewsAnalyzer.positive_keywords := [];
  CryptoNewsAnalyzer.negative_keywords := []
|}.

Definition odd_server : Server.KaayaanMCPNewsServer Z := {|
  Server.analyzer := odd_analyzer;
  Server.webhook_manager := Some sink;
  Server.clock := Samples.clock
|}.

End HostSamples.

(* ================================================================== *)
(** ** Properties of the batch summary *)
(* ================================================================== *)

Section SummaryLoop.
Import Py Server Spec.

Lemma rbind_ok {A B} (m : result A) (k : A -> result B) (b : B) :
  rbind m k = inr b -> exists a, m = inr a /\ k a = inr b.
Proof.
  destruct m as [e | a]; simpl; intros H; [discriminate | eauto].
Qed.

Lemma loop_body_step st r st' :
  loop_body st r = inr st' ->
  st' = step st r /\
  as_int (confidence_of r) <> None /\
  (exists l, iterate (coins_of r) = inr l).
Proof.
  unfold loop_body, step, is_high, confidence_int, iter_coins, gt_int.
  fold (confidence_of r) (coins_of r) (impact_of r).
  destruct (as_int (confidence_of r)) as [z |]; simpl; [| discriminate].
  destruct (iterate (coins_of r)) as [e | l]; simpl; [discriminate |].
  intros H; injection H as <-.
  repeat split; [discriminate | eauto].
Qed.

Lemma loop_body_total st r :
  as_int (confidence_of r) <> None ->
  (exists l, iterate (coins_of r) = inr l) ->
  loop_body st r = inr (step st r).
Proof.
  intros Hc [l Hl].
  unfold loop_body, step, is_high, confidence_int, iter_coins, gt_int.
  fold (confidence_of r) (coins_of r) (impact_of r).
  destruct (as_int (confidence_of r)) as [z |]; [| congruence].
  rewrite Hl; reflexivity.
Qed.

Lemma for_each_steps rs : forall st st',
  for_each loop_body st rs = inr st' ->
  st' = fold_left step rs st /\
  Forall (fun r => as_int (confidence_of r) <> None) rs.
Proof.
  induction rs as [| r rs IH]; simpl; intros st st' H.
  - injection H as <-; auto.
  - apply rbind_ok in H as (st1 & H1 & H2).
    apply loop_body_step in H1 as (-> & Hc & _).
    apply IH in H2 as (-> & HF); auto.
Qed.

Lemma for_each_total rs : forall st,
  Forall (fun r => as_int (confidence_of r) <> None) rs ->
  Forall (fun r => exists l, iterate (coins_of r) = inr l) rs ->
  for_each loop_body st rs = inr (fold_left step rs st).
Proof.
  induction rs as [| r rs IH]; simpl; intros st Hc Hi; [reflexivity |].
  inversion Hc; inversion Hi; subst.
  rewrite loop_body_total by assumption; simpl; auto.
Qed.

End SummaryLoop.

Section SummaryCounts.
Import Py Server Spec.

Lemma count_cons {A} (p : A -> bool) a l :
  count p (a :: l) = (if p a then 1 else 0) + count p l.
Proof. unfold count; simpl; destruct (p a); reflexivity. Qed.

Lemma count_le_length {A} (p : A -> bool) l : count p l <= List.length l.
Proof. apply filter_length_le. Qed.

Lemma count_split {A} (p : A -> bool) l :
  count p l + count (fun a => negb (p a)) l = List.length l.
Proof.
  induction l as [| a l IH]; [reflexivity |].
  rewrite !count_cons; simpl; destruct (p a); simpl; lia.
Qed.

Lemma impact_buckets r :
  (if is_positive r then 1 else 0) + (if is_negative r then 1 else 0)
  + (if is_neutral r then 1 else 0) = 1.
Proof.
  unfold is_neutral, is_positive, is_negative.
  destruct (impact_of r) as [| | | s | |]; simpl; try reflexivity.
  destruct (String.eqb s "Positive") eqn:Hp; simpl.
  - apply String.eqb_eq in Hp; subst; reflexivity.
  - destruct (String.eqb s "Negative"); reflexivity.
Qed.

Lemma impact_counts_total rs :
  count is_positive rs + count is_negative rs + count is_neutral rs
  = List.length rs.
Proof.
  induction rs as [| r rs IH]; [reflexivity |].
  rewrite !count_cons; simpl; pose proof (impact_buckets r); lia.
Qed.

(** The fields of the state after one accepted record. *)
Lemma step_fields st r :
  let s := acc_summary st in
  let s' := acc_summary (step st r) in
  positive_count s' = positive_count s + (if is_positive r then 1 else 0) /\
  negative_count s' = negative_count s + (if is_negative r then 1 else 0) /\
  neutral_count s' = neutral_count s + (if is_neutral r then 1 else 0) /\
  high_confidence_count s'
  = high_confidence_count s + (if is_high r then 1 else 0) /\
  low_confidence_count s'
  = low_confidence_count s + (if is_high r then 0 else 1) /\
  error_count s' = error_count s + (if has_error r then 1 else 0) /\
  avg_confidence s' = avg_confidence s /\
  top_affected_coins s' = top_affected_coins s.
Proof.
  unfold step, is_neutral, is_positive, is_negative, has_error; simpl.
  unfold count_error, count_confidence, count_impact.
  destruct (truthy _), (is_high r), (eq_str (impact_of r) "Positive") eqn:Hp,
    (eq_str (impact_of r) "Negative") eqn:Hn; simpl;
    repeat split; try lia;
    destruct (impact_of r); simpl in *; try discriminate;
    apply String.eqb_eq in Hp, Hn; subst; discriminate.
Qed.

Lemma fold_step_fields rs : forall st,
  let s := acc_summary st in
  let s' := acc_summary (fold_left step rs st) in
  positive_count s' = positive_count s + count is_positive rs /\
  negative_count s' = negative_count s + count is_negative rs /\
  neutral_count s' = neutral_count s + count is_neutral rs /\
  high_confidence_count s' = high_confidence_count s + count is_high rs /\
  low_confidence_count s'
  = low_confidence_count s + count (fun r => negb (is_high r)) rs /\
  error_count s' = error_count s + count has_error rs /\
  avg_confidence s' = avg_confidence s /\
  top_affected_coins s' = top_affected_coins s.
Proof.
  induction rs as [| r rs IH]; intros st; simpl.
  - unfold count; simpl; repeat split; lia.
  - specialize (IH (step st r)); cbv zeta in IH.
    destruct IH as (H1 & H2 & H3 & H4 & H5 & H6 & H7 & H8).
    pose proof (step_fields st r) as E; cbv zeta in E.
    destruct E as (E1 & E2 & E3 & E4 & E5 & E6 & E7 & E8).
    rewrite !count_cons, H1, H2, H3, H4, H5, H6, H7, H8.
    rewrite E1, E2, E3, E4, E5, E6, E7, E8.
    destruct (is_high r); simpl; repeat split; lia.
Qed.

Lemma fold_step_lists rs : forall st,
  confidences (fold_left step rs st)
  = confidences st ++ map confidence_of rs /\
  all_coins (fold_left step rs st)
  = all_coins st ++ flat_map iter_coins rs.
Proof.
  induction rs as [| r rs IH]; intros st; simpl.
  - rewrite !app_nil_r; auto.
  - destruct (IH (step st r)) as [-> ->]; simpl.
    rewrite <- !app_assoc; auto.
Qed.

End SummaryCounts.

(* ================================================================== *)
(** ** Properties of the binary64 operations *)
(* ================================================================== *)

Section FloatFacts.
Import Float64.
Local Open Scope Z_scope.

(** Rounding to nearest moves a quotient by at most one half. *)
Lemma round_half_even_near a b :
  0 < b ->
  2 * Z.abs (round_half_even a b * b - a) <= b.
Proof.
  intros Hb; unfold round_half_even.
  pose proof (Z.div_mod a b ltac:(lia)) as Hdm.
  pose proof (Z.mod_pos_bound a b Hb) as Hr.
  set (q := a / b) in *; set (r := a mod b) in *; clearbody q r.
  destruct (Z.compare_spec (2 * r) b); [destruct (Z.even q) | |]; lia.
Qed.

Lemma round_half_even_nonneg a b :
  0 < b -> 0 <= a -> 0 <= round_half_even a b.
Proof.
  intros Hb Ha; unfold round_half_even.
  pose proof (Z.div_pos a b Ha Hb).
  destruct (2 * (a mod b) ?= b); [destruct (Z.even _) | |]; lia.
Qed.

(** A quotient below [2 ^ 7] has binary exponent at most [6]. *)
Lemma floor_log2_quot_small a b :
  0 < a -> 0 < b -> a < 128 * b -> floor_log2_quot a b <= 6.
Proof.
  intros Ha Hb Hab.
  assert (Hk : Z.log2 a - Z.log2 b <= 7).
  { destruct (Z.log2_spec a Ha) as [La _].
    destruct (Z.log2_spec b Hb) as [_ Lb].
    destruct (Z_le_gt_dec (Z.log2 a - Z.log2 b) 7) as [| Hgt]; [assumption |].
    exfalso.
    assert (Hp : 2 ^ (Z.succ (Z.log2 b) + 7) <= 2 ^ Z.log2 a)
      by (apply Z.pow_le_mono_r; lia).
    pose proof (Z.log2_nonneg b).
    rewrite Z.pow_add_r in Hp by lia.
    change (2 ^ 7) with 128 in Hp. nia. }
  unfold floor_log2_quot.
  destruct (Z.eq_dec (Z.log2 a - Z.log2 b) 7) as [E | NE].
  - rewrite E. unfold scaled.
    change (0 <=? 7) with true; cbv iota beta.
    change (2 ^ 7) with 128.
    destruct (Z.leb_spec (b * 128) a); lia.
  - destruct (scaled a b (Z.log2 a - Z.log2 b)) as [n d].
    destruct (d <=? n); lia.
Qed.

(** Division of a sum of percentages by their number: no overflow, and the
    exponent of the result is at most [-46]. *)
Lemma true_div_percent a b :
  0 < a -> 0 < b -> a <= 100 * b ->
  exists e,
    e <= -46 /\
    true_div a b = inr (Float (round_half_even (a * 2 ^ (- e)) b) e).
Proof.
  intros Ha Hb Hab.
  pose proof (floor_log2_quot_small Ha Hb ltac:(lia)) as Hk.
  unfold true_div.
  destruct (b =? 0) eqn:Eb; [apply Z.eqb_eq in Eb; lia |].
  destruct (a =? 0) eqn:Ea; [apply Z.eqb_eq in Ea; lia |].
  rewrite (Z.abs_eq a), (Z.abs_eq b), (Z.sgn_pos b), Z.mul_1_r by lia.
  set (e := Z.max emin (floor_log2_quot a b - (prec - 1))).
  assert (He : e <= -46) by (unfold e, emin, prec; lia).
  assert (He' : -1074 <= e) by (unfold e, emin; lia).
  exists e; split; [assumption |].
  unfold scaled.
  destruct (0 <=? e) eqn:E0; [apply Z.leb_le in E0; lia |].
  set (m := round_half_even (a * 2 ^ (- e)) b).
  assert (Hp : 0 < 2 ^ (- e)) by (apply Z.pow_pos_nonneg; lia).
  assert (Hm0 : 0 <= m) by (apply round_half_even_nonneg; nia).
  assert (Hm : m < 2 ^ (8 - e)).
  { pose proof (round_half_even_near (a * 2 ^ (- e)) Hb) as Hn.
    fold m in Hn.
    replace (8 - e) with (8 + - e) by lia.
    rewrite Z.pow_add_r by lia. change (2 ^ 8) with 256. nia. }
  destruct (emax <=? Z.log2 (Z.abs m) + e) eqn:Eo; [| reflexivity].
  apply Z.leb_le in Eo. exfalso.
  rewrite Z.abs_eq in Eo by assumption.
  destruct (Z.eq_dec m 0) as [-> | Hne].
  - simpl in Eo. unfold emax in Eo. lia.
  - assert (Z.log2 m < 8 - e) by (apply Z.log2_lt_pow2; lia).
    unfold emax in Eo. lia.
Qed.

(** [round(a / b, 1)] on such a quotient is a tenth nearest to the exact
    quotient, as long as [b] stays far below [2 ^ 46]. *)
Lemma round1_true_div_percent a b :
  0 <= a -> 0 < b -> a <= 100 * b -> 10 * b < 2 ^ 46 ->
  exists x,
    true_div a b = inr x /\
    2 * Z.abs (tenths (round1 x) * b - 10 * a) <= b.
Proof.
  intros Ha Hb Hab Hsmall.
  destruct (Z.eq_dec a 0) as [-> | Hne].
  - exists (Float 0 0); split.
    + unfold true_div.
      destruct (b =? 0) eqn:Eb; [apply Z.eqb_eq in Eb; lia | reflexivity].
    + simpl. lia.
  - destruct (@true_div_percent a b) as (e & He & Hdiv); try lia.
    eexists; split; [exact Hdiv |].
    unfold round1; simpl expo; simpl mant.
    destruct (0 <=? e) eqn:E0; [apply Z.leb_le in E0; lia |].
    simpl tenths.
    set (P := 2 ^ (- e)).
    assert (HP : 2 ^ 46 <= P) by (apply Z.pow_le_mono_r; lia).
    assert (HP0 : 0 < P) by lia.
    set (m := round_half_even (a * P) b).
    set (d := round_half_even (10 * m) P).
    pose proof (round_half_even_near (a * P) Hb) as Hm; fold m in Hm.
    pose proof (round_half_even_near (10 * m) HP0) as Hd; fold d in Hd.
    assert (Hkey : P * (d * b - 10 * a)
                   = b * (d * P - 10 * m) + 10 * (m * b - a * P)) by ring.
    assert (Hbound : 2 * (P * Z.abs (d * b - 10 * a)) <= b * P + 10 * b).
    { rewrite <- (Z.abs_eq P) at 1 by lia.
      rewrite <- Z.abs_mul, Hkey.
      pose proof (Z.abs_triangle (b * (d * P - 10 * m))
                    (10 * (m * b - a * P))) as Ht.
      rewrite !Z.abs_mul in Ht.
      rewrite (Z.abs_eq b), (Z.abs_eq 10) in Ht by lia.
      nia. }
    destruct (Z_le_gt_dec (2 * Z.abs (d * b - 10 * a)) b) as [| Hgt];
      [assumption | exfalso].
    assert (b + 1 <= 2 * Z.abs (d * b - 10 * a)) by lia.
    nia.
Qed.

(** The division agrees with [SpecFloat.SFdiv] of the Standard Library,
    on quotients of every kind: exact, inexact, beyond 53 bits, subnormal
    and overflowing. *)
Example true_div_agrees_with_binary64 :
  forallb agrees_with_binary64
    [(7, 20); (1, 3); (1, 4); (3, 4); (1407, 20); (5000, 50); (100, 1);
     (33, 7); (2 ^ 53 + 1, 1); (2 ^ 60 + 12345, 7); (10 ^ 30, 3);
     (1, 2 ^ 1075); (3, 2 ^ 1075); (5, 2 ^ 1076);
     (2 ^ 1024 - 2 ^ 970 - 1, 1); (2 ^ 1024 - 2 ^ 970, 1);
     (2 ^ 1024, 1)]%positive = true.
Proof. vm_compute. reflexivity. Qed.

(** [round(7 / 20, 1)], [round(1 / 4, 1)] and [round(3 / 4, 1)] are
    [0.3], [0.2] and [0.8]: the double nearest to 0.35 lies below it, and
    the exact ties 0.25 and 0.75 go to the even digit. *)
Example round1_at_ties :
  map (fun ab => match true_div (fst ab) (snd ab) with
                 | inr x => Some (tenths (round1 x))
                 | inl _ => None
                 end) [(7, 20); (1, 4); (3, 4); (-1, 4); (231, 3)]
  = [Some 3; Some 2; Some 8; Some (-2); Some 770].
Proof. vm_compute. reflexivity. Qed.

End FloatFacts.

(* ================================================================== *)
(** ** What [_generate_batch_summary] returns *)
(* ================================================================== *)

Section SummaryResult.
Import Py Server Spec.

Lemma sum_from_numeric rs : forall t,
  Forall numeric rs ->
  sum_from t (map confidence_of rs) = inr (t + total_confidence rs)%Z.
Proof.
  induction rs as [| r rs IH]; intros t H; simpl.
  - unfold total_confidence, ok; simpl. rewrite Z.add_0_r. reflexivity.
  - inversion H as [| ? ? Hr Hrs]; subst.
    unfold add_int, numeric in *.
    change (total_confidence (r :: rs))
      with (confidence_int r + total_confidence rs)%Z.
    unfold confidence_int.
    destruct (as_int (confidence_of r)) as [z |]; [| congruence].
    simpl. rewrite IH by assumption. rewrite Z.add_assoc. reflexivity.
Qed.

(** Every field of a summary that was produced. *)
Lemma summary_inv rs s :
  _generate_batch_summary rs = inr s ->
  Forall numeric rs /\
  positive_count s = count is_positive rs /\
  negative_count s = count is_negative rs /\
  neutral_count s = count is_neutral rs /\
  high_confidence_count s = count is_high rs /\
  low_confidence_count s = count (fun r => negb (is_high r)) rs /\
  error_count s = count has_error rs /\
  match rs with
  | [] => avg_confidence s = Float64.zero
  | _ :: _ =>
      exists mean,
        Float64.true_div (total_confidence rs) (Z.of_nat (List.length rs))
        = inr mean /\
        avg_confidence s = Float64.round1 mean
  end /\
  match flat_map iter_coins rs with
  | [] => top_affected_coins s = []
  | _ :: _ =>
      exists coin_counts,
        Collections.Counter_values (flat_map iter_coins rs) = inr coin_counts /\
        top_affected_coins s = Collections.most_common 5 coin_counts
  end.
Proof.
  unfold _generate_batch_summary; intros H.
  apply rbind_ok in H as (st & Hloop & H).
  apply for_each_steps in Hloop as (-> & Hnum).
  apply rbind_ok in H as (s1 & Havg & Htop).
  set (st0 := LoopState empty_summary [] []) in *.
  destruct (fold_step_lists rs st0) as [Hc Ha]; simpl in Hc, Ha.
  rewrite Hc in Havg; rewrite Ha in Htop; clear Hc Ha.
  pose proof (fold_step_fields rs st0) as F; cbv zeta in F; simpl in F.
  destruct F as (F1 & F2 & F3 & F4 & F5 & F6 & F7 & F8).
  set (a := acc_summary (fold_left step rs st0)) in *.
  assert (Hs1 :
    positive_count s1 = positive_count a /\
    negative_count s1 = negative_count a /\
    neutral_count s1 = neutral_count a /\
    high_confidence_count s1 = high_confidence_count a /\
    low_confidence_count s1 = low_confidence_count a /\
    error_count s1 = error_count a /\
    top_affected_coins s1 = top_affected_coins a /\
    match rs with
    | [] => avg_confidence s1 = Float64.zero
    | _ :: _ =>
        exists mean,
          Float64.true_div (total_confidence rs) (Z.of_nat (List.length rs))
          = inr mean /\
          avg_confidence s1 = Float64.round1 mean
    end).
  { destruct rs as [| r rs'].
    - simpl in Havg; injection Havg as <-. repeat split; assumption.
    - remember (r :: rs') as rs eqn:Hrs.
      assert (Hne : exists c cs, map confidence_of rs = c :: cs)
        by (subst rs; simpl; eauto).
      destruct Hne as (c & cs & Hcs).
      rewrite Hcs in Havg; rewrite <- Hcs in Havg.
      unfold sum in Havg; rewrite sum_from_numeric in Havg by assumption.
      simpl rbind in Havg. rewrite length_map in Havg.
      change (0 + total_confidence rs)%Z with (total_confidence rs) in Havg.
      apply rbind_ok in Havg as (mean & Hdiv & Hset).
      injection Hset as <-; simpl.
      repeat split; try reflexivity. eauto. }
  destruct Hs1 as (G1 & G2 & G3 & G4 & G5 & G6 & G7 & G8).
  assert (Hs :
    positive_count s = positive_count s1 /\
    negative_count s = negative_count s1 /\
    neutral_count s = neutral_count s1 /\
    high_confidence_count s = high_confidence_count s1 /\
    low_confidence_count s = low_confidence_count s1 /\
    error_count s = error_count s1 /\
    avg_confidence s = avg_confidence s1 /\
    match flat_map iter_coins rs with
    | [] => top_affected_coins s = []
    | _ :: _ =>
        exists coin_counts,
          Collections.Counter_values (flat_map iter_coins rs)
          = inr coin_counts /\
          top_affected_coins s = Collections.most_common 5 coin_counts
    end).
  { destruct (flat_map iter_coins rs) as [| c cs] eqn:Hcoins.
    - injection Htop as <-. repeat split; try reflexivity. congruence.
    - apply rbind_ok in Htop as (cc & Hcc & Hset).
      injection Hset as <-; simpl.
      repeat split; try reflexivity. eauto. }
  destruct Hs as (K1 & K2 & K3 & K4 & K5 & K6 & K7 & K8).
  split; [assumption |].
  rewrite K1, K2, K3, K4, K5, K6, G1, G2, G3, G4, G5, G6.
  rewrite F1, F2, F3, F4, F5, F6.
  repeat (split; [reflexivity |]).
  split; [| assumption].
  destruct rs; [congruence |].
  destruct G8 as (mean & ? & ?); exists mean; split; congruence.
Qed.

(** The summary is produced as soon as every step of it is defined. *)
Lemma summary_total rs :
  Forall numeric rs ->
  Forall iterable rs ->
  (rs <> [] ->
   exists mean,
     Float64.true_div (total_confidence rs) (Z.of_nat (List.length rs))
     = inr mean) ->
  forallb hashable (flat_map iter_coins rs) = true ->
  exists s, _generate_batch_summary rs = inr s.
Proof.
  intros Hnum Hit Hdiv Hhash.
  unfold _generate_batch_summary.
  rewrite for_each_total by assumption. simpl rbind.
  set (st0 := LoopState empty_summary [] []).
  destruct (fold_step_lists rs st0) as [Hc Ha]; simpl in Hc, Ha.
  rewrite Hc, Ha.
  assert (Havg : exists s1,
    match map confidence_of rs with
    | [] => ok (acc_summary (fold_left step rs st0))
    | _ :: _ =>
        rbind (sum (map confidence_of rs)) (fun total =>
        rbind (Float64.true_div total
                 (Z.of_nat (List.length (map confidence_of rs))))
          (fun mean =>
        ok (set_avg_confidence (Float64.round1 mean)
              (acc_summary (fold_left step rs st0)))))
    end = inr s1).
  { destruct rs as [| r rs']; [simpl; eauto |].
    remember (r :: rs') as rs0 eqn:Hrs.
    assert (Hne : exists c cs, map confidence_of rs0 = c :: cs)
      by (subst rs0; simpl; eauto).
    destruct Hne as (c & cs & Hcs).
    rewrite Hcs; rewrite <- Hcs.
    unfold sum; rewrite sum_from_numeric by assumption.
    simpl rbind. rewrite length_map.
    change (0 + total_confidence rs0)%Z with (total_confidence rs0).
    destruct Hdiv as (mean & ->); [subst rs0; discriminate |].
    simpl; eauto. }
  destruct Havg as (s1 & ->). simpl rbind.
  destruct (flat_map iter_coins rs) as [| c cs]; [eauto |].
  unfold Collections.Counter_values. rewrite Hhash. simpl; eauto.
Qed.

End SummaryResult.

Section Conforming.
Import Py Server Spec.
Local Open Scope Z_scope.

Lemma true_div_percent_total a b :
  0 <= a -> 0 < b -> a <= 100 * b ->
  exists x, Float64.true_div a b = inr x.
Proof.
  intros Ha Hb Hab.
  destruct (Z.eq_dec a 0) as [-> | Hne].
  - unfold Float64.true_div.
    destruct (b =? 0) eqn:Eb; [apply Z.eqb_eq in Eb; lia | simpl; eauto].
  - destruct (@true_div_percent a b) as (e & _ & H); try lia; eauto.
Qed.

Lemma conforms_inv r :
  conforms r = true ->
  (exists z, as_int (confidence_of r) = Some z /\ 0 <= z <= 100) /\
  (exists l, coins_of r = VList l /\ forallb is_str l = true).
Proof.
  unfold conforms, confidence_in_range, coins_are_strings.
  unfold confidence_of, coins_of, get.
  intros H; apply andb_prop in H as [Hc Hl]; split.
  - destruct (dict_get r "confidence") as [v |].
    + destruct (as_int v) as [z |]; [| discriminate].
      apply andb_prop in Hc as [H0 H1].
      apply Z.leb_le in H0, H1; eauto.
    + exists 0; simpl; split; [reflexivity | lia].
  - destruct (dict_get r "affected_coins") as [v |].
    + destruct v; try discriminate; eauto.
    + exists []; auto.
Qed.

Lemma conforms_numeric rs :
  Forall (fun r => conforms r = true) rs -> Forall numeric rs.
Proof.
  apply Forall_impl; intros r H.
  apply conforms_inv in H as [(z & Hz & _) _].
  unfold numeric; congruence.
Qed.

Lemma conforms_iterable rs :
  Forall (fun r => conforms r = true) rs -> Forall iterable rs.
Proof.
  apply Forall_impl; intros r H.
  apply conforms_inv in H as [_ (l & Hl & _)].
  unfold iterable; rewrite Hl; simpl; eauto.
Qed.

Lemma conforms_total_range rs :
  Forall (fun r => conforms r = true) rs ->
  0 <= total_confidence rs <= 100 * Z.of_nat (List.length rs).
Proof.
  induction 1 as [| r rs Hr _ IH].
  - unfold total_confidence; simpl; lia.
  - change (total_confidence (r :: rs))
      with (confidence_int r + total_confidence rs).
    apply conforms_inv in Hr as [(z & Hz & Hrange) _].
    unfold confidence_int; rewrite Hz.
    change (List.length (r :: rs)) with (S (List.length rs)).
    lia.
Qed.

Lemma is_str_hashable l :
  forallb is_str l = true -> forallb hashable l = true.
Proof.
  induction l as [| v l IH]; simpl; [reflexivity |].
  intros H; apply andb_prop in H as [Hv Hl].
  rewrite IH by assumption.
  destruct v; simpl in *; congruence.
Qed.

Lemma conforms_hashable rs :
  Forall (fun r => conforms r = true) rs ->
  forallb hashable (flat_map iter_coins rs) = true.
Proof.
  induction 1 as [| r rs Hr _ IH]; simpl; [reflexivity |].
  rewrite forallb_app, IH, andb_true_r.
  apply conforms_inv in Hr as [_ (l & Hl & Hs)].
  unfold iter_coins; rewrite Hl; simpl.
  apply is_str_hashable; assumption.
Qed.

(** The summary of a batch of conforming records is always produced. *)
Lemma conforms_summary rs :
  Forall (fun r => conforms r = true) rs ->
  exists s, _generate_batch_summary rs = inr s.
Proof.
  intros H. apply summary_total.
  - apply conforms_numeric; assumption.
  - apply conforms_iterable; assumption.
  - intros Hne. apply true_div_percent_total.
    + apply conforms_total_range; assumption.
    + destruct rs; [congruence | simpl; lia].
    + apply conforms_total_range; assumption.
  - apply conforms_hashable; assumption.
Qed.

End Conforming.

(* ================================================================== *)
(** ** Batch summary: the statements *)
(* ================================================================== *)

Section SummaryStatements.
Import Py Server Spec.
Local Open Scope string_scope.

(** C3. The summary of the empty sequence of results is returned, not an
    error: its six counts are zero, its average confidence is [0.0] and
    its list of top affected coins is empty. *)
Theorem empty_batch_summary :
  _generate_batch_summary []
  = inr (Summary 0 0 0 0 0 0 (Float64.Decimal1 0) []).
Proof. reflexivity. Qed.

(** A record whose confidence is a string stops the summary with a
    [TypeError], so no counts exist for that input. *)
Lemma summary_raises_on_text_confidence :
  _generate_batch_summary [[("impact", VStr "Positive");
                            ("confidence", VStr "high")]] = inl TypeError /\
  ~ (exists s,
       _generate_batch_summary [[("impact", VStr "Positive");
                                 ("confidence", VStr "high")]] = inr s /\
       positive_count s + negative_count s + neutral_count s = 1).
Proof.
  split; [reflexivity |].
  intros (s & H & _). vm_compute in H. discriminate.
Qed.

(** C4 (amended). Whenever the summary of a sequence of results is
    produced, whatever the impact fields hold, [positive_count +
    negative_count + neutral_count] is the number of results; and it is
    produced for every sequence of records whose confidence, where
    present, is an integer in [0, 100] and whose affected coins, where
    present, are a list of strings. *)
Theorem impact_counts_partition rs :
  (forall s,
     _generate_batch_summary rs = inr s ->
     positive_count s + negative_count s + neutral_count s = List.length rs) /\
  (Forall (fun r => conforms r = true) rs ->
   exists s,
     _generate_batch_summary rs = inr s /\
     positive_count s + negative_count s + neutral_count s = List.length rs).
Proof.
  assert (Hinv : forall s,
    _generate_batch_summary rs = inr s ->
    positive_count s + negative_count s + neutral_count s = List.length rs).
  { intros s H.
    apply summary_inv in H as (_ & -> & -> & -> & _).
    apply impact_counts_total. }
  split; [exact Hinv |].
  intros H. destruct (conforms_summary H) as (s & Hs).
  exists s; auto.
Qed.

Lemma impact_counts_partition_witness :
  exists s,
    _generate_batch_summary
      [[("impact", VStr "Positive"); ("confidence", VInt 90)];
       [("confidence", VInt 40); ("affected_coins", VList [VStr "BTC"])];
       [("impact", VInt 7)]] = inr s /\
    positive_count s + negative_count s + neutral_count s = 3.
Proof.
  apply (proj2 (impact_counts_partition
    [[("impact", VStr "Positive"); ("confidence", VInt 90)];
     [("confidence", VInt 40); ("affected_coins", VList [VStr "BTC"])];
     [("impact", VInt 7)]])).
  repeat constructor.
Defined.

(** C8. For every sequence of results, a result counts as high-confidence
    exactly when its confidence is strictly greater than 75 and as
    low-confidence otherwise, so the two counts add up to the number of
    results. *)
Theorem confidence_counts rs :
  (forall s,
     _generate_batch_summary rs = inr s ->
     high_confidence_count s = count (fun r => (75 <? confidence_int r)%Z) rs /\
     low_confidence_count s = count (fun r => (confidence_int r <=? 75)%Z) rs /\
     high_confidence_count s + low_confidence_count s = List.length rs) /\
  (Forall (fun r => conforms r = true) rs ->
   exists s,
     _generate_batch_summary rs = inr s /\
     high_confidence_count s = count (fun r => (75 <? confidence_int r)%Z) rs /\
     low_confidence_count s = count (fun r => (confidence_int r <=? 75)%Z) rs /\
     high_confidence_count s + low_confidence_count s = List.length rs).
Proof.
  assert (Hinv : forall s,
    _generate_batch_summary rs = inr s ->
    high_confidence_count s = count (fun r => (75 <? confidence_int r)%Z) rs /\
    low_confidence_count s = count (fun r => (confidence_int r <=? 75)%Z) rs /\
    high_confidence_count s + low_confidence_count s = List.length rs).
  { intros s Hs.
    apply summary_inv in Hs as (_ & _ & _ & _ & Hh & Hl & _).
    assert (E : count (fun r => negb (is_high r)) rs
                = count (fun r => (confidence_int r <=? 75)%Z) rs).
    { unfold count; f_equal; apply filter_ext; intros r.
      unfold is_high. rewrite Z.leb_antisym. reflexivity. }
    rewrite Hh, Hl, <- E. repeat split.
    apply (count_split is_high). }
  split; [exact Hinv |].
  intros H. destruct (conforms_summary H) as (s & Hs).
  exists s; split; [assumption | auto].
Qed.

Lemma confidence_counts_witness :
  exists s,
    _generate_batch_summary
      [[("confidence", VInt 75)]; [("confidence", VInt 76)]; []] = inr s /\
    high_confidence_count s = 1 /\
    low_confidence_count s = 2 /\
    high_confidence_count s + low_confidence_count s = 3.
Proof.
  apply (proj2 (confidence_counts
           [[("confidence", VInt 75)]; [("confidence", VInt 76)]; []])).
  repeat constructor.
Defined.

(** C9 (amended). For every non-empty sequence of results whose
    confidences are integers between 0 and 100 (fewer than 2^46 / 10
    results), [avg_confidence] is a tenth nearest to the arithmetic mean
    of the confidences: the decimal it denotes is within half a tenth of
    the exact mean, and it is the nearest tenth whenever there is a
    single one.  For a mean exactly halfway between two tenths the
    result is one of the two, by no fixed convention. *)
Theorem average_confidence_rounded rs :
  rs <> [] ->
  Forall (fun r => conforms r = true) rs ->
  (10 * Z.of_nat (List.length rs) < 2 ^ 46)%Z ->
  exists s,
    _generate_batch_summary rs = inr s /\
    is_mean_rounded (avg_confidence s) (total_confidence rs) (List.length rs).
Proof.
  intros Hne H Hlen. destruct (conforms_summary H) as (s & Hs).
  exists s; split; [assumption |].
  apply summary_inv in Hs as (_ & _ & _ & _ & _ & _ & _ & Havg & _).
  destruct rs as [| r rs']; [congruence |].
  destruct Havg as (mean & Hdiv & ->).
  pose proof (conforms_total_range H) as [H0 H100].
  destruct (@round1_true_div_percent (total_confidence (r :: rs'))
              (Z.of_nat (List.length (r :: rs')))) as (x & Hx & Hnear);
    try assumption.
  { simpl List.length; lia. }
  rewrite Hx in Hdiv; injection Hdiv as <-.
  split; [exact Hnear |].
  intros t Ht. nia.
Qed.

Lemma average_confidence_rounded_witness :
  exists s,
    _generate_batch_summary
      [[("confidence", VInt 80)]; [("confidence", VInt 75)];
       [("confidence", VInt 77)]] = inr s /\
    avg_confidence s = Float64.Decimal1 773.
Proof.
  destruct (@average_confidence_rounded
              [[("confidence", VInt 80)]; [("confidence", VInt 75)];
               [("confidence", VInt 77)]])
    as (s & Hs & _ & Hnearest).
  - discriminate.
  - repeat constructor.
  - reflexivity.
  - exists s. split; [exact Hs |].
    specialize (Hnearest 773%Z).
    destruct (avg_confidence s) as [t]. simpl in Hnearest.
    rewrite Hnearest; [reflexivity |].
    vm_compute. reflexivity.
Defined.

(** Whatever convention for halves is read into "rounded to one decimal
    place", there is a batch of results with confidences in range whose
    [avg_confidence] is not the mean rounded by that convention: seven
    results of confidence 1 among twenty have mean 0.35 and the average
    reported is 0.3 (down, to an odd digit); three among four have mean
    0.75 and the average reported is 0.8 (up, to an even digit). *)
Lemma average_follows_no_tie_rule :
  exists low high s s',
    low = (repeat [("confidence", VInt 1)] 7
           ++ repeat [("confidence", VInt 0)] 13)%list /\
    high = (repeat [("confidence", VInt 1)] 3
            ++ [[("confidence", VInt 0)]])%list /\
    Forall (fun r => conforms r = true) (low ++ high) /\
    _generate_batch_summary low = inr s /\
    _generate_batch_summary high = inr s' /\
    avg_confidence s = Float64.Decimal1 3 /\
    avg_confidence s' = Float64.Decimal1 8 /\
    ~ is_mean_rounded_by HalfUp (avg_confidence s) (total_confidence low)
        (List.length low) /\
    ~ is_mean_rounded_by HalfEven (avg_confidence s) (total_confidence low)
        (List.length low) /\
    ~ is_mean_rounded_by HalfDown (avg_confidence s') (total_confidence high)
        (List.length high) /\
    ~ is_mean_rounded_by HalfOdd (avg_confidence s') (total_confidence high)
        (List.length high).
Proof.
  exists (repeat [("confidence", VInt 1)] 7
          ++ repeat [("confidence", VInt 0)] 13)%list,
         (repeat [("confidence", VInt 1)] 3
          ++ [[("confidence", VInt 0)]])%list,
         (Summary 0 0 20 0 20 0 (Float64.Decimal1 3) []),
         (Summary 0 0 4 0 4 0 (Float64.Decimal1 8) []).
  split; [reflexivity |]. split; [reflexivity |].
  split; [simpl; repeat constructor |].
  split; [vm_compute; reflexivity |].
  split; [vm_compute; reflexivity |].
  split; [reflexivity |]. split; [reflexivity |].
  repeat split;
    intros [_ Htie]; vm_compute in Htie;
    specialize (Htie eq_refl); discriminate Htie.
Qed.

(** Twenty results whose confidences add up to 7 have mean 0.35; the
    double nearest to it lies below 0.35 and the average reported is
    0.3. *)
Example average_at_a_decimal_tie :
  _generate_batch_summary
    (repeat [("confidence", VInt 1)] 7 ++ repeat [] 13)%list
  = inr (Summary 0 0 20 0 20 0 (Float64.Decimal1 3) []).
Proof. reflexivity. Qed.

End SummaryStatements.

(* ================================================================== *)
(** ** Properties of [Counter] and [most_common] *)
(* ================================================================== *)

Section SortedLists.
Context {A : Type}.

Lemma StronglySorted_snoc (R : A -> A -> Prop) l x :
  StronglySorted R l -> Forall (fun a => R a x) l ->
  StronglySorted R (l ++ [x]).
Proof.
  induction 1 as [| a l Hs IH Ha]; intros Hx; simpl.
  - repeat constructor.
  - inversion Hx; subst. constructor; [auto |].
    apply Forall_app; split; [assumption | repeat constructor; assumption].
Qed.

Lemma StronglySorted_weaken (R R' : A -> A -> Prop) l :
  (forall a b, In a l -> In b l -> R a b -> R' a b) ->
  StronglySorted R l -> StronglySorted R' l.
Proof.
  intros Himp Hs; induction Hs as [| a l Hs IH Ha]; constructor.
  - apply IH; intros; apply Himp; simpl; auto.
  - rewrite Forall_forall in *; intros b Hb.
    apply Himp; simpl; auto.
Qed.

Lemma StronglySorted_map_inv {B} (f : B -> A) (R : A -> A -> Prop) l :
  StronglySorted R (map f l) ->
  StronglySorted (fun a b => R (f a) (f b)) l.
Proof.
  induction l as [| b l IH]; simpl; intros H; [constructor |].
  inversion H; subst; constructor; [auto |].
  rewrite Forall_forall in *; intros c Hc.
  match goal with Hf : forall _, In _ (map f l) -> _ |- _ =>
    apply Hf, in_map; assumption end.
Qed.

Lemma StronglySorted_firstn (R : A -> A -> Prop) n l :
  StronglySorted R l -> StronglySorted R (firstn n l).
Proof.
  intros H; revert n; induction H as [| a l Hs IH Ha]; intros [| n]; simpl;
    try constructor; auto.
  rewrite Forall_forall in *; intros b Hb.
  apply Ha. rewrite <- (firstn_skipn n l). apply in_or_app; auto.
Qed.

(** In a sorted list, whatever is cut off by [firstn] comes after
    everything that is kept. *)
Lemma StronglySorted_cut (R : A -> A -> Prop) n l a b :
  StronglySorted R l -> In a (firstn n l) -> In b (skipn n l) -> R a b.
Proof.
  intros H; revert n; induction H as [| c l Hs IH Hc]; intros n Ha Hb.
  - destruct n; simpl in Ha; contradiction.
  - destruct n as [| n]; simpl in Ha, Hb; [contradiction |].
    destruct Ha as [-> | Ha].
    + rewrite Forall_forall in Hc. apply Hc.
      rewrite <- (firstn_skipn n l). apply in_or_app; auto.
    + eapply IH; eassumption.
Qed.
End SortedLists.

Section CounterFacts.
Context {K : Type} (eqb : K -> K -> bool).
Hypothesis eqb_eq : forall x y, eqb x y = true <-> x = y.

Import Collections Spec.

Lemma existsb_eqb_In x l : existsb (fun y => eqb y x) l = true <-> In x l.
Proof.
  rewrite existsb_exists; split.
  - intros (y & Hy & E). apply eqb_eq in E; subst; assumption.
  - intros H; exists x; split; [assumption | apply eqb_eq; reflexivity].
Qed.

Lemma eqb_refl x : eqb x x = true.
Proof. apply eqb_eq; reflexivity. Qed.

Lemma eqb_neq x y : x <> y -> eqb x y = false.
Proof.
  intros H; destruct (eqb x y) eqn:E; [| reflexivity].
  apply eqb_eq in E; contradiction.
Qed.

(** *** Counting *)

Lemma keys_incr x c :
  map fst (incr eqb x c)
  = if existsb (fun y => eqb y x) (map fst c)
    then map fst c else map fst c ++ [x].
Proof.
  induction c as [| [y n] c IH]; simpl; [reflexivity |].
  destruct (eqb y x); simpl; [reflexivity |].
  rewrite IH. destruct (existsb _ (map fst c)); reflexivity.
Qed.

Lemma Counter_snoc l x :
  Counter eqb (l ++ [x]) = incr eqb x (Counter eqb l).
Proof. unfold Counter; rewrite fold_left_app; reflexivity. Qed.

Lemma distinct_snoc l x :
  distinct eqb (l ++ [x])
  = if existsb (fun y => eqb y x) (distinct eqb l)
    then distinct eqb l else distinct eqb l ++ [x].
Proof. unfold distinct; rewrite fold_left_app; reflexivity. Qed.

(** The keys of a counter are the distinct elements, in order of first
    occurrence. *)
Lemma keys_Counter l : map fst (Counter eqb l) = distinct eqb l.
Proof.
  induction l as [| x l IH] using rev_ind; [reflexivity |].
  rewrite Counter_snoc, distinct_snoc, keys_incr, IH; reflexivity.
Qed.

Lemma distinct_spec l :
  NoDup (distinct eqb l) /\ (forall y, In y (distinct eqb l) <-> In y l).
Proof.
  induction l as [| x l [Hnd Hin]] using rev_ind.
  - split; [constructor | reflexivity].
  - rewrite distinct_snoc.
    destruct (existsb _ (distinct eqb l)) eqn:E.
    + apply existsb_eqb_In in E. split; [assumption |].
      intros y; rewrite in_app_iff, Hin; simpl.
      intuition (subst; try apply Hin; auto).
    + assert (Hx : ~ In x (distinct eqb l)).
      { intros H; apply existsb_eqb_In in H; congruence. }
      split.
      * apply NoDup_rev in Hnd.
        rewrite <- (rev_involutive (distinct eqb l ++ [x])), rev_app_distr.
        apply NoDup_rev; simpl. constructor; [| assumption].
        rewrite <- in_rev; assumption.
      * intros y; rewrite !in_app_iff, Hin; reflexivity.
Qed.

Lemma mentions_snoc l x y :
  mentions eqb (l ++ [x]) y
  = mentions eqb l y + (if eqb y x then 1 else 0).
Proof.
  unfold mentions; rewrite filter_app, length_app; simpl.
  destruct (eqb y x); reflexivity.
Qed.

Lemma mentions_absent l y : ~ In y l -> mentions eqb l y = 0.
Proof.
  unfold mentions; induction l as [| x l IH]; simpl; intros H;
    [reflexivity |].
  rewrite eqb_neq by (intros ->; apply H; auto).
  apply IH; intros Hy; apply H; auto.
Qed.

Lemma mentions_present l y : In y l -> 0 < mentions eqb l y.
Proof.
  unfold mentions; induction l as [| x l IH]; simpl; intros H;
    [contradiction |].
  destruct (eqb y x) eqn:E; simpl; [lia |].
  destruct H as [-> | H]; [rewrite eqb_refl in E; discriminate | auto].
Qed.

(** Where the entries of an incremented counter come from. *)
Lemma in_incr x c y n :
  NoDup (map fst c) ->
  In (y, n) (incr eqb x c) ->
  (y <> x /\ In (y, n) c) \/
  (y = x /\ exists m, n = S m /\
     (In (x, m) c \/ (m = 0 /\ ~ In x (map fst c)))).
Proof.
  induction c as [| [y0 n0] c IH]; simpl; intros Hnd H.
  - destruct H as [H | []]; injection H as <- <-.
    right; split; [reflexivity |]. exists 0; auto.
  - inversion Hnd as [| ? ? Hy0 Hc]; subst.
    destruct (eqb y0 x) eqn:E.
    + apply eqb_eq in E; subst y0.
      destruct H as [H | H].
      * injection H as <- <-. right; split; [reflexivity |].
        exists n0; auto.
      * left; split; [| auto].
        intros ->. apply Hy0. apply (in_map fst) in H; assumption.
    + assert (Hne : y0 <> x)
        by (intros ->; rewrite eqb_refl in E; discriminate).
      destruct H as [H | H].
      * injection H as <- <-. left; auto.
      * destruct (IH Hc H) as [[Hyx Hin] | (-> & m & -> & Hm)].
        -- left; auto.
        -- right; split; [reflexivity |]. exists m; split; [reflexivity |].
           destruct Hm as [Hm | [-> Hm]]; [auto |].
           right; split; [reflexivity |]. intros [? | ?]; auto.
Qed.

(** Every entry of a counter carries the number of occurrences of its
    key. *)
Lemma Counter_counts l y n :
  In (y, n) (Counter eqb l) -> n = mentions eqb l y.
Proof.
  revert y n; induction l as [| x l IH] using rev_ind; intros y n H.
  - contradiction.
  - rewrite Counter_snoc in H.
    destruct (distinct_spec l) as [Hnd Hin].
    apply in_incr in H; [| rewrite keys_Counter; assumption].
    rewrite mentions_snoc.
    destruct H as [[Hne H] | (-> & m & -> & H)].
    + rewrite (eqb_neq Hne). apply IH in H. lia.
    + rewrite eqb_refl. destruct H as [H | [-> H]].
      * apply IH in H. lia.
      * rewrite keys_Counter, Hin in H.
        rewrite mentions_absent by assumption. reflexivity.
Qed.

(** *** First occurrences *)

Lemma first_index_bound l y : In y l -> first_index eqb l y < List.length l.
Proof.
  induction l as [| x l IH]; simpl; intros H; [contradiction |].
  destruct (eqb x y) eqn:E; [lia |].
  destruct H as [-> | H]; [rewrite eqb_refl in E; discriminate |].
  apply IH in H; lia.
Qed.

Lemma first_index_snoc_in l x y :
  In y l -> first_index eqb (l ++ [x]) y = first_index eqb l y.
Proof.
  induction l as [| z l IH]; simpl; intros H; [contradiction |].
  destruct (eqb z y) eqn:E; [reflexivity |].
  destruct H as [-> | H]; [rewrite eqb_refl in E; discriminate |].
  rewrite IH by assumption; reflexivity.
Qed.

Lemma first_index_snoc_new l x :
  ~ In x l -> first_index eqb (l ++ [x]) x = List.length l.
Proof.
  induction l as [| z l IH]; simpl; intros H.
  - rewrite eqb_refl; reflexivity.
  - rewrite eqb_neq by (intros ->; apply H; auto).
    rewrite IH by (intros Hx; apply H; auto); reflexivity.
Qed.

(** The distinct elements are listed by increasing first occurrence. *)
Lemma distinct_sorted l :
  StronglySorted
    (fun a b => first_index eqb l a < first_index eqb l b)
    (distinct eqb l).
Proof.
  induction l as [| x l IH] using rev_ind; [constructor |].
  destruct (distinct_spec l) as [Hnd Hin].
  assert (Hold : StronglySorted
    (fun a b => first_index eqb (l ++ [x]) a < first_index eqb (l ++ [x]) b)
    (distinct eqb l)).
  { eapply StronglySorted_weaken; [| exact IH].
    intros a b Ha Hb Hab; apply Hin in Ha, Hb.
    rewrite !first_index_snoc_in by assumption; assumption. }
  rewrite distinct_snoc.
  destruct (existsb _ (distinct eqb l)) eqn:E; [assumption |].
  assert (Hx : ~ In x l).
  { intros H; apply Hin, existsb_eqb_In in H; congruence. }
  apply StronglySorted_snoc; [assumption |].
  rewrite Forall_forall; intros a Ha; apply Hin in Ha.
  rewrite first_index_snoc_in, first_index_snoc_new by assumption.
  apply first_index_bound; assumption.
Qed.

(** *** The stable descending sort *)

Lemma insert_desc_perm (e : K * nat) l :
  Permutation (insert_desc e l) (e :: l).
Proof.
  induction l as [| h t IH]; simpl; [reflexivity |].
  destruct (snd e <? snd h); [| reflexivity].
  rewrite IH; apply perm_swap.
Qed.

Lemma sorted_desc_perm (l : list (K * nat)) : Permutation (sorted_desc l) l.
Proof.
  induction l as [| e l IH]; simpl; [reflexivity |].
  rewrite insert_desc_perm; apply perm_skip; assumption.
Qed.

Section Stable.
(** [earlier] is the order in which the entries enter the sort. *)
Variable earlier : K * nat -> K * nat -> Prop.

Lemma insert_desc_sorted e l :
  StronglySorted (Spec.ahead earlier) l -> Forall (earlier e) l ->
  StronglySorted (Spec.ahead earlier) (insert_desc e l).
Proof.
  induction 1 as [| h t Hs IH Hh]; intros He; simpl.
  - repeat constructor.
  - inversion He as [| ? ? Heh Het]; subst.
    destruct (Nat.ltb_spec (snd e) (snd h)) as [Hlt | Hge].
    + constructor; [auto |].
      eapply Permutation_Forall;
        [symmetry; apply insert_desc_perm |].
      constructor; [left; assumption | assumption].
    + constructor; [constructor; assumption |].
      constructor.
      * unfold Spec.ahead.
        destruct (Nat.eq_dec (snd h) (snd e)); [right | left];
          auto with arith. lia.
      * rewrite Forall_forall in *; intros x Hx.
        specialize (Hh x Hx); specialize (Het x Hx).
        unfold Spec.ahead in *. destruct Hh as [Hh | [Hh _]].
        -- left; lia.
        -- destruct (Nat.eq_dec (snd x) (snd e)); [right | left];
             auto with arith. lia.
Qed.

Lemma sorted_desc_sorted l :
  StronglySorted earlier l ->
  StronglySorted (Spec.ahead earlier) (sorted_desc l).
Proof.
  induction 1 as [| e l Hs IH He]; simpl; [constructor |].
  apply insert_desc_sorted; [assumption |].
  eapply Permutation_Forall; [symmetry; apply sorted_desc_perm |].
  assumption.
Qed.
End Stable.

End CounterFacts.

Section MostCommon.
Context {K : Type} (eqb : K -> K -> bool).
Hypothesis eqb_eq : forall x y, eqb x y = true <-> x = y.

Import Collections Spec.

(** [most_common n] of a counter: the [n] best-ranked distinct elements
    with their numbers of occurrences, best first. *)
Lemma most_common_Counter n l :
  let top := most_common n (Counter eqb l) in
  List.length top = Nat.min n (List.length (distinct eqb l)) /\
  (forall c k, In (c, k) top -> In c l /\ k = mentions eqb l c) /\
  StronglySorted (ranks_before eqb l) top /\
  (forall c, In c l -> ~ In c (map fst top) ->
   forall e, In e top -> ranks_before eqb l e (c, mentions eqb l c)).
Proof.
  intros top; unfold top, most_common, nlargest.
  set (c := Counter eqb l).
  destruct (distinct_spec eqb eqb_eq l) as [Hnd Hin].
  assert (Hperm : Permutation (sorted_desc c) c) by apply sorted_desc_perm.
  assert (Hsorted : StronglySorted (ranks_before eqb l) (sorted_desc c)).
  { apply sorted_desc_sorted.
    apply StronglySorted_map_inv with (f := fst)
      (R := fun a b => first_index eqb l a < first_index eqb l b).
    unfold c; rewrite keys_Counter. apply distinct_sorted; assumption. }
  assert (Hentry : forall y k, In (y, k) (sorted_desc c) ->
                               In y l /\ k = mentions eqb l y).
  { intros y k H. apply (Permutation_in _ Hperm) in H. split.
    - apply Hin. rewrite <- keys_Counter. apply (in_map fst) in H; exact H.
    - apply Counter_counts; assumption. }
  split; [| split; [| split]].
  - rewrite length_firstn. f_equal.
    rewrite (Permutation_length Hperm).
    rewrite <- (keys_Counter eqb l), length_map; reflexivity.
  - intros y k H. apply Hentry.
    rewrite <- (firstn_skipn n (sorted_desc c)). apply in_or_app; auto.
  - apply StronglySorted_firstn; assumption.
  - intros y Hy Hnot e He.
    assert (Hk : In y (map fst c))
      by (unfold c; rewrite keys_Counter; apply Hin; exact Hy).
    apply in_map_iff in Hk as ([y' k] & E & Hk); simpl in E; subst y'.
    assert (k = mentions eqb l y) by (apply Counter_counts; assumption).
    subst k.
    apply (Permutation_in _ (Permutation_sym Hperm)) in Hk.
    rewrite <- (firstn_skipn n (sorted_desc c)) in Hk.
    apply in_app_or in Hk as [Hk | Hk].
    + exfalso; apply Hnot. apply (in_map fst) in Hk; exact Hk.
    + eapply StronglySorted_cut; eassumption.
Qed.

End MostCommon.

Section CounterTransport.
Context {K L : Type} (eqK : K -> K -> bool) (eqL : L -> L -> bool).
Variable f : K -> L.
Hypothesis f_eqb : forall a b, eqL (f a) (f b) = eqK a b.

Import Collections.

Lemma incr_map x c :
  incr eqL (f x) (map (Spec.on_key f) c) = map (Spec.on_key f) (incr eqK x c).
Proof.
  induction c as [| [y n] c IH]; simpl; [reflexivity |].
  unfold Spec.on_key at 1; simpl. rewrite f_eqb.
  destruct (eqK y x); simpl; [reflexivity |].
  rewrite IH; reflexivity.
Qed.

Lemma Counter_map l :
  Counter eqL (map f l) = map (Spec.on_key f) (Counter eqK l).
Proof.
  induction l as [| x l IH] using rev_ind; [reflexivity |].
  rewrite map_app; simpl map.
  unfold Counter in *; rewrite !fold_left_app; simpl.
  rewrite IH. apply incr_map.
Qed.

Lemma insert_desc_map e c :
  insert_desc (Spec.on_key f e) (map (Spec.on_key f) c)
  = map (Spec.on_key f) (insert_desc e c).
Proof.
  induction c as [| h t IH]; simpl; [reflexivity |].
  destruct (snd e <? snd h); simpl; [rewrite IH |]; reflexivity.
Qed.

Lemma most_common_map n c :
  most_common n (map (Spec.on_key f) c) = map (Spec.on_key f) (most_common n c).
Proof.
  unfold most_common, nlargest. rewrite <- firstn_map. f_equal.
  induction c as [| e c IH]; simpl; [reflexivity |].
  rewrite IH. apply insert_desc_map.
Qed.

End CounterTransport.

(* ================================================================== *)
(** ** Top affected coins and missing fields: the statements *)
(* ================================================================== *)

Section CoinStatements.
Import Py Server Spec.
Local Open Scope string_scope.

Lemma key_eqb_VStr a b : key_eqb (VStr a) (VStr b) = String.eqb a b.
Proof. reflexivity. Qed.

Lemma strings_are_VStr l :
  forallb is_str l = true -> l = map VStr (map str_of l).
Proof.
  induction l as [| v l IH]; simpl; [reflexivity |].
  intros H; apply andb_prop in H as [Hv Hl].
  rewrite <- IH by assumption.
  destruct v; simpl in *; try discriminate; reflexivity.
Qed.

(** On conforming records the loop collects exactly the coin mentions. *)
Lemma conforms_all_coins rs :
  Forall (fun r => conforms r = true) rs ->
  flat_map iter_coins rs = map VStr (coin_mentions rs).
Proof.
  induction 1 as [| r rs Hr _ IH]; simpl; [reflexivity |].
  unfold coin_mentions in *; simpl. rewrite map_app, IH. f_equal.
  apply conforms_inv in Hr as [_ (l & Hl & Hs)].
  unfold iter_coins, coin_names; rewrite Hl; simpl.
  apply strings_are_VStr; assumption.
Qed.

Lemma Counter_values_strings l :
  Collections.Counter_values (map VStr l)
  = inr (map (on_key VStr) (Collections.Counter String.eqb l)).
Proof.
  unfold Collections.Counter_values.
  assert (H : forallb hashable (map VStr l) = true)
    by (induction l; simpl; auto).
  rewrite H. unfold ok; f_equal.
  apply Counter_map; intros; apply key_eqb_VStr.
Qed.

(** C2. For every sequence of results, [top_affected_coins] lists coins
    with their numbers of mentions over the flattened sequence of all
    [affected_coins]; it keeps the five best-ranked coins (all of them when
    there are fewer), in ranking order, where a coin ranks before another
    when it is mentioned more often, or equally often and first mentioned
    earlier; every coin left out ranks after every coin kept. *)
Theorem top_affected_coins_ranking rs :
  Forall (fun r => conforms r = true) rs ->
  exists s top,
    _generate_batch_summary rs = inr s /\
    top_affected_coins s = map (on_key VStr) top /\
    let all := coin_mentions rs in
    List.length top = Nat.min 5 (List.length (distinct String.eqb all)) /\
    (forall c k, In (c, k) top ->
                 In c all /\ k = mentions String.eqb all c) /\
    StronglySorted (ranks_before String.eqb all) top /\
    (forall c, In c all -> ~ In c (map fst top) ->
     forall e, In e top ->
               ranks_before String.eqb all e (c, mentions String.eqb all c)).
Proof.
  intros H. destruct (conforms_summary H) as (s & Hs).
  exists s,
    (Collections.most_common 5
       (Collections.Counter String.eqb (coin_mentions rs))).
  split; [assumption |]. split.
  - apply summary_inv in Hs as (_ & _ & _ & _ & _ & _ & _ & _ & Htop).
    rewrite (conforms_all_coins H) in Htop.
    destruct (coin_mentions rs) as [| c cs] eqn:E; simpl map in Htop.
    + rewrite Htop; reflexivity.
    + destruct Htop as (cc & Hcc & ->).
      rewrite <- E in *.
      change (VStr c :: map VStr cs) with (map VStr (c :: cs)) in Hcc.
      rewrite <- E, Counter_values_strings in Hcc. injection Hcc as <-.
      apply most_common_map.
  - apply (most_common_Counter String.eqb String.eqb_eq).
Qed.

Lemma top_affected_coins_ranking_witness :
  exists s top,
    _generate_batch_summary
      [[("affected_coins", VList [VStr "ETH"; VStr "BTC"])];
       [("affected_coins", VList [VStr "BTC"; VStr "SOL"; VStr "ADA"])];
       [];
       [("affected_coins",
         VList [VStr "XRP"; VStr "ETH"; VStr "DOT"; VStr "SOL"])]] = inr s /\
    top_affected_coins s = map (on_key VStr) top /\
    let all :=
      ["ETH"; "BTC"; "BTC"; "SOL"; "ADA"; "XRP"; "ETH"; "DOT"; "SOL"] in
    List.length top = 5 /\
    (forall c k, In (c, k) top ->
                 In c all /\ k = mentions String.eqb all c) /\
    StronglySorted (ranks_before String.eqb all) top /\
    (forall c, In c all -> ~ In c (map fst top) ->
     forall e, In e top ->
               ranks_before String.eqb all e (c, mentions String.eqb all c)).
Proof.
  apply (@top_affected_coins_ranking
    [[("affected_coins", VList [VStr "ETH"; VStr "BTC"])];
     [("affected_coins", VList [VStr "BTC"; VStr "SOL"; VStr "ADA"])];
     [];
     [("affected_coins",
       VList [VStr "XRP"; VStr "ETH"; VStr "DOT"; VStr "SOL"])]]).
  repeat constructor.
Defined.

(** The ranking on a concrete batch: ties keep first-mention order and
    the sixth coin is dropped. *)
Example top_affected_coins_sample :
  _generate_batch_summary
    [[("affected_coins", VList [VStr "ETH"; VStr "BTC"])];
     [("affected_coins", VList [VStr "BTC"; VStr "SOL"; VStr "ADA"])];
     [("affected_coins",
       VList [VStr "XRP"; VStr "ETH"; VStr "DOT"; VStr "SOL"])]]
  = inr (Summary 0 0 3 0 3 0 (Float64.Decimal1 0)
           [(VStr "ETH", 2); (VStr "BTC", 2); (VStr "SOL", 2);
            (VStr "ADA", 1); (VStr "XRP", 1)]).
Proof. reflexivity. Qed.

(** *** Missing fields *)

Lemma dict_get_app (r : dict) (k : string) (v : value) (k' : string) :
  dict_get (r ++ [(k, v)])%list k'
  = match dict_get r k' with
    | Some x => Some x
    | None => if String.eqb k k' then Some v else None
    end.
Proof.
  induction r as [| [k0 v0] r IH]; simpl; [reflexivity |].
  destruct (String.eqb k0 k'); [reflexivity | exact IH].
Qed.

Lemma get_with_default_same k v r : get (with_default k v r) k v = get r k v.
Proof.
  unfold with_default, get.
  destruct (dict_get r k) as [x |] eqn:E; [rewrite E; reflexivity |].
  rewrite dict_get_app, E, String.eqb_refl; reflexivity.
Qed.

Lemma get_with_default_other k v r k' d :
  String.eqb k k' = false ->
  get (with_default k v r) k' d = get r k' d.
Proof.
  intros Hk; unfold with_default, get.
  destruct (dict_get r k); [reflexivity |].
  rewrite dict_get_app, Hk.
  destruct (dict_get r k'); reflexivity.
Qed.

Ltac strip_defaults :=
  unfold Spec.fill_defaults;
  repeat first
    [ rewrite get_with_default_same
    | rewrite get_with_default_other by reflexivity ];
  reflexivity.

Lemma get_fill_defaults r :
  get (fill_defaults r) "impact" (VStr "Neutral")
  = get r "impact" (VStr "Neutral") /\
  get (fill_defaults r) "confidence" (VInt 0) = get r "confidence" (VInt 0) /\
  get (fill_defaults r) "error" VNone = get r "error" VNone /\
  get (fill_defaults r) "affected_coins" (VList [])
  = get r "affected_coins" (VList []).
Proof. repeat split; strip_defaults. Qed.

(** The loop body cannot tell a missing field from its default. *)
Lemma loop_body_fill_defaults st r :
  loop_body st (fill_defaults r) = loop_body st r.
Proof.
  destruct (get_fill_defaults r) as (E1 & E2 & E3 & E4).
  unfold loop_body. rewrite E1, E2, E3, E4. reflexivity.
Qed.

Lemma for_each_fill_defaults rs : forall st,
  for_each loop_body st (map fill_defaults rs) = for_each loop_body st rs.
Proof.
  induction rs as [| r rs IH]; intros st; simpl; [reflexivity |].
  rewrite loop_body_fill_defaults.
  destruct (loop_body st r); simpl; auto.
Qed.

Lemma is_neutral_missing_or_other r :
  is_neutral r = impact_missing_or_other r.
Proof.
  unfold is_neutral, is_positive, is_negative, impact_missing_or_other,
    impact_of, get.
  destruct (dict_get r "impact"); reflexivity.
Qed.

(** A record with a null confidence stops the summary with a
    [TypeError]. *)
Lemma summary_raises_on_null_confidence :
  _generate_batch_summary
    [[("impact", VStr "Neutral"); ("confidence", VNone);
      ("affected_coins", VList [])]] = inl TypeError.
Proof. reflexivity. Qed.

(** C10 (amended). The summary treats a missing field as its default: it
    returns the same on the records as on the records with ["impact"],
    ["confidence"] and ["affected_coins"] filled in by ["Neutral"], [0]
    and the empty list.  On records whose confidence, where present, is an
    integer in [0, 100] and whose affected coins, where present, are a
    list of strings, no error is raised, and the neutral count is the
    number of records whose impact is missing or is any value other than
    ["Positive"] and ["Negative"]. *)
Theorem summary_defaults rs :
  _generate_batch_summary (map fill_defaults rs) = _generate_batch_summary rs /\
  (Forall (fun r => conforms r = true) rs ->
   exists s,
     _generate_batch_summary rs = inr s /\
     neutral_count s = count impact_missing_or_other rs).
Proof.
  split.
  - unfold _generate_batch_summary.
    rewrite for_each_fill_defaults; reflexivity.
  - intros H. destruct (conforms_summary H) as (s & Hs).
    exists s; split; [assumption |].
    apply summary_inv in Hs as (_ & _ & _ & -> & _).
    unfold count; f_equal; apply filter_ext.
    apply is_neutral_missing_or_other.
Qed.

Lemma summary_defaults_witness :
  exists s,
    _generate_batch_summary
      [[]; [("impact", VInt 3)]; [("impact", VStr "Positive")];
       [("impact", VStr "positive"); ("confidence", VBool true)]] = inr s /\
    neutral_count s = 3.
Proof.
  apply (proj2 (summary_defaults
    [[]; [("impact", VInt 3)]; [("impact", VStr "Positive")];
     [("impact", VStr "positive"); ("confidence", VBool true)]])).
  repeat constructor.
Defined.

End CoinStatements.

(* ================================================================== *)
(** ** Properties of the word-boundary search *)
(* ================================================================== *)

Section RegexFacts.
Import Re Spec.

Lemma last_char_app prev s t :
  last_char prev (s ++ t) = last_char (last_char prev s) t.
Proof. revert prev; induction s; simpl; auto. Qed.

(** A search succeeds exactly when the pattern matches at some position
    of the text. *)
Lemma search_from_iff p t : forall prev,
  search_from p prev t = true <->
  exists before rest,
    t = before ++ rest /\
    match_atoms p (last_char prev before) rest = true.
Proof.
  induction t as [| c t IH]; intros prev; simpl.
  - rewrite orb_false_r; split.
    + intros H; exists [], []; auto.
    + intros (before & rest & E & H).
      symmetry in E; apply app_eq_nil in E as [-> ->]; exact H.
  - rewrite orb_true_iff, IH; split.
    + intros [H | (before & rest & -> & H)].
      * exists [], (c :: t); auto.
      * exists (c :: before), rest; auto.
    + intros (before & rest & E & H).
      destruct before as [| b before]; simpl in *.
      * subst rest; auto.
      * injection E as <- ->. right; eauto.
Qed.

(** The literals of an escaped keyword match a case-insensitive copy of
    it, after which the rest of the pattern goes on. *)
Lemma match_literals_iff k q : forall prev t,
  match_atoms (escape k ++ q) prev t = true <->
  exists hit rest,
    t = hit ++ rest /\
    Forall2 (fun c p => ci_eqb c p = true) hit k /\
    match_atoms q (last_char prev hit) rest = true.
Proof.
  induction k as [| x k IH]; intros prev t; simpl.
  - split.
    + intros H; exists [], t; auto.
    + intros (hit & rest & -> & Hf & H). inversion Hf; subst; exact H.
  - destruct t as [| c t].
    + split; [discriminate |].
      intros (hit & rest & E & Hf & _).
      inversion Hf; subst; discriminate.
    + rewrite andb_true_iff, IH; split.
      * intros (Hc & hit & rest & -> & Hf & H).
        exists (c :: hit), rest; auto.
      * intros (hit & rest & E & Hf & H).
        inversion Hf as [| c' x' hit' k' Hc Hf']; subst.
        simpl in E; injection E as <- ->.
        split; [assumption |]. exists hit', rest; auto.
Qed.

(** The search the server runs for a keyword finds exactly its
    word-boundary-anchored, case-insensitive occurrences. *)
Lemma search_keyword_iff keyword text :
  search_keyword keyword text = true <->
  matcher_hit (list_ascii_of_string keyword)
                            (list_ascii_of_string text).
Proof.
  unfold search_keyword, search, matcher_hit.
  set (k := list_ascii_of_string keyword).
  set (t := list_ascii_of_string text).
  rewrite search_from_iff; split.
  - intros (before & rest & -> & H).
    simpl in H. apply andb_true_iff in H as [Hb H].
    apply match_literals_iff in H as (hit & after & -> & Hf & H).
    simpl in H; rewrite andb_true_r in H.
    exists before, hit, after; repeat split; auto.
    rewrite last_char_app; exact H.
  - intros (before & hit & after & -> & Hf & Hb & He).
    exists before, (hit ++ after); split; [reflexivity |].
    simpl. rewrite Hb; simpl.
    apply match_literals_iff. exists hit, after; repeat split; auto.
    simpl; rewrite andb_true_r. rewrite last_char_app in He; exact He.
Qed.

(** *** Surrounding white space does not matter *)

Lemma space_not_word c : Str.is_space c = true -> Str.is_word c = false.
Proof.
  destruct c as [[] [] [] [] [] [] [] []]; intros H;
    solve [reflexivity | discriminate H].
Qed.

Lemma match_atoms_prev p : forall prev prev' t,
  word_opt prev = word_opt prev' ->
  match_atoms p prev t = match_atoms p prev' t.
Proof.
  induction p as [| [| x] p IH]; intros prev prev' t H; simpl.
  - reflexivity.
  - unfold at_boundary; rewrite H, (IH _ _ _ H); reflexivity.
  - reflexivity.
Qed.

Lemma search_from_prev p t : forall prev prev',
  word_opt prev = word_opt prev' ->
  search_from p prev t = search_from p prev' t.
Proof.
  destruct t; intros; simpl; rewrite (match_atoms_prev p _ _ _ H);
    reflexivity.
Qed.

(** No pattern that ends in [\b] matches inside a run of non-word
    characters. *)
Lemma match_atoms_blank q : forall prev t,
  word_opt prev = false -> Forall (fun c => Str.is_word c = false) t ->
  match_atoms (q ++ [Boundary]) prev t = false.
Proof.
  induction q as [| [| x] q IH]; intros prev t Hp Ht; simpl.
  - unfold at_boundary; rewrite Hp.
    destruct Ht as [| c t Hc _]; simpl; [reflexivity | rewrite Hc; reflexivity].
  - unfold at_boundary; rewrite Hp.
    destruct Ht as [| c t Hc _]; simpl; [reflexivity | rewrite Hc; reflexivity].
  - destruct Ht as [| c t Hc Ht]; [reflexivity |].
    rewrite IH by assumption. apply andb_false_r.
Qed.

Lemma search_from_blank q t : forall prev,
  word_opt prev = false -> Forall (fun c => Str.is_word c = false) t ->
  search_from (q ++ [Boundary]) prev t = false.
Proof.
  induction t as [| c t IH]; intros prev Hp Ht; simpl.
  - rewrite match_atoms_blank by auto; reflexivity.
  - rewrite match_atoms_blank by auto. inversion Ht; subst.
    rewrite IH by auto; reflexivity.
Qed.

Lemma match_atoms_trailing q blanks :
  Forall (fun c => Str.is_word c = false) blanks ->
  forall prev t,
    match_atoms (q ++ [Boundary]) prev (t ++ blanks)
    = match_atoms (q ++ [Boundary]) prev t.
Proof.
  intros Hb.
  assert (Hhd : forall t, word_opt (hd_error (t ++ blanks))
                          = word_opt (hd_error t)).
  { intros [| c t]; simpl; [| reflexivity].
    destruct Hb; simpl; auto. }
  induction q as [| [| x] q IH]; intros prev t; simpl.
  - unfold at_boundary; rewrite Hhd; reflexivity.
  - unfold at_boundary; rewrite Hhd, IH; reflexivity.
  - destruct t as [| c t]; simpl.
    + destruct Hb as [| b blanks Hc Hb]; [reflexivity |].
      rewrite match_atoms_blank by auto. apply andb_false_r.
    + rewrite IH; reflexivity.
Qed.

Lemma search_from_trailing q blanks :
  Forall (fun c => Str.is_word c = false) blanks ->
  forall t prev,
    search_from (q ++ [Boundary]) prev (t ++ blanks)
    = search_from (q ++ [Boundary]) prev t.
Proof.
  intros Hb; induction t as [| c t IH]; intros prev.
  - simpl app. destruct blanks as [| b blanks]; [reflexivity |].
    change (search_from (q ++ [Boundary]) prev (b :: blanks))
      with (match_atoms (q ++ [Boundary]) prev (b :: blanks)
            || search_from (q ++ [Boundary]) (Some b) blanks).
    pose proof (match_atoms_trailing q Hb prev []) as Hm; simpl app in Hm.
    inversion Hb; subst.
    rewrite search_from_blank, Hm by auto.
    simpl; rewrite !orb_false_r; reflexivity.
  - pose proof (match_atoms_trailing q Hb prev (c :: t)) as Hm.
    simpl app in *.
    change (search_from (q ++ [Boundary]) prev (c :: t ++ blanks))
      with (match_atoms (q ++ [Boundary]) prev (c :: t ++ blanks)
            || search_from (q ++ [Boundary]) (Some c) (t ++ blanks)).
    rewrite Hm, IH. reflexivity.
Qed.

Lemma search_from_drop_space q t :
  search_from (Boundary :: q) None (Str.drop_space t)
  = search_from (Boundary :: q) None t.
Proof.
  induction t as [| c t IH]; [reflexivity |].
  simpl Str.drop_space. destruct (Str.is_space c) eqn:E; [| reflexivity].
  rewrite IH. apply space_not_word in E.
  change (search_from (Boundary :: q) None (c :: t))
    with (match_atoms (Boundary :: q) None (c :: t)
          || search_from (Boundary :: q) (Some c) t).
  simpl match_atoms. unfold at_boundary; simpl; rewrite E; simpl.
  apply search_from_prev; simpl; auto.
Qed.

Lemma drop_space_split t :
  exists blanks,
    t = blanks ++ Str.drop_space t /\
    Forall (fun c => Str.is_word c = false) blanks.
Proof.
  induction t as [| c t (blanks & E & H)]; simpl.
  - exists []; auto.
  - destruct (Str.is_space c) eqn:Ec.
    + exists (c :: blanks); split; [simpl; congruence |].
      constructor; [apply space_not_word; assumption | assumption].
    + exists []; auto.
Qed.

(** Stripping the text neither adds nor removes a keyword hit. *)
Lemma search_keyword_strip keyword text :
  search_keyword keyword (Str.strip text) = search_keyword keyword text.
Proof.
  unfold search_keyword, search, Str.strip, Str.strip_chars.
  rewrite list_ascii_of_string_of_list_ascii.
  set (t := list_ascii_of_string text).
  set (q := escape (list_ascii_of_string keyword)).
  rewrite <- (search_from_drop_space (q ++ [Boundary]) t).
  set (u := Str.drop_space t).
  destruct (drop_space_split (rev u)) as (blanks & E & Hb).
  assert (Eu : u = rev (Str.drop_space (rev u)) ++ rev blanks).
  { rewrite <- rev_app_distr, <- E, rev_involutive; reflexivity. }
  rewrite Eu at 2.
  change (Boundary :: q ++ [Boundary]) with ((Boundary :: q) ++ [Boundary]).
  rewrite search_from_trailing; [reflexivity |].
  apply Forall_rev; assumption.
Qed.

End RegexFacts.

(* ================================================================== *)
(** ** Request validation: the statements *)
(* ================================================================== *)

Section SingleValidation.
Import Py Effects Server Spec.
Local Open Scope string_scope.
Context {W : Type} (self : KaayaanMCPNewsServer W).

Lemma strip_value_str_arg arguments k s :
  str_arg arguments k = Some s ->
  strip_value (get arguments k (VStr "")) = inr (Str.strip s).
Proof.
  unfold str_arg, get.
  destruct (dict_get arguments k) as [[| | | s' | |] |]; intros H;
    try discriminate; injection H as <-; reflexivity.
Qed.

Lemma missing_or_empty_strip arguments k :
  missing_or_empty arguments k ->
  strip_value (get arguments k (VStr "")) = inr "".
Proof.
  unfold missing_or_empty, get.
  destruct (dict_get arguments k) as [[| | | s | |] |]; try contradiction.
  - intros H; simpl; unfold ok; f_equal; exact H.
  - reflexivity.
Qed.

(** C5 (amended). A single-analysis request whose title, summary and
    source are each absent or a string, and whose title or summary is
    missing or empty after trimming, is answered with the validation
    error and nothing else happens: the analyzer is not called.  The
    analyzer is called, once, when both are non-empty.  When some
    argument is present but not a string the handler raises instead of
    answering (the texts are trimmed before the check); even then
    nothing is analysed for a request whose title or summary is missing
    or blank. *)
Theorem single_analysis_validation id arguments w :
  let run := _handle_single_analysis self id arguments w in
  (forall title summary source,
     str_arg arguments "title" = Some title ->
     str_arg arguments "summary" = Some summary ->
     str_arg arguments "source" = Some source ->
     (Str.strip title = "" \/ Str.strip summary = "" ->
      run = (inr (Error id
                    (McpError invalid_params
                       "Invalid params: title and summary required" None)),
             w)) /\
     (Str.strip title <> "" -> Str.strip summary <> "" ->
      exists request_id,
        calls (snd run)
        = (calls w
           ++ [AnalyzeSingle (Str.strip title) (Str.strip summary)
                 request_id])%list)) /\
  (missing_or_empty arguments "title" \/ missing_or_empty arguments "summary" ->
   calls (snd run) = calls w).
Proof.
  intros run; unfold run, _handle_single_analysis, bind, lift; split.
  - intros title summary source Ht Hs Hsrc.
    rewrite (strip_value_str_arg _ _ Ht), (strip_value_str_arg _ _ Hs),
      (strip_value_str_arg _ _ Hsrc).
    split.
    + intros Hempty.
      assert (E : String.eqb (Str.strip title) ""
                  || String.eqb (Str.strip summary) "" = true).
      { destruct Hempty as [-> | ->]; [reflexivity | apply orb_true_r]. }
      rewrite E. reflexivity.
    + intros Hnt Hns.
      apply String.eqb_neq in Hnt, Hns. rewrite Hnt, Hns; simpl orb; cbv iota.
      eexists. unfold try_except, bind, call, utcnow; simpl.
      destruct (CryptoNewsAnalyzer.analyze_single _ _ _ _); reflexivity.
  - intros [H | H]; apply missing_or_empty_strip in H.
    + rewrite H.
      destruct (strip_value (get arguments "summary" (VStr "")));
        [reflexivity |].
      destruct (strip_value (get arguments "source" (VStr "")));
        reflexivity.
    + destruct (strip_value (get arguments "title" (VStr ""))) as [e | t];
        [reflexivity |].
      rewrite H.
      destruct (strip_value (get arguments "source" (VStr "")));
        [reflexivity |].
      rewrite orb_true_r. reflexivity.
Qed.

End SingleValidation.

Lemma single_analysis_validation_witness :
  Server._handle_single_analysis Samples.server (Py.VInt 1)
    [("title", Py.VStr "   "); ("summary", Py.VStr "Exchange hacked")]%string
    Samples.world0
  = (inr (Server.Error (Py.VInt 1)
            (Server.McpError Spec.invalid_params
               "Invalid params: title and summary required" None)),
     Samples.world0).
Proof.
  apply (proj1 (proj1 (@single_analysis_validation Z Samples.server
    (Py.VInt 1)
    [("title", Py.VStr "   "); ("summary", Py.VStr "Exchange hacked")]%string
    Samples.world0)
    "   " "Exchange hacked" "" eq_refl eq_refl eq_refl)%string).
  left; reflexivity.
Defined.

(** A request with an empty title is not answered with the validation
    error when its summary or its source is not a string, nor is a
    request whose title is [null]: [strip] raises [AttributeError] on
    line 252, 253 or 254, before the check of line 256. *)
Lemma single_validation_raises_on_non_string :
  Server._handle_single_analysis Samples.server (Py.VInt 1)
    [("title", Py.VStr ""); ("summary", Py.VInt 5)]%string Samples.world0
  = (inl Py.AttributeError, Samples.world0) /\
  Server._handle_single_analysis Samples.server (Py.VInt 1)
    [("title", Py.VStr ""); ("source", Py.VInt 5)]%string Samples.world0
  = (inl Py.AttributeError, Samples.world0) /\
  Server._handle_single_analysis Samples.server (Py.VInt 1)
    [("title", Py.VNone); ("summary", Py.VStr "Exchange hacked")]%string
    Samples.world0
  = (inl Py.AttributeError, Samples.world0).
Proof. repeat split. Qed.

Section BatchValidation.
Import Py Effects Server Spec.
Local Open Scope string_scope.
Context {W : Type} (self : KaayaanMCPNewsServer W).

Ltac answered later :=
  eexists _, _, later;
  split; [reflexivity |];
  split; [discriminate |];
  simpl; rewrite <- ?app_assoc; reflexivity.

(** Once the size checks are passed the handler always answers, never
    with a validation error, and its first call is to the analyzer with
    the items of the request. *)
Lemma batch_accepted id arguments first others w :
  get arguments "news_items" (VList []) = VList (first :: others) ->
  (List.length (first :: others) <= 50)%nat ->
  exists request_id resp w' later,
    _handle_batch_analysis self id arguments w = (inr resp, w') /\
    error_code resp <> Some invalid_params /\
    calls w'
    = (calls w ++ AnalyzeBatch (first :: others) request_id :: later)%list.
Proof.
  intros Hget Hlen. unfold _handle_batch_analysis. rewrite Hget.
  destruct (Nat.ltb_spec 50 (List.length (first :: others))) as [Hgt | _];
    [lia |].
  unfold bind, try_except, call, utcnow, lift, ret; simpl.
  match goal with
  | |- context [AnalyzeBatch _ ?r] =>
      set (request_id := r); clearbody request_id
  end.
  exists request_id.
  destruct (CryptoNewsAnalyzer.analyze_batch _ _ _) as [e | results]; simpl.
  { answered (@nil event). }
  destruct (add_metadata request_id (first :: others) 0 results)
    as [e | annotated]; simpl.
  { answered (@nil event). }
  destruct (webhook_manager self) as [wm |]; simpl.
  - destruct (WebhookManager.send_batch_results wm annotated request_id)
      as [e | []]; simpl.
    + answered [SendBatchResults annotated request_id].
    + destruct (_generate_batch_summary annotated); simpl;
        answered [SendBatchResults annotated request_id].
  - destruct (_generate_batch_summary annotated); simpl;
      answered (@nil event).
Qed.

(** C6 (amended). A batch request whose [news_items] list has more than
    50 items is rejected with an invalid-params error before anything is
    analysed; a list of 1 to 50 items is accepted and handed to the
    analyzer; the empty list is rejected with an invalid-params error as
    well. *)
Theorem batch_size_limit id arguments items w :
  get arguments "news_items" (VList []) = VList items ->
  let run := _handle_batch_analysis self id arguments w in
  ((50 < List.length items)%nat ->
   run = (inr (Error id
                 (McpError invalid_params
                    "Batch size limit exceeded (max 50 items)" None)),
          w)) /\
  ((1 <= List.length items <= 50)%nat ->
   exists request_id resp w' later,
     run = (inr resp, w') /\
     error_code resp <> Some invalid_params /\
     calls w' = (calls w ++ AnalyzeBatch items request_id :: later)%list) /\
  (items = [] ->
   run = (inr (Error id
                 (McpError invalid_params
                    "Invalid params: news_items array required" None)),
          w)).
Proof.
  intros Hget run; unfold run. split; [| split].
  - intros Hgt. unfold _handle_batch_analysis. rewrite Hget.
    destruct items as [| first others]; [simpl in Hgt; lia |].
    destruct (Nat.ltb_spec 50 (List.length (first :: others))); [| lia].
    reflexivity.
  - intros [H1 H50].
    destruct items as [| first others]; [simpl in H1; lia |].
    apply batch_accepted; assumption.
  - intros ->. unfold _handle_batch_analysis. rewrite Hget. reflexivity.
Qed.

End BatchValidation.

(** A batch of no items is within the limit of 50 and is rejected. *)
Lemma empty_batch_rejected :
  (List.length (@nil Py.value) <= 50)%nat /\
  Server._handle_batch_analysis Samples.server (Py.VInt 1)
    [("news_items", Py.VList [])]%string Samples.world0
  = (inr (Server.Error (Py.VInt 1)
            (Server.McpError Spec.invalid_params
               "Invalid params: news_items array required" None)),
     Samples.world0).
Proof. split; [apply Nat.le_0_l | reflexivity]. Qed.

Lemma batch_size_limit_witness :
  exists request_id resp w' later,
    Server._handle_batch_analysis Samples.server (Py.VInt 1)
      [("news_items",
        Py.VList [Samples.item "Bitcoin rallies";
                  Samples.item "Exchange hacked"])]%string
      Samples.world0 = (inr resp, w') /\
    Spec.error_code resp <> Some Spec.invalid_params /\
    Effects.calls w'
    = Effects.AnalyzeBatch
        [Samples.item "Bitcoin rallies"; Samples.item "Exchange hacked"]
        request_id :: later.
Proof.
  apply (proj1 (proj2 (@batch_size_limit Z Samples.server (Py.VInt 1)
    [("news_items",
      Py.VList [Samples.item "Bitcoin rallies";
                Samples.item "Exchange hacked"])]%string
    [Samples.item "Bitcoin rallies"; Samples.item "Exchange hacked"]
    Samples.world0 eq_refl))).
  simpl; lia.
Defined.

(* ================================================================== *)
(** ** Keyword inspection: the statements *)
(* ================================================================== *)

Section KeywordInspection.
Import Py Effects Server Spec.
Local Open Scope string_scope.

Lemma lower_char_word c : Str.is_word (Str.lower_char c) = Str.is_word c.
Proof. destruct c as [[] [] [] [] [] [] [] []]; reflexivity. Qed.

Lemma ci_eqb_word c p : Re.ci_eqb c p = true -> Str.is_word c = Str.is_word p.
Proof.
  unfold Re.ci_eqb; intros H; apply Ascii.eqb_eq in H.
  rewrite <- (lower_char_word c), H. apply lower_char_word.
Qed.

Lemma ci_hit_hd hit k :
  Forall2 (fun c p => Re.ci_eqb c p = true) hit k ->
  Re.word_opt (hd_error hit) = Re.word_opt (hd_error k).
Proof.
  destruct 1 as [| c p hit k Hc _]; simpl; [reflexivity |].
  apply ci_eqb_word; assumption.
Qed.

Lemma ci_hit_last hit k :
  Forall2 (fun c p => Re.ci_eqb c p = true) hit k ->
  forall prev prev',
    Re.word_opt prev = Re.word_opt prev' ->
    Re.word_opt (last_char prev hit) = Re.word_opt (last_char prev' k).
Proof.
  induction 1 as [| c p hit k Hc _ IH]; intros prev prev' H; simpl;
    [assumption |].
  apply IH; simpl. apply ci_eqb_word; assumption.
Qed.

Lemma last_char_nonempty prev prev' (k : list ascii) :
  k <> [] -> last_char prev k = last_char prev' k.
Proof. destruct k; [congruence | reflexivity]. Qed.

(** Between word characters, a boundary-anchored occurrence is a
    whole-word occurrence. *)
Lemma matcher_whole_words_of_hit k t :
  matcher_delimited k ->
  matcher_hit k t -> matcher_whole_words k t.
Proof.
  intros [Hhd Hlast] (before & hit & after & -> & Hf & Hb & He).
  exists before, hit, after; repeat split; auto.
  - assert (Hh : Re.word_opt (hd_error (hit ++ after)) = true).
    { destruct Hf as [| c p hit k Hc Hf]; [discriminate Hhd |].
      simpl in *. rewrite (ci_eqb_word _ _ Hc); assumption. }
    unfold Re.at_boundary in Hb; rewrite Hh in Hb.
    destruct (Re.word_opt (last_char None before));
      [discriminate | reflexivity].
  - assert (Hl : Re.word_opt (last_char None (before ++ hit)) = true).
    { rewrite last_char_app.
      assert (Hne : k <> []) by (intros ->; discriminate Hhd).
      rewrite <- Hlast, (last_char_nonempty _ (last_char None before) Hne).
      apply ci_hit_last; auto. }
    unfold Re.at_boundary in He; rewrite Hl in He.
    destruct (Re.word_opt (hd_error after)); [discriminate | reflexivity].
Qed.

(** *** The matcher's tests against the notions of the spec *)

Lemma is_word_spec c : Str.is_word c = true <-> word_char c.
Proof.
  unfold Str.is_word, Str.between, Str.code, word_char, letter, digit.
  cbv zeta. generalize (N_of_ascii c); intros n.
  rewrite !orb_true_iff, !andb_true_iff, !N.leb_le, !N.eqb_eq. lia.
Qed.

Lemma word_opt_spec o : Re.word_opt o = true <-> word_at o.
Proof.
  unfold Re.word_opt, word_at. destruct o as [c |]; split.
  - intros H. exists c. split; [reflexivity | apply is_word_spec, H].
  - intros (x & E & Hx). injection E as <-. apply is_word_spec, Hx.
  - discriminate.
  - intros (x & E & _). discriminate E.
Qed.

Lemma word_opt_false o : Re.word_opt o = false <-> ~ word_at o.
Proof.
  rewrite <- word_opt_spec.
  destruct (Re.word_opt o); split; congruence.
Qed.

Lemma at_boundary_spec prev next :
  Re.at_boundary prev next = true <-> word_boundary prev next.
Proof.
  unfold Re.at_boundary, word_boundary. rewrite <- !word_opt_spec.
  destruct (Re.word_opt prev), (Re.word_opt next); simpl; split;
    try discriminate; intuition congruence.
Qed.

Lemma N_of_ascii_inj a b : N_of_ascii a = N_of_ascii b -> a = b.
Proof.
  intros H.
  rewrite <- (ascii_N_embedding a), <- (ascii_N_embedding b), H.
  reflexivity.
Qed.

Lemma N_of_lower_char c :
  let n := N_of_ascii c in
  ((65 <= n <= 90 \/ 192 <= n <= 214 \/ 216 <= n <= 222) /\
   N_of_ascii (Str.lower_char c) = n + 32 \/
   ~ (65 <= n <= 90 \/ 192 <= n <= 214 \/ 216 <= n <= 222) /\
   N_of_ascii (Str.lower_char c) = n)%N.
Proof.
  unfold Str.lower_char, Str.between, Str.code. cbv zeta.
  pose proof (N_ascii_bounded c) as Hc.
  destruct (_ || _ || _) eqn:E.
  - rewrite !orb_true_iff, !andb_true_iff, !N.leb_le in E.
    left. split; [lia |]. apply N_ascii_embedding. lia.
  - rewrite !orb_false_iff, !andb_false_iff, !N.leb_gt in E.
    right. split; [lia | reflexivity].
Qed.

Lemma ci_eqb_spec c p : Re.ci_eqb c p = true <-> same_letter c p.
Proof.
  unfold Re.ci_eqb, same_letter, lower_case_of. cbv zeta.
  rewrite Ascii.eqb_eq.
  pose proof (N_of_lower_char c) as Hc. pose proof (N_of_lower_char p) as Hp.
  cbv zeta in Hc, Hp.
  split.
  - intros H. apply (f_equal N_of_ascii) in H.
    assert (Hcases :
              (N_of_ascii c = N_of_ascii p \/
               ((65 <= N_of_ascii c <= 90 \/ 192 <= N_of_ascii c <= 214 \/
                 216 <= N_of_ascii c <= 222) /\
                N_of_ascii p = N_of_ascii c + 32) \/
               ((65 <= N_of_ascii p <= 90 \/ 192 <= N_of_ascii p <= 214 \/
                 216 <= N_of_ascii p <= 222) /\
                N_of_ascii c = N_of_ascii p + 32))%N) by lia.
    destruct Hcases as [E | [E | E]]; auto.
    left. apply N_of_ascii_inj, E.
  - intros H. apply N_of_ascii_inj.
    destruct H as [-> | [H | H]]; [reflexivity | lia | lia].
Qed.

Lemma same_letters_spec hit k :
  Forall2 (fun c p => Re.ci_eqb c p = true) hit k <->
  Forall2 same_letter hit k.
Proof.
  split; apply Forall2_impl; intros c p; apply ci_eqb_spec.
Qed.

Lemma matcher_hit_iff k t :
  matcher_hit k t <-> occurs_at_word_boundaries k t.
Proof.
  unfold matcher_hit, occurs_at_word_boundaries.
  split; intros (before & hit & after & E & Hf & Hb & He);
    exists before, hit, after;
    (split; [exact E |]);
    (split; [apply same_letters_spec; exact Hf |]);
    split; apply at_boundary_spec; assumption.
Qed.

Lemma matcher_whole_words_iff k t :
  matcher_whole_words k t <-> occurs_as_whole_words k t.
Proof.
  unfold matcher_whole_words, occurs_as_whole_words.
  split; intros (before & hit & after & E & Hf & Hb & He);
    exists before, hit, after;
    (split; [exact E |]);
    (split; [apply same_letters_spec; exact Hf |]);
    split; apply word_opt_false; assumption.
Qed.

Lemma matcher_delimited_iff k : matcher_delimited k <-> word_delimited k.
Proof.
  unfold matcher_delimited, word_delimited.
  rewrite !word_opt_spec. reflexivity.
Qed.

(** Between word characters, a boundary-anchored occurrence is a
    whole-word occurrence. *)
Lemma whole_words_of_boundaries k t :
  word_delimited k ->
  occurs_at_word_boundaries k t -> occurs_as_whole_words k t.
Proof.
  rewrite <- matcher_delimited_iff, <- matcher_hit_iff,
    <- matcher_whole_words_iff.
  apply matcher_whole_words_of_hit.
Qed.

Lemma matched_keywords_in {W} include_weights text
  (lexicon : list (string * W)) e :
  In e (matched_keywords include_weights text lexicon) <->
  exists k w,
    In (k, w) lexicon /\
    Re.search_keyword k text = true /\
    e = if truthy include_weights then Weighted k w else Plain k.
Proof.
  induction lexicon as [| [k0 w0] lexicon IH]; simpl.
  - split; [contradiction | intros (k & w & [] & _)].
  - destruct (Re.search_keyword k0 text) eqn:E; simpl; rewrite IH; split.
    + intros [<- | (k & w & Hin & Hs & ->)]; eauto 7.
    + intros (k & w & [Heq | Hin] & Hs & ->);
        [injection Heq as <- <-; auto | right; eauto].
    + intros (k & w & Hin & Hs & ->); eauto 7.
    + intros (k & w & [Heq | Hin] & Hs & ->);
        [injection Heq as <- <-; congruence | eauto].
Qed.

(** The two lexicon loops report what [reports] asks for, on the text as
    given or stripped. *)
Lemma matched_keywords_reports {W} include_weights text
  (lexicon : list (string * W)) :
  reports (truthy include_weights) text lexicon
    (matched_keywords include_weights (Str.strip text) lexicon).
Proof.
  assert (Hocc : forall k,
    In k (map entry_keyword
            (matched_keywords include_weights (Str.strip text) lexicon)) <->
    In k (map fst lexicon) /\
    occurs_at_word_boundaries (list_ascii_of_string k)
                              (list_ascii_of_string text)).
  { intros k.
    rewrite <- matcher_hit_iff, <- search_keyword_iff,
      <- search_keyword_strip.
    rewrite !in_map_iff; split.
    - intros (e & <- & He). apply matched_keywords_in in He
        as (k' & w & Hin & Hs & ->).
      assert (Ek : entry_keyword
                     (if truthy include_weights
                      then Weighted k' w else Plain k') = k')
        by (destruct (truthy include_weights); reflexivity).
      rewrite Ek. split; [exists (k', w); auto | assumption].
    - intros [((k' & w) & <- & Hin) Hs]; simpl in *.
      exists (if truthy include_weights then Weighted k' w else Plain k').
      split; [destruct (truthy include_weights); reflexivity |].
      apply matched_keywords_in; eauto. }
  split; [exact Hocc | split].
  - intros k Hk Hw. apply whole_words_of_boundaries; [assumption |].
    apply Hocc; assumption.
  - intros e He. apply matched_keywords_in in He as (k & w & Hin & _ & ->).
    destruct (truthy include_weights); simpl; eauto.
Qed.

Context {W : Type} (self : KaayaanMCPNewsServer W).

Lemma no_occurrence_in_blank_text k text :
  Str.strip text = "" ->
  ~ occurs_at_word_boundaries (list_ascii_of_string k)
                              (list_ascii_of_string text).
Proof.
  intros Hblank Hocc.
  apply matcher_hit_iff, search_keyword_iff in Hocc.
  rewrite <- search_keyword_strip, Hblank in Hocc.
  discriminate Hocc.
Qed.

(** C7. For every input text, the keyword inspection reports as matched
    exactly the phrases of the positive and of the negative lexicon that
    occur in the text as case-insensitive, word-boundary-anchored
    matches; a phrase made of words is reported only where it is not part
    of a longer word; and with weights requested each reported phrase is
    paired with its lexicon weight.  (A text that is blank holds no such
    occurrence and is answered with a validation error.) *)
Theorem keyword_inspection_reports id arguments text w :
  dict_get arguments "text" = Some (VStr text) ->
  let include_weights :=
    truthy (get arguments "include_weights" (VBool false)) in
  let run := _handle_keyword_analysis self id arguments w in
  (Str.strip text = "" ->
   run = (inr (Error id
                 (McpError invalid_params "Invalid params: text required"
                    None)),
          w) /\
   forall k,
     ~ occurs_at_word_boundaries (list_ascii_of_string k)
                                 (list_ascii_of_string text)) /\
  (Str.strip text <> "" ->
   forall impact confidence coins,
     CryptoNewsAnalyzer._keyword_analysis (analyzer self)
       (Str.lower (Str.strip text)) = inr (impact, confidence) ->
     CryptoNewsAnalyzer._detect_coins (analyzer self) (Str.strip text)
     = inr coins ->
     exists report w',
       run = (inr (Result id (Some report)), w') /\
       reports include_weights text
         (CryptoNewsAnalyzer.positive_keywords (analyzer self))
         (positive_keywords report) /\
       reports include_weights text
         (CryptoNewsAnalyzer.negative_keywords (analyzer self))
         (negative_keywords report)).
Proof.
  intros Ht include_weights run.
  unfold run, _handle_keyword_analysis, bind, lift.
  assert (E : strip_value (get arguments "text" (VStr ""))
              = inr (Str.strip text))
    by (unfold get; rewrite Ht; reflexivity).
  rewrite E; cbv beta iota zeta.
  split.
  - intros Hblank. rewrite Hblank. split; [reflexivity |].
    intros k; apply no_occurrence_in_blank_text; assumption.
  - intros Hne impact confidence coins Hkw Hcoins.
    apply String.eqb_neq in Hne; rewrite Hne.
    unfold try_except, bind, call, utcnow, ret.
    rewrite Hkw; cbv beta iota zeta. rewrite Hcoins.
    unfold ok; cbv beta iota zeta.
    eexists _, _; split; [reflexivity |].
    split; apply matched_keywords_reports.
Qed.

End KeywordInspection.

Lemma keyword_inspection_reports_witness :
  exists report w',
    Server._handle_keyword_analysis Samples.server (Py.VInt 7)
      [("text", Py.VStr " Urban HACK, no rally. ");
       ("include_weights", Py.VBool true)]%string Samples.world0
    = (inr (Server.Result (Py.VInt 7) (Some report)), w') /\
    Server.positive_keywords report = [Server.Weighted "rally" 7%Z]%string /\
    Server.negative_keywords report = [Server.Weighted "hack" 8%Z]%string /\
    Spec.occurs_at_word_boundaries
      (list_ascii_of_string "hack")
      (list_ascii_of_string " Urban HACK, no rally. ") /\
    ~ Spec.occurs_at_word_boundaries
        (list_ascii_of_string "ban")
        (list_ascii_of_string " Urban HACK, no rally. ").
Proof.
  destruct (proj2 (@keyword_inspection_reports Z Samples.server (Py.VInt 7)
    [("text", Py.VStr " Urban HACK, no rally. ");
     ("include_weights", Py.VBool true)]%string
    " Urban HACK, no rally. " Samples.world0 eq_refl)
    ltac:(vm_compute; discriminate)
    CryptoNewsAnalyzer.Neutral (Py.VInt 50) (Py.VList []) eq_refl eq_refl)
    as (report & w' & Hrun & _ & Hneg & _).
  exists report, w'. split; [exact Hrun |].
  vm_compute in Hrun. injection Hrun as Hreport _. subst report.
  split; [reflexivity |]. split; [reflexivity |].
  split.
  - apply (Hneg "hack"%string). simpl. auto.
  - intros Hocc.
    assert (Hin : In "ban"%string ["hack"%string]).
    { apply (Hneg "ban"%string). split; [simpl; auto | exact Hocc]. }
    destruct Hin as [E | []]. discriminate E.
Defined.

(** The same occurrence read off the text, without the matcher: [HACK]
    stands between a space and a comma, and is [hack] up to case. *)
Example hack_occurs_between_boundaries :
  Spec.occurs_at_word_boundaries
    (list_ascii_of_string "hack")
    (list_ascii_of_string " Urban HACK, no rally. ").
Proof.
  exists (list_ascii_of_string " Urban "), (list_ascii_of_string "HACK"),
    (list_ascii_of_string ", no rally. ").
  split; [reflexivity |]. split.
  - repeat (apply Forall2_cons;
            [right; left; unfold Spec.lower_case_of; simpl; lia |]).
    apply Forall2_nil.
  - split.
    + right. split.
      * intros (x & E & Hx). injection E as <-.
        unfold Spec.word_char, Spec.letter, Spec.digit in Hx.
        simpl in Hx. lia.
      * eexists. split; [reflexivity |].
        left. unfold Spec.letter. simpl. lia.
    + left. split.
      * eexists. split; [reflexivity |].
        left. unfold Spec.letter. simpl. lia.
      * intros (x & E & Hx). injection E as <-.
        unfold Spec.word_char, Spec.letter, Spec.digit in Hx.
        simpl in Hx. lia.
Qed.

(** The report on a concrete text: ["ban"] inside ["urban"] is not a hit,
    ["BAN"] and ["Regulatory BAN"] are, each with its own weight. *)
Example keyword_inspection_sample :
  Server.matched_keywords (Py.VBool true)
    (Str.strip " Regulatory BAN follows urban hack. ")
    [("ban", 9); ("regulatory ban", 10); ("hack", 8); ("urb", 1)]%Z%string
  = [Server.Weighted "ban" 9; Server.Weighted "regulatory ban" 10;
     Server.Weighted "hack" 8]%Z%string.
Proof. reflexivity. Qed.

(* ================================================================== *)
(** ** Batch analysis: the statements *)
(* ================================================================== *)

Section BatchAnalysis.
Import Py Effects Server Spec.
Local Open Scope string_scope.

Lemma dict_get_set_same d k v : dict_get (dict_set d k v) k = Some v.
Proof.
  induction d as [| [k0 v0] d IH]; simpl.
  - rewrite String.eqb_refl; reflexivity.
  - destruct (String.eqb k0 k) eqn:E; simpl; rewrite E; auto.
Qed.

Lemma dict_get_set_other d k v k' :
  k <> k' -> dict_get (dict_set d k v) k' = dict_get d k'.
Proof.
  intros Hne; apply String.eqb_neq in Hne.
  induction d as [| [k0 v0] d IH]; simpl.
  - rewrite Hne; reflexivity.
  - destruct (String.eqb k0 k) eqn:E; simpl.
    + apply String.eqb_eq in E; subst k0. rewrite Hne; reflexivity.
    + destruct (String.eqb k0 k'); auto.
Qed.

Lemma annotated_from_set i r r' k v :
  metadata_key k -> k <> "item_index" ->
  annotated_from i r r' -> annotated_from i r (dict_set r' k v).
Proof.
  intros Hk Hne [Hi Hrest]; split.
  - rewrite dict_get_set_other by auto; assumption.
  - intros k' Hk'. rewrite dict_get_set_other; [auto |].
    intros ->; contradiction.
Qed.

Lemma annotated_from_index i r :
  annotated_from i r (dict_set r "item_index" (VInt (Z.of_nat i))).
Proof.
  split; [apply dict_get_set_same |].
  intros k Hk. apply dict_get_set_other.
  intros <-; apply Hk; left; reflexivity.
Qed.

(** The metadata loop succeeds on items that are objects; it keeps the
    results in place and only adds metadata. *)
Lemma add_metadata_dicts request_id items :
  Forall (fun v => is_dict v = true) items ->
  forall results i,
  exists annotated,
    add_metadata request_id items i results = inr annotated /\
    List.length annotated = List.length results /\
    forall j r,
      nth_error results j = Some r ->
      exists r', nth_error annotated j = Some r' /\
                 annotated_from (i + j) r r'.
Proof.
  intros Hitems rs; induction rs as [| r rs IH]; intros i;
    cbn [add_metadata].
  - exists []; repeat split; auto. intros [| j] r H; discriminate.
  - set (r2 := dict_set (dict_set r "item_index" (VInt (Z.of_nat i)))
                 "analysis_id" (VStr (request_id ++ "_item_" ++ str_of_nat i))).
    assert (H2 : annotated_from i r r2).
    { apply annotated_from_set; [right; left; reflexivity | discriminate |].
      apply annotated_from_index. }
    assert (H3 : exists r3,
      match nth_error items i with
      | Some item =>
          rbind (contains_str item "source") (fun present =>
          if present
          then rbind (getitem_str item "source") (fun src =>
               ok (dict_set r2 "source" src))
          else ok r2)
      | None => ok r2
      end = inr r3 /\ annotated_from i r r3).
    { destruct (nth_error items i) as [item |] eqn:E; [| eauto].
      apply nth_error_In in E. rewrite Forall_forall in Hitems.
      specialize (Hitems _ E). destruct item; try discriminate.
      simpl. destruct (dict_get d "source"); simpl; [| eauto].
      eexists; split; [reflexivity |].
      apply annotated_from_set; [right; right; reflexivity | discriminate |].
      assumption. }
    destruct H3 as (r3 & -> & H3). simpl rbind.
    destruct (IH (S i)) as (rest & -> & Hlen & Hrest). simpl.
    exists (r3 :: rest); repeat split; [simpl; congruence |].
    intros [| j] r0 H; simpl in H.
    + injection H as <-. exists r3; rewrite Nat.add_0_r; auto.
    + destruct (Hrest j r0 H) as (r' & Hr' & Ha).
      exists r'; split; [assumption |].
      replace (i + S j) with (S i + j) by lia; assumption.
Qed.

Lemma annotated_conforms i r r' :
  annotated_from i r r' -> conforms r' = conforms r.
Proof.
  intros [_ H]. unfold conforms, confidence_in_range, coins_are_strings.
  rewrite !H; [reflexivity | |];
    intros [E | [E | E]]; discriminate E.
Qed.

Context {W : Type} (self : KaayaanMCPNewsServer W).
Variable score_item : value -> string -> result dict.
Variable describe : exn -> string.

Lemma analyze_item_outcome request_id item :
  item_outcome score_item describe request_id item
    (AnalysisEngine.analyze_item score_item describe request_id item).
Proof.
  unfold item_outcome, AnalysisEngine.analyze_item.
  destruct (score_item item request_id); auto.
Qed.

Lemma analyze_item_conforms request_id item :
  (forall r, score_item item request_id = inr r -> conforms r = true) ->
  conforms (AnalysisEngine.analyze_item score_item describe request_id item)
  = true.
Proof.
  unfold AnalysisEngine.analyze_item; intros H.
  destruct (score_item item request_id); [reflexivity | auto].
Qed.

(** C1. [analyze_batch] returns exactly one result per item, in input
    order, whether or not scoring fails on some items: the result of a
    failing item carries [error] with the [Neutral] / [0] defaults and
    every other item carries its score.  The batch handler, run on 1 to
    50 items, answers with these results in the same places, each with
    its own index. *)
Theorem batch_results_in_order id arguments items w :
  (forall request_id,
   exists results,
     AnalysisEngine.analyze_batch score_item describe items request_id
     = inr results /\
     List.length results = List.length items /\
     forall i item,
       nth_error items i = Some item ->
       exists r,
         nth_error results i = Some r /\
         item_outcome score_item describe request_id item r) /\
  (CryptoNewsAnalyzer.analyze_batch (analyzer self)
   = AnalysisEngine.analyze_batch score_item describe ->
   get arguments "news_items" (VList []) = VList items ->
   (1 <= List.length items <= 50)%nat ->
   Forall (fun v => is_dict v = true) items ->
   (forall item request_id r,
      score_item item request_id = inr r -> conforms r = true) ->
   (forall wm rs request_id,
      webhook_manager self = Some wm ->
      WebhookManager.send_batch_results wm rs request_id = inr tt) ->
   exists b w' request_id,
     _handle_batch_analysis self id arguments w
     = (inr (Result id (Some b)), w') /\
     List.length (results b) = List.length items /\
     total_items b = List.length items /\
     forall i item,
       nth_error items i = Some item ->
       exists r r',
         nth_error (results b) i = Some r' /\
         item_outcome score_item describe request_id item r /\
         annotated_from i r r').
Proof.
  split.
  - intros request_id. eexists; split; [reflexivity |].
    split; [apply length_map |].
    intros i item H. eexists; split.
    + apply map_nth_error; exact H.
    + apply analyze_item_outcome.
  - intros Han Hget [H1 H50] Hdict Hscore Hhook.
    unfold _handle_batch_analysis. rewrite Hget.
    destruct items as [| first others]; [simpl in H1; lia |].
    destruct (Nat.ltb_spec 50 (List.length (first :: others))); [lia |].
    set (items := first :: others) in *.
    unfold bind, try_except, call, utcnow, lift, ret.
    cbv beta iota zeta. unfold ok at 1. cbv beta iota zeta.
    set (request_id := "mcp_batch_" ++ strftime (clock self) (ticks w)).
    rewrite Han. unfold AnalysisEngine.analyze_batch, ok at 1.
    cbv beta iota zeta.
    set (scored := map (AnalysisEngine.analyze_item score_item describe
                          request_id) items).
    destruct (add_metadata_dicts request_id Hdict scored 0)
      as (annotated & -> & Hlen & Hann).
    cbv beta iota zeta.
    assert (Hconf : Forall (fun r => conforms r = true) annotated).
    { rewrite Forall_forall; intros r' Hr'.
      apply In_nth_error in Hr' as (j & Hj).
      assert (Hjs : (j < List.length scored)%nat).
      { rewrite <- Hlen. apply nth_error_Some. congruence. }
      destruct (nth_error scored j) as [r |] eqn:Er;
        [| apply nth_error_None in Er; lia].
      destruct (Hann j r Er) as (r'' & Hr'' & Ha).
      rewrite Hj in Hr''; injection Hr'' as <-.
      rewrite (annotated_conforms Ha).
      unfold scored in Er. apply nth_error_In, in_map_iff in Er
        as (item & <- & _).
      apply analyze_item_conforms. apply Hscore. }
    destruct (conforms_summary Hconf) as (s & Hs).
    assert (Hfinal : forall i item,
      nth_error items i = Some item ->
      exists r r',
        nth_error annotated i = Some r' /\
        item_outcome score_item describe request_id item r /\
        annotated_from i r r').
    { intros i item Hi.
      assert (Er : nth_error scored i
                   = Some (AnalysisEngine.analyze_item score_item describe
                             request_id item))
        by (apply map_nth_error; exact Hi).
      destruct (Hann i _ Er) as (r' & Hr' & Ha).
      eexists _, r'; split; [exact Hr' |].
      split; [apply analyze_item_outcome | exact Ha]. }
    assert (Hlen' : List.length annotated = List.length items)
      by (rewrite Hlen; apply length_map).
    destruct (webhook_manager self) as [wm |] eqn:Ewm.
    + unfold ok. rewrite (Hhook wm annotated request_id eq_refl).
      cbv beta iota zeta. rewrite Hs. cbv beta iota zeta.
      eexists _, _, request_id; split; [reflexivity |].
      simpl; auto.
    + unfold ok. cbv beta iota zeta. rewrite Hs. cbv beta iota zeta.
      eexists _, _, request_id; split; [reflexivity |].
      simpl; auto.
Qed.

End BatchAnalysis.

Lemma sample_score_conforms item request_id r :
  Samples.score_item item request_id = inr r -> Spec.conforms r = true.
Proof.
  unfold Samples.score_item. destruct item; try discriminate.
  destruct (Py.truthy _); [| discriminate].
  intros H; injection H as <-; reflexivity.
Qed.

Lemma batch_results_in_order_witness :
  exists b w' request_id,
    Server._handle_batch_analysis Samples.server (Py.VInt 1)
      [("news_items",
        Py.VList [Samples.item "Bitcoin rallies"; Samples.item "";
                  Samples.item "Exchange hacked"])]%string
      Samples.world0
    = (inr (Server.Result (Py.VInt 1) (Some b)), w') /\
    List.length (Server.results b) = 3 /\
    Server.total_items b = 3 /\
    forall i item,
      nth_error [Samples.item "Bitcoin rallies"; Samples.item "";
                 Samples.item "Exchange hacked"] i = Some item ->
      exists r r',
        nth_error (Server.results b) i = Some r' /\
        Spec.item_outcome Samples.score_item Samples.describe request_id
          item r /\
        Spec.annotated_from i r r'.
Proof.
  apply (proj2 (@batch_results_in_order Z Samples.server
    Samples.score_item Samples.describe (Py.VInt 1)
    [("news_items",
      Py.VList [Samples.item "Bitcoin rallies"; Samples.item "";
                Samples.item "Exchange hacked"])]%string
    [Samples.item "Bitcoin rallies"; Samples.item "";
     Samples.item "Exchange hacked"]
    Samples.world0)).
  - reflexivity.
  - reflexivity.
  - simpl; lia.
  - repeat constructor.
  - apply sample_score_conforms.
  - intros wm rs request_id H; discriminate H.
Defined.

(** The batch of the specification's example: the second item has an
    empty title; its result carries the error and the defaults, the other
    two are scored, and the three results keep their places. *)
Example batch_with_failing_item :
  fst (Server._handle_batch_analysis Samples.server (Py.VInt 1)
         [("news_items",
           Py.VList [Samples.item "Bitcoin rallies"; Samples.item "";
                     Samples.item "Exchange hacked"])]%string
         Samples.world0)
  = inr (Server.Result (Py.VInt 1)
      (Some (Server.BatchResponse
         [[("impact", Py.VStr "Neutral"); ("confidence", Py.VInt 50);
           ("affected_coins", Py.VList []);
           ("request_id", Py.VStr "mcp_batch_0");
           ("item_index", Py.VInt 0);
           ("analysis_id", Py.VStr "mcp_batch_0_item_0")];
          [("impact", Py.VStr "Neutral"); ("confidence", Py.VInt 0);
           ("affected_coins", Py.VList []);
           ("request_id", Py.VStr "mcp_batch_0");
           ("error", Py.VStr "title required");
           ("item_index", Py.VInt 1);
           ("analysis_id", Py.VStr "mcp_batch_0_item_1")];
          [("impact", Py.VStr "Neutral"); ("confidence", Py.VInt 50);
           ("affected_coins", Py.VList []);
           ("request_id", Py.VStr "mcp_batch_0");
           ("item_index", Py.VInt 2);
           ("analysis_id", Py.VStr "mcp_batch_0_item_2")]]
         3 "mcp_batch_0" "1Z"
         (Server.Summary 0 0 3 0 3 1 (Float64.Decimal1 333) []))))%string.
Proof. reflexivity. Qed.
(* ================================================================== *)
(** ** More on the batch summary *)
(* ================================================================== *)

Section SummaryMore.
Import Py Server Spec Props.
Local Open Scope string_scope.

Lemma loop_body_raises st r e : loop_body st r = inl e -> e = TypeError.
Proof.
  unfold loop_body, gt_int.
  destruct (as_int (get r "confidence" (VInt 0))); simpl;
    [| intros H; injection H as <-; reflexivity].
  destruct (get r "affected_coins" (VList [])); simpl; intros H;
    first [discriminate H | injection H as <-; reflexivity].
Qed.

Lemma for_each_raises rs : forall st e,
  for_each loop_body st rs = inl e -> e = TypeError.
Proof.
  induction rs as [| r rs IH]; simpl; intros st e H; [discriminate |].
  destruct (loop_body st r) as [e' | st'] eqn:E; simpl in H.
  - injection H as <-. eapply loop_body_raises; eassumption.
  - eapply IH; eassumption.
Qed.

Lemma for_each_iterable rs : forall st st',
  for_each loop_body st rs = inr st' -> Forall iterable rs.
Proof.
  induction rs as [| r rs IH]; simpl; intros st st' H; [constructor |].
  apply rbind_ok in H as (st1 & H1 & H2).
  apply loop_body_step in H1 as (_ & _ & Hi).
  constructor; [exact Hi | eapply IH; eassumption].
Qed.

Lemma for_each_non_numeric rs : forall st,
  Exists (fun r => as_int (confidence_of r) = None) rs ->
  for_each loop_body st rs = inl TypeError.
Proof.
  induction rs as [| r rs IH]; intros st H; [inversion H |].
  simpl. destruct (loop_body st r) as [e | st'] eqn:E; simpl.
  - apply loop_body_raises in E; subst; reflexivity.
  - inversion H as [? ? Hr | ? ? Hrs]; subst; [| auto].
    apply loop_body_step in E as (_ & Hnum & _). contradiction.
Qed.

Lemma sum_from_raises l : forall t e,
  Py.sum_from t l = inl e -> e = TypeError.
Proof.
  induction l as [| v l IH]; simpl; intros t e H; [discriminate |].
  unfold add_int in H. destruct (as_int v); simpl in H.
  - eapply IH; eassumption.
  - injection H as <-; reflexivity.
Qed.

Lemma true_div_raises a b e :
  b <> 0%Z -> Float64.true_div a b = inl e -> e = OverflowError.
Proof.
  unfold Float64.true_div; intros Hb.
  destruct (Z.eqb_spec b 0) as [Hz | _]; [contradiction |].
  destruct (a =? 0)%Z; [discriminate |].
  destruct (Float64.scaled _ _ _) as [num den].
  destruct (_ <=? _)%Z; intros H; [injection H as <-; reflexivity |].
  discriminate.
Qed.

(** Everything the summary needs of its input, read off a summary that
    was produced. *)
Lemma summary_needs rs s :
  _generate_batch_summary rs = inr s ->
  Forall numeric rs /\ Forall iterable rs /\
  forallb hashable (flat_map iter_coins rs) = true.
Proof.
  intros H. pose proof (summary_inv _ H) as (Hnum & _ & _ & _ & _ & _ & _ & _ & Htop).
  split; [assumption |].
  unfold _generate_batch_summary in H.
  apply rbind_ok in H as (st & Hloop & _).
  split; [eapply for_each_iterable; eassumption |].
  destruct (flat_map iter_coins rs) as [| c cs]; [reflexivity |].
  destruct Htop as (cc & Hcc & _).
  unfold Collections.Counter_values in Hcc.
  destruct (forallb hashable (c :: cs)); [reflexivity | discriminate].
Qed.

(** X1. Whenever a summary is produced, [error_count] is the number of
    results whose [error] field is truthy: a missing, null or empty error
    does not count.  It never exceeds the number of results. *)
Theorem summary_error_count rs s :
  _generate_batch_summary rs = inr s ->
  error_count s = count has_error rs /\
  error_count s <= List.length rs.
Proof.
  intros H. apply summary_inv in H as (_ & _ & _ & _ & _ & _ & -> & _).
  split; [reflexivity | apply count_le_length].
Qed.

Lemma summary_error_count_witness :
  exists s,
    _generate_batch_summary
      [[("error", VStr "timeout")]; [("error", VStr "")];
       [("error", VNone)]; []] = inr s /\
    error_count s = 1.
Proof.
  eexists; split; [reflexivity |].
  apply (@summary_error_count
           [[("error", VStr "timeout")]; [("error", VStr "")];
            [("error", VNone)]; []] _ eq_refl).
Defined.

(** X2. For results whose confidences are integers, the counts and the
    average confidence of a summary do not depend on the order of the
    results: any reordering of a batch that can be summarised can be
    summarised, with the same six counts and the same average.  (The sum
    of integers is exact; a sum of floats depends on the order of its
    terms, and floats are outside this embedding.) *)
Theorem summary_order_independent rs rs' s :
  Permutation rs rs' ->
  Forall (fun r => integer_confidence r = true) rs ->
  _generate_batch_summary rs = inr s ->
  exists s',
    _generate_batch_summary rs' = inr s' /\
    positive_count s' = positive_count s /\
    negative_count s' = negative_count s /\
    neutral_count s' = neutral_count s /\
    high_confidence_count s' = high_confidence_count s /\
    low_confidence_count s' = low_confidence_count s /\
    error_count s' = error_count s /\
    avg_confidence s' = avg_confidence s.
Proof.
  intros Hp _ Hs.
  assert (Hcount : forall p : dict -> bool, count p rs' = count p rs).
  { intros p; unfold count. apply Permutation_length.
    symmetry. clear Hs. induction Hp; simpl; auto.
    - destruct (p x); auto.
    - destruct (p x), (p y); auto using perm_swap.
    - etransitivity; eassumption. }
  assert (Htotal : total_confidence rs' = total_confidence rs).
  { clear Hs Hcount. unfold total_confidence.
    induction Hp; simpl; try lia. }
  assert (Hlen : List.length rs' = List.length rs)
    by (symmetry; apply Permutation_length; assumption).
  destruct (summary_needs _ Hs) as (Hnum & Hit & Hhash).
  assert (Hex : exists s', _generate_batch_summary rs' = inr s').
  { apply summary_total.
    - eapply Permutation_Forall; eassumption.
    - eapply Permutation_Forall; eassumption.
    - intros Hne. rewrite Htotal, Hlen.
      apply summary_inv in Hs as (_ & _ & _ & _ & _ & _ & _ & Havg & _).
      destruct rs as [| r rs0].
      + apply Permutation_nil in Hp; contradiction.
      + destruct Havg as (mean & Hm & _); eauto.
    - apply forallb_forall; intros c Hc.
      rewrite forallb_forall in Hhash; apply Hhash.
      eapply Permutation_in; [| exact Hc].
      symmetry. apply Permutation_flat_map; assumption. }
  destruct Hex as (s' & Hs'). exists s'; split; [assumption |].
  pose proof (summary_inv _ Hs) as (_ & A1 & A2 & A3 & A4 & A5 & A6 & A7 & _).
  pose proof (summary_inv _ Hs') as (_ & B1 & B2 & B3 & B4 & B5 & B6 & B7 & _).
  rewrite A1, A2, A3, A4, A5, A6, B1, B2, B3, B4, B5, B6, !Hcount.
  repeat (split; [reflexivity |]).
  destruct rs as [| r rs0], rs' as [| r' rs0'].
  - congruence.
  - apply Permutation_nil in Hp; discriminate.
  - symmetry in Hp; apply Permutation_nil in Hp; discriminate.
  - destruct A7 as (m & Hm & ->), B7 as (m' & Hm' & ->).
    rewrite Htotal, Hlen, Hm in Hm'. injection Hm' as <-. reflexivity.
Qed.

Lemma summary_order_independent_witness :
  exists s',
    _generate_batch_summary
      [[("confidence", VInt 90)]; [("impact", VStr "Positive")]] = inr s' /\
    positive_count s' = 1 /\ negative_count s' = 0 /\ neutral_count s' = 1 /\
    high_confidence_count s' = 1 /\ low_confidence_count s' = 1 /\
    error_count s' = 0 /\ avg_confidence s' = Float64.Decimal1 450.
Proof.
  apply (@summary_order_independent
           [[("impact", VStr "Positive")]; [("confidence", VInt 90)]]
           [[("confidence", VInt 90)]; [("impact", VStr "Positive")]]
           (Summary 1 0 1 1 1 0 (Float64.Decimal1 450) [])).
  - apply perm_swap.
  - repeat constructor.
  - reflexivity.
Defined.

End SummaryMore.

Section SummaryFailures.
Import Py Server Spec Props.
Local Open Scope string_scope.

(** X3. The summary fails in two ways only: with [TypeError] (a
    confidence that is not a number, coins that cannot be iterated or
    hashed) or with [OverflowError] (an integer mean too large for a
    float).  In particular it never divides by zero and never raises
    [KeyError] on a missing field. *)
Theorem summary_failure_modes rs e :
  _generate_batch_summary rs = inl e ->
  e = TypeError \/ e = OverflowError.
Proof.
  unfold _generate_batch_summary.
  destruct (for_each loop_body _ rs) as [e0 | st] eqn:Hloop; simpl.
  - intros H; injection H as <-. left.
    eapply for_each_raises; eassumption.
  - destruct (confidences st) as [| c cs] eqn:Hc; simpl.
    + destruct (all_coins st); simpl; [discriminate |].
      unfold Collections.Counter_values.
      destruct (forallb hashable _); simpl; [discriminate |].
      intros H; injection H as <-; auto.
    + unfold Py.sum.
      destruct (sum_from 0 (c :: cs)) as [e1 | total] eqn:Hsum.
      * simpl. intros H; injection H as <-. left.
        eapply sum_from_raises; eassumption.
      * cbn [rbind].
        destruct (Float64.true_div total _) as [e2 | mean] eqn:Hdiv.
        -- simpl. intros H; injection H as <-. right.
           eapply true_div_raises; [| eassumption].
           simpl List.length; lia.
        -- cbn [rbind]. destruct (all_coins st); simpl; [discriminate |].
           unfold Collections.Counter_values.
           destruct (forallb hashable _); simpl; [discriminate |].
           intros H; injection H as <-; auto.
Qed.

Lemma summary_failure_modes_witness :
  _generate_batch_summary [[("affected_coins", VInt 3)]] = inl TypeError /\
  (TypeError = TypeError \/ TypeError = OverflowError).
Proof.
  split; [reflexivity |].
  apply (@summary_failure_modes [[("affected_coins", VInt 3)]] TypeError).
  reflexivity.
Defined.

(** X4. One result whose confidence is not a number, anywhere in the
    batch, makes the whole summary fail with [TypeError]: no partial
    summary is returned, whatever the other results are. *)
Theorem summary_rejects_non_numeric_confidence rs :
  Exists (fun r => as_int (confidence_of r) = None) rs ->
  _generate_batch_summary rs = inl TypeError.
Proof.
  intros H. unfold _generate_batch_summary.
  rewrite for_each_non_numeric by assumption. reflexivity.
Qed.

Lemma summary_rejects_non_numeric_confidence_witness :
  _generate_batch_summary
    [[("confidence", VInt 80)]; [("confidence", VList [])]; []]
  = inl TypeError.
Proof.
  apply (@summary_rejects_non_numeric_confidence
           [[("confidence", VInt 80)]; [("confidence", VList [])]; []]).
  apply Exists_cons_tl, Exists_cons_hd. reflexivity.
Defined.

(** X5. For results whose confidences lie between 0 and 100, the average
    confidence of the summary lies between 0.0 and 100.0. *)
Theorem average_confidence_in_range rs s :
  Forall (fun r => conforms r = true) rs ->
  (10 * Z.of_nat (List.length rs) < 2 ^ 46)%Z ->
  _generate_batch_summary rs = inr s ->
  (0 <= Float64.tenths (avg_confidence s) <= 1000)%Z.
Proof.
  intros Hc Hlen Hs.
  apply summary_inv in Hs as (_ & _ & _ & _ & _ & _ & _ & Havg & _).
  destruct rs as [| r rs0]; [rewrite Havg; simpl; lia |].
  destruct Havg as (mean & Hm & ->).
  pose proof (conforms_total_range Hc) as Hr.
  set (a := total_confidence (r :: rs0)) in *.
  set (b := Z.of_nat (List.length (r :: rs0))) in *.
  assert (Hb : (0 < b)%Z) by (subst b; simpl List.length; lia).
  destruct (@round1_true_div_percent a b) as (x & Hx & Hnear);
    try lia.
  rewrite Hx in Hm; injection Hm as <-.
  set (t := Float64.tenths (Float64.round1 x)) in *.
  clearbody a b t. split; nia.
Qed.

Lemma average_confidence_in_range_witness :
  (0 <= Float64.tenths
          (avg_confidence (Summary 0 0 2 1 1 0 (Float64.Decimal1 825) []))
     <= 1000)%Z.
Proof.
  apply (@average_confidence_in_range
           [[("confidence", VInt 100)]; [("confidence", VInt 65)]]).
  - repeat constructor.
  - simpl; lia.
  - reflexivity.
Defined.

Lemma loop_body_same st r r' :
  same_analysis r r' -> loop_body st r' = loop_body st r.
Proof.
  intros (Hi & Hc & He & Ha). unfold loop_body, get.
  rewrite Hi, Hc, He, Ha. reflexivity.
Qed.

Lemma for_each_same rs rs' :
  Forall2 same_analysis rs rs' ->
  forall st, for_each loop_body st rs' = for_each loop_body st rs.
Proof.
  induction 1 as [| r r' rs rs' Hr _ IH]; intros st; [reflexivity |].
  simpl. rewrite (loop_body_same st Hr).
  destruct (loop_body st r); simpl; auto.
Qed.

(** X6. The summary reads four fields of a result and nothing else:
    [impact], [confidence], [error] and [affected_coins].  Two batches
    whose results agree on these fields, item by item, have the same
    summary (or the same failure), whatever other fields they carry. *)
Theorem summary_reads_four_fields rs rs' :
  Forall2 same_analysis rs rs' ->
  _generate_batch_summary rs' = _generate_batch_summary rs.
Proof.
  intros H. unfold _generate_batch_summary.
  rewrite (for_each_same H). reflexivity.
Qed.

Lemma summary_reads_four_fields_witness :
  _generate_batch_summary
    [[("analysis_id", VStr "batch_1"); ("impact", VStr "Negative")]]
  = _generate_batch_summary [[("impact", VStr "Negative"); ("title", VNone)]].
Proof.
  apply (@summary_reads_four_fields
           [[("impact", VStr "Negative"); ("title", VNone)]]
           [[("analysis_id", VStr "batch_1"); ("impact", VStr "Negative")]]).
  repeat constructor.
Defined.

End SummaryFailures.

Section CounterTotals.
Context {K : Type} (eqb : K -> K -> bool).
Import Collections Props.

Lemma total_count_incr x (c : list (K * nat)) :
  total_count (incr eqb x c) = S (total_count c).
Proof.
  unfold total_count.
  induction c as [| [y n] c IH]; simpl; [reflexivity |].
  destruct (eqb y x); simpl; [reflexivity |].
  rewrite IH; lia.
Qed.

Lemma positive_incr x (c : list (K * nat)) :
  Forall (fun e => 1 <= snd e) c ->
  Forall (fun e => 1 <= snd e) (incr eqb x c).
Proof.
  induction 1 as [| [y n] c Hy Hc IH]; simpl.
  - repeat constructor.
  - destruct (eqb y x); constructor; simpl in *; auto; lia.
Qed.

Lemma Counter_from (l : list K) : forall c,
  let c' := fold_left (fun c x => incr eqb x c) l c in
  total_count c' = total_count c + List.length l /\
  (Forall (fun e => 1 <= snd e) c -> Forall (fun e => 1 <= snd e) c').
Proof.
  induction l as [| x l IH]; intros c; simpl.
  - split; [lia | auto].
  - destruct (IH (incr eqb x c)) as [Ht Hp]; simpl in Ht, Hp.
    rewrite Ht, total_count_incr. split; [lia |].
    intros Hc. apply Hp, positive_incr, Hc.
Qed.

Lemma total_count_perm (c c' : list (K * nat)) :
  Permutation c c' -> total_count c = total_count c'.
Proof.
  unfold total_count.
  induction 1 as [| e | e e' |]; simpl; lia.
Qed.

Lemma total_count_firstn n (c : list (K * nat)) :
  total_count (firstn n c) <= total_count c /\
  (List.length c <= n -> total_count (firstn n c) = total_count c).
Proof.
  split.
  - unfold total_count. revert n.
    induction c as [| e c IH]; intros [| n]; simpl; try lia.
    specialize (IH n); lia.
  - intros H. rewrite firstn_all2 by assumption. reflexivity.
Qed.

Lemma most_common_totals n (l : list K) :
  let top := most_common n (Counter eqb l) in
  List.length top <= n /\
  Forall (fun e => 1 <= snd e) top /\
  total_count top <= List.length l /\
  (List.length (Counter eqb l) <= n -> total_count top = List.length l).
Proof.
  unfold most_common, nlargest.
  destruct (Counter_from l []) as [Ht Hp]; simpl in Ht, Hp.
  fold (Counter eqb l) in Ht, Hp.
  pose proof (sorted_desc_perm (Counter eqb l)) as Hperm.
  pose proof (total_count_perm Hperm) as Hsame.
  destruct (total_count_firstn n (sorted_desc (Counter eqb l))) as [Hle Heq].
  repeat split.
  - apply firstn_le_length.
  - apply Forall_forall; intros e He.
    assert (He' : In e (sorted_desc (Counter eqb l))).
    { rewrite <- (firstn_skipn n). apply in_or_app; left; exact He. }
    clear He.
    specialize (Hp (Forall_nil _)).
    rewrite Forall_forall in Hp; apply Hp.
    eapply Permutation_in; eassumption.
  - lia.
  - intros Hn. rewrite Heq; [lia |].
    rewrite (Permutation_length Hperm); assumption.
Qed.

End CounterTotals.

Section TopCoins.
Import Py Server Spec Props.
Local Open Scope string_scope.

(** X7. Whatever the coins are (names, numbers, ...), the top coins of a
    summary are at most five entries, each counted at least once, and
    their counts add up to at most the number of coin mentions of the
    batch; when the batch mentions at most five different coins, every
    mention is accounted for. *)
Theorem top_affected_coins_totals rs s :
  _generate_batch_summary rs = inr s ->
  let mentioned := flat_map iter_coins rs in
  List.length (top_affected_coins s) <= 5 /\
  Forall (fun e => 1 <= snd e) (top_affected_coins s) /\
  total_count (top_affected_coins s) <= List.length mentioned /\
  (List.length (Collections.Counter key_eqb mentioned) <= 5 ->
   total_count (top_affected_coins s) = List.length mentioned).
Proof.
  intros H. apply summary_inv in H as (_ & _ & _ & _ & _ & _ & _ & _ & Htop).
  simpl. destruct (flat_map iter_coins rs) as [| c cs] eqn:E.
  - rewrite Htop. unfold total_count; simpl.
    split; [lia |]. split; [constructor |]. split; [lia | reflexivity].
  - destruct Htop as (cc & Hcc & ->).
    unfold Collections.Counter_values in Hcc.
    destruct (forallb hashable (c :: cs)); [| discriminate].
    injection Hcc as <-.
    apply most_common_totals.
Qed.

Lemma top_affected_coins_totals_witness :
  exists s,
    _generate_batch_summary
      [[("affected_coins", VList [VStr "BTC"; VInt 1])];
       [("affected_coins", VList [VBool true; VStr "BTC"])]] = inr s /\
    total_count (top_affected_coins s) = 4.
Proof.
  eexists; split; [reflexivity |].
  apply (@top_affected_coins_totals
           [[("affected_coins", VList [VStr "BTC"; VInt 1])];
            [("affected_coins", VList [VBool true; VStr "BTC"])]] _ eq_refl).
  simpl; lia.
Defined.

End TopCoins.

(* ================================================================== *)
(** ** More on the batch handler *)
(* ================================================================== *)

Section BatchMetadata.
Import Py Server Spec Props.
Local Open Scope string_scope.

Lemma append_cancel (p a b : string) : p ++ a = p ++ b -> a = b.
Proof.
  induction p as [| c p IH]; simpl; intros H; [assumption |].
  injection H as H. auto.
Qed.

Lemma to_uint_inj (i j : nat) : Nat.to_uint i = Nat.to_uint j -> i = j.
Proof.
  intros H. rewrite <- (DecimalNat.Unsigned.of_to i),
    <- (DecimalNat.Unsigned.of_to j), H. reflexivity.
Qed.

Lemma str_of_nat_inj (i j : nat) : str_of_nat i = str_of_nat j -> i = j.
Proof.
  unfold str_of_nat; intros H. apply to_uint_inj.
  pose proof (NilEmpty.usu (Nat.to_uint i)) as Hi.
  pose proof (NilEmpty.usu (Nat.to_uint j)) as Hj.
  rewrite H in Hi. congruence.
Qed.

(** What the source step of the metadata loop leaves in a result. *)
Lemma source_step (item : option value) (base r1 : dict) :
  match item with
  | Some item =>
      rbind (contains_str item "source") (fun present =>
      if present
      then rbind (getitem_str item "source") (fun src =>
           ok (dict_set base "source" src))
      else ok base)
  | None => ok base
  end = inr r1 ->
  match item_source item with
  | Some src => r1 = dict_set base "source" src
  | None => r1 = base
  end.
Proof.
  destruct item as [item |]; simpl; [| intros H; injection H as <-; auto].
  destruct item as [| b | z | s | l | d]; simpl; try discriminate.
  - destruct (Str.is_infix _ _); simpl; [discriminate |].
    intros H; injection H as <-; reflexivity.
  - destruct (existsb _ l); simpl; [discriminate |].
    intros H; injection H as <-; reflexivity.
  - destruct (dict_get d "source") as [src |]; simpl;
      intros H; injection H as <-; reflexivity.
Qed.

(** Every result of a metadata loop that went through. *)
Lemma add_metadata_inv request_id items : forall results i annotated,
  add_metadata request_id items i results = inr annotated ->
  List.length annotated = List.length results /\
  forall j r',
    nth_error annotated j = Some r' ->
    exists r,
      nth_error results j = Some r /\
      dict_get r' "item_index" = Some (VInt (Z.of_nat (i + j))) /\
      dict_get r' "analysis_id"
      = Some (VStr (request_id ++ "_item_" ++ str_of_nat (i + j))) /\
      dict_get r' "source"
      = match item_source (nth_error items (i + j)) with
        | Some src => Some src
        | None => dict_get r "source"
        end /\
      (forall k, ~ metadata_key k -> dict_get r' k = dict_get r k).
Proof.
  intros rs; induction rs as [| r rest IH]; intros i annotated H.
  - simpl in H. injection H as <-. split; [reflexivity |].
    intros [| j] r' Hj; discriminate Hj.
  - cbn [add_metadata] in H.
    apply rbind_ok in H as (r1 & Hsrc & H).
    apply rbind_ok in H as (rest' & Hrest & H).
    injection H as <-.
    apply source_step in Hsrc.
    destruct (IH _ _ Hrest) as [Hlen Hnth].
    split; [simpl; congruence |].
    intros [| j] r' Hj.
    + simpl in Hj; injection Hj as <-.
      exists r. rewrite Nat.add_0_r.
      split; [reflexivity |].
      destruct (item_source (nth_error items i)) as [src |]; subst r1.
      * rewrite !dict_get_set_same.
        rewrite dict_get_set_other, dict_get_set_other, dict_get_set_same
          by discriminate.
        rewrite dict_get_set_other, dict_get_set_same by discriminate.
        repeat split.
        intros k Hk.
        rewrite !dict_get_set_other; [reflexivity | | |];
          intros <-; apply Hk; unfold metadata_key; auto.
      * rewrite dict_get_set_same.
        rewrite dict_get_set_other, dict_get_set_same by discriminate.
        rewrite !dict_get_set_other by discriminate.
        repeat split.
        intros k Hk.
        rewrite !dict_get_set_other; [reflexivity | |];
          intros <-; apply Hk; unfold metadata_key; auto.
    + simpl in Hj. destruct (Hnth _ _ Hj) as (r0 & Hr0 & Hrest0).
      exists r0. replace (i + S j) with (S i + j) by lia.
      split; [exact Hr0 | exact Hrest0].
Qed.

Lemma add_metadata_same request_id items : forall results i annotated,
  add_metadata request_id items i results = inr annotated ->
  Forall2 same_analysis results annotated.
Proof.
  intros rs i annotated H.
  destruct (add_metadata_inv _ _ _ _ H) as [Hlen Hnth]. clear H.
  revert i annotated Hlen Hnth.
  induction rs as [| r rest IH]; intros i [| r' rest'] Hlen Hnth;
    try discriminate Hlen; constructor.
  - destruct (Hnth 0 r' eq_refl) as (r0 & Hr0 & _ & _ & _ & Hk).
    injection Hr0 as <-.
    unfold same_analysis; repeat split; apply Hk;
      unfold metadata_key; intros [E | [E | E]]; discriminate E.
  - apply (IH (S i)); [simpl in Hlen; congruence |].
    intros j r1 Hj. destruct (Hnth (S j) r1 Hj) as (r0 & Hr0 & Hrest0).
    exists r0. split; [exact Hr0 |].
    replace (i + S j) with (S i + j) in Hrest0 by lia. exact Hrest0.
Qed.

End BatchMetadata.

(* ================================================================== *)
(** ** The metadata loop on result objects that may be shared *)
(* ================================================================== *)

Section SharedObjects.
Import Py Server Spec Props.
Local Open Scope string_scope.

Lemma length_store h : forall a d,
  List.length (Objects.store h a d) = List.length h.
Proof.
  induction h as [| x h IH]; intros [| a] d; simpl; auto.
Qed.

Lemma load_store_same h : forall a d,
  a < List.length h -> Objects.load (Objects.store h a d) a = d.
Proof.
  unfold Objects.load.
  induction h as [| x h IH]; intros [| a] d Ha; simpl in *; try lia; auto.
  apply IH; lia.
Qed.

Lemma load_store_other h : forall a b d,
  a <> b -> Objects.load (Objects.store h a d) b = Objects.load h b.
Proof.
  unfold Objects.load.
  induction h as [| x h IH]; intros [| a] [| b] d Hne; simpl; auto;
    try congruence.
Qed.

(** The source step of the loop, whatever it updates: it goes through
    on the objects exactly when it does on their contents. *)
Lemma source_step_any {A B} (item : option value) (base : A)
  (with_source : value -> A) (base' : B) (with_source' : value -> B)
  (r : A) :
  match item with
  | Some item =>
      rbind (contains_str item "source") (fun present =>
      if present
      then rbind (getitem_str item "source") (fun src =>
           ok (with_source src))
      else ok base)
  | None => ok base
  end = inr r ->
  r = match item_source item with
      | Some src => with_source src
      | None => base
      end /\
  match item with
  | Some item =>
      rbind (contains_str item "source") (fun present =>
      if present
      then rbind (getitem_str item "source") (fun src =>
           ok (with_source' src))
      else ok base')
  | None => ok base'
  end = inr match item_source item with
            | Some src => with_source' src
            | None => base'
            end.
Proof.
  destruct item as [item |]; simpl;
    [| intros H; injection H as <-; auto].
  destruct item as [| b | z | s | l | d]; simpl; try discriminate.
  - destruct (Str.is_infix _ _); simpl; [discriminate |].
    intros H; injection H as <-; auto.
  - destruct (existsb _ l); simpl; [discriminate |].
    intros H; injection H as <-; auto.
  - destruct (dict_get d "source") as [src |]; simpl;
      intros H; injection H as <-; auto.
Qed.

(** One turn of the loop, on the object at address [a]. *)
Lemma objects_turn request_id items i a rest h h' :
  a < List.length h ->
  Objects.add_metadata request_id items i (a :: rest) h = inr h' ->
  let base :=
    dict_set
      (dict_set (Objects.load h a) "item_index" (VInt (Z.of_nat i)))
      "analysis_id" (VStr (request_id ++ "_item_" ++ str_of_nat i)) in
  exists h1,
    Objects.add_metadata request_id items (S i) rest h1 = inr h' /\
    List.length h1 = List.length h /\
    (forall b, b <> a -> Objects.load h1 b = Objects.load h b) /\
    Objects.load h1 a
    = match item_source (nth_error items i) with
      | Some src => dict_set base "source" src
      | None => base
      end /\
    match nth_error items i with
    | Some item =>
        rbind (contains_str item "source") (fun present =>
        if present
        then rbind (getitem_str item "source") (fun src =>
             ok (dict_set base "source" src))
        else ok base)
    | None => ok base
    end = inr (Objects.load h1 a).
Proof.
  intros Ha H base. cbn [Objects.add_metadata] in H.
  apply rbind_ok in H as (h1 & Hsrc & H).
  set (ha := Objects.store h a
               (dict_set (Objects.load h a) "item_index"
                  (VInt (Z.of_nat i)))) in *.
  set (hb := Objects.store ha a
               (dict_set (Objects.load ha a) "analysis_id"
                  (VStr (request_id ++ "_item_" ++ str_of_nat i)))) in *.
  apply (source_step_any (B := dict) _ _ _ base
           (fun src => dict_set base "source" src)) in Hsrc
    as [Hh1 Hdict].
  exists h1. split; [exact H |].
  assert (La : List.length ha = List.length h) by apply length_store.
  assert (Lb : List.length hb = List.length h)
    by (unfold hb; rewrite length_store; exact La).
  assert (Hb : Objects.load hb a = base).
  { unfold hb. rewrite load_store_same by lia.
    unfold ha. rewrite load_store_same by lia. reflexivity. }
  assert (Ho : forall b, b <> a -> Objects.load hb b = Objects.load h b).
  { intros b Hne. unfold hb, ha.
    rewrite !load_store_other by congruence. reflexivity. }
  assert (Hself : Objects.load h1 a
                  = match item_source (nth_error items i) with
                    | Some src => dict_set base "source" src
                    | None => base
                    end).
  { rewrite Hh1. destruct (item_source (nth_error items i)).
    - rewrite load_store_same by lia. rewrite Hb. reflexivity.
    - exact Hb. }
  split; [| split; [| split; [exact Hself |]]].
  - rewrite Hh1. destruct (item_source (nth_error items i));
      rewrite ?length_store; exact Lb.
  - intros b Hne. rewrite Hh1.
    destruct (item_source (nth_error items i));
      rewrite ?load_store_other by congruence; auto.
  - rewrite Hself. exact Hdict.
Qed.

(** What the loop leaves in every object. *)
Lemma objects_loop request_id items : forall refs i h h',
  Forall (fun a => a < List.length h) refs ->
  Objects.add_metadata request_id items i refs h = inr h' ->
  List.length h' = List.length h /\
  (forall a, ~ In a refs -> Objects.load h' a = Objects.load h a) /\
  (forall a k, ~ metadata_key k ->
               dict_get (Objects.load h' a) k
               = dict_get (Objects.load h a) k) /\
  (forall a,
     In a refs ->
     exists j,
       nth_error refs j = Some a /\
       (forall j', j < j' -> nth_error refs j' <> Some a) /\
       dict_get (Objects.load h' a) "item_index"
       = Some (VInt (Z.of_nat (i + j))) /\
       dict_get (Objects.load h' a) "analysis_id"
       = Some (VStr (request_id ++ "_item_" ++ str_of_nat (i + j)))) /\
  (forall a,
     dict_get (Objects.load h' a) "source"
     = final_source items i refs a (dict_get (Objects.load h a) "source")).
Proof.
  induction refs as [| a rest IH]; intros i h h' Hvalid H.
  - simpl in H. injection H as <-.
    repeat split; auto. intros a [].
  - inversion Hvalid as [| ? ? Ha Hrest]; subst.
    apply objects_turn in H as (h1 & H & L1 & Hother & Hself & _);
      [| exact Ha].
    assert (Hvalid1 : Forall (fun b => b < List.length h1) rest)
      by (rewrite L1; exact Hrest).
    destruct (IH _ _ _ Hvalid1 H) as (L & Hout & Hkeep & Hlast & Hsrc).
    assert (Hidx : dict_get (Objects.load h1 a) "item_index"
                   = Some (VInt (Z.of_nat i))).
    { rewrite Hself.
      destruct (item_source (nth_error items i));
        rewrite ?(@dict_get_set_other _ "source") by discriminate;
        rewrite dict_get_set_other by discriminate;
        apply dict_get_set_same. }
    assert (Hid : dict_get (Objects.load h1 a) "analysis_id"
                  = Some (VStr (request_id ++ "_item_" ++ str_of_nat i))).
    { rewrite Hself.
      destruct (item_source (nth_error items i));
        rewrite ?(@dict_get_set_other _ "source") by discriminate;
        apply dict_get_set_same. }
    split; [congruence |]. split; [| split; [| split]].
    + intros b Hb. rewrite Hout by (intros Hin; apply Hb; right; exact Hin).
      apply Hother. intros ->. apply Hb. left; reflexivity.
    + intros b k Hk. rewrite Hkeep by exact Hk.
      destruct (Nat.eq_dec b a) as [-> | Hne];
        [| rewrite Hother by exact Hne; reflexivity].
      rewrite Hself.
      assert (K1 : "item_index" <> k)
        by (intros <-; apply Hk; unfold metadata_key; auto).
      assert (K2 : "analysis_id" <> k)
        by (intros <-; apply Hk; unfold metadata_key; auto).
      assert (K3 : "source" <> k)
        by (intros <-; apply Hk; unfold metadata_key; auto).
      destruct (item_source (nth_error items i));
        rewrite ?(dict_get_set_other _ _ K3);
        rewrite (dict_get_set_other _ _ K2), (dict_get_set_other _ _ K1);
        reflexivity.
    + intros b Hb.
      destruct (in_dec Nat.eq_dec b rest) as [Hin | Hnin].
      * destruct (Hlast b Hin) as (j & Hj & Hafter & Hi & Hd).
        exists (S j). replace (i + S j) with (S i + j) by lia.
        split; [exact Hj |]. split; [| split; assumption].
        intros [| j'] Hlt; [lia |]. simpl. apply Hafter; lia.
      * destruct Hb as [<- | Hb]; [| contradiction].
        exists 0. rewrite Nat.add_0_r. split; [reflexivity |].
        split.
        -- intros [| j'] Hlt; [lia |]. simpl. intros Hj'.
           apply Hnin. eapply nth_error_In; exact Hj'.
        -- rewrite (Hout a Hnin). split; assumption.
    + intros b. rewrite Hsrc. cbn [final_source]. f_equal.
      destruct (Nat.eqb_spec a b) as [<- | Hne].
      * rewrite Hself.
        destruct (item_source (nth_error items i)).
        -- apply dict_get_set_same.
        -- rewrite !dict_get_set_other by discriminate. reflexivity.
      * rewrite Hother by congruence. reflexivity.
Qed.

(** On results that are distinct objects, the loop on the objects gives
    what the loop on their contents gives, position by position. *)
Lemma objects_distinct request_id items : forall refs i h h',
  Forall (fun a => a < List.length h) refs ->
  NoDup refs ->
  Objects.add_metadata request_id items i refs h = inr h' ->
  Server.add_metadata request_id items i (Objects.view h refs)
  = inr (Objects.view h' refs).
Proof.
  induction refs as [| a rest IH]; intros i h h' Hvalid Hnd H.
  - reflexivity.
  - inversion Hvalid as [| ? ? Ha Hrest]; subst.
    inversion Hnd as [| ? ? Hnin Hnd']; subst.
    apply objects_turn in H as (h1 & H & L1 & Hother & _ & Hdict);
      [| exact Ha].
    assert (Hvalid1 : Forall (fun b => b < List.length h1) rest)
      by (rewrite L1; exact Hrest).
    pose proof H as Hloop.
    apply objects_loop in Hloop as (_ & Hout & _); [| exact Hvalid1].
    specialize (IH _ _ _ Hvalid1 Hnd' H).
    assert (Hview : Objects.view h1 rest = Objects.view h rest).
    { unfold Objects.view. apply map_ext_in. intros b Hb.
      apply Hother. intros ->. contradiction. }
    rewrite Hview in IH.
    unfold Objects.view in *. cbn [map Server.add_metadata].
    rewrite Hdict. cbn [rbind]. rewrite IH. cbn [rbind].
    rewrite (Hout a Hnin). reflexivity.
Qed.

(** X8. The metadata loop writes into the result objects themselves:
    after it, every result object carries the [item_index] and the
    [analysis_id] of the last position of the list that holds it.  So two
    different objects never end with the same [analysis_id], an object
    held at two positions shows one index and one id at both, and when
    no object is held twice each position shows its own index and the id
    [<request_id>_item_<position>]. *)
Theorem shared_results_carry_last_position request_id items refs h h' :
  Forall (fun a => a < List.length h) refs ->
  Objects.add_metadata request_id items 0 refs h = inr h' ->
  (forall a,
     In a refs ->
     exists j,
       nth_error refs j = Some a /\
       (forall j', j < j' -> nth_error refs j' <> Some a) /\
       dict_get (Objects.load h' a) "item_index"
       = Some (VInt (Z.of_nat j)) /\
       dict_get (Objects.load h' a) "analysis_id"
       = Some (VStr (request_id ++ "_item_" ++ str_of_nat j))) /\
  (forall a b,
     In a refs -> In b refs -> a <> b ->
     dict_get (Objects.load h' a) "analysis_id"
     <> dict_get (Objects.load h' b) "analysis_id") /\
  (NoDup refs ->
   forall j r,
     nth_error (Objects.view h' refs) j = Some r ->
     dict_get r "item_index" = Some (VInt (Z.of_nat j)) /\
     dict_get r "analysis_id"
     = Some (VStr (request_id ++ "_item_" ++ str_of_nat j))).
Proof.
  intros Hvalid H.
  apply objects_loop in H as (_ & _ & _ & Hlast & _); [| exact Hvalid].
  simpl in Hlast.
  split; [exact Hlast |]. split.
  - intros a b Ha Hb Hne E.
    destruct (Hlast a Ha) as (ja & Hja & _ & _ & Hida).
    destruct (Hlast b Hb) as (jb & Hjb & _ & _ & Hidb).
    rewrite Hida, Hidb in E. injection E as E.
    apply append_cancel, (append_cancel "_item_") in E.
    apply str_of_nat_inj in E. subst jb. congruence.
  - intros Hnd j r Hj. unfold Objects.view in Hj.
    destruct (nth_error refs j) as [a |] eqn:Ha;
      [| rewrite nth_error_map, Ha in Hj; discriminate Hj].
    rewrite nth_error_map, Ha in Hj. injection Hj as <-.
    destruct (Hlast a (nth_error_In _ _ Ha)) as (j0 & Hj0 & _ & Hi & Hd).
    assert (j = j0).
    { rewrite NoDup_nth_error in Hnd. apply Hnd.
      - apply nth_error_Some. congruence.
      - congruence. }
    subst j0. split; assumption.
Qed.

(** X9. The metadata loop leaves every field of a result object other
    than [item_index], [analysis_id] and [source] as the analyzer put
    it, and touches no object outside the list.  The [source] of an
    object ends as the source of the item at the last of its positions
    whose item is an object with a source, and as the analyzer put it
    when there is none.  On results that are distinct objects the loop
    gives what the position-by-position update of their contents
    gives. *)
Theorem shared_results_keep_analysis request_id items refs h h' :
  Forall (fun a => a < List.length h) refs ->
  Objects.add_metadata request_id items 0 refs h = inr h' ->
  List.length h' = List.length h /\
  (forall a, ~ In a refs -> Objects.load h' a = Objects.load h a) /\
  (forall a k, ~ metadata_key k ->
               dict_get (Objects.load h' a) k
               = dict_get (Objects.load h a) k) /\
  (forall a,
     dict_get (Objects.load h' a) "source"
     = final_source items 0 refs a (dict_get (Objects.load h a) "source")) /\
  (NoDup refs ->
   Server.add_metadata request_id items 0 (Objects.view h refs)
   = inr (Objects.view h' refs)).
Proof.
  intros Hvalid H. pose proof H as Hloop.
  apply objects_loop in Hloop as (L & Hout & Hkeep & _ & Hsrc);
    [| exact Hvalid].
  repeat (split; [assumption |]).
  intros Hnd. apply objects_distinct; assumption.
Qed.

End SharedObjects.

Lemma shared_results_carry_last_position_witness :
  exists h',
    Objects.add_metadata "mcp_batch_7" [] 0 [0; 1; 0]
      [[("impact", Py.VStr "Neutral")];
       [("impact", Py.VStr "Positive")]]%string
    = inr h' /\
    Py.dict_get (Objects.load h' 0) "item_index" = Some (Py.VInt 2) /\
    Py.dict_get (Objects.load h' 1) "item_index" = Some (Py.VInt 1) /\
    Py.dict_get (Objects.load h' 0) "analysis_id"
    <> Py.dict_get (Objects.load h' 1) "analysis_id".
Proof.
  eexists. split; [reflexivity |].
  destruct (@shared_results_carry_last_position "mcp_batch_7" [] [0; 1; 0]
              [[("impact", Py.VStr "Neutral")];
               [("impact", Py.VStr "Positive")]]%string _
              ltac:(repeat constructor) eq_refl)
    as (_ & Hdiff & _).
  split; [reflexivity |]. split; [reflexivity |].
  apply Hdiff; simpl; auto.
Defined.

Lemma shared_results_keep_analysis_witness :
  exists h',
    Objects.add_metadata "mcp_batch_7"
      [Py.VDict [("source", Py.VStr "wire")]; Py.VDict []; Py.VDict []]%string
      0 [0; 1; 0]
      [[("impact", Py.VStr "Neutral")];
       [("impact", Py.VStr "Positive"); ("source", Py.VStr "desk")]]%string
    = inr h' /\
    Py.dict_get (Objects.load h' 0) "source" = Some (Py.VStr "wire") /\
    Py.dict_get (Objects.load h' 1) "source" = Some (Py.VStr "desk") /\
    Py.dict_get (Objects.load h' 1) "impact" = Some (Py.VStr "Positive").
Proof.
  eexists. split; [reflexivity |].
  destruct (@shared_results_keep_analysis "mcp_batch_7"
              [Py.VDict [("source", Py.VStr "wire")]; Py.VDict [];
               Py.VDict []]%string
              [0; 1; 0]
              [[("impact", Py.VStr "Neutral")];
               [("impact", Py.VStr "Positive");
                ("source", Py.VStr "desk")]]%string _
              ltac:(repeat constructor) eq_refl)
    as (_ & _ & Hkeep & Hsource & _).
  split; [rewrite Hsource; reflexivity |].
  split; [rewrite Hsource; reflexivity |].
  rewrite Hkeep; [reflexivity |].
  unfold Spec.metadata_key. intros [E | [E | E]]; discriminate E.
Defined.

Section BatchHandler.
Import Py Effects Server Spec Props.
Local Open Scope string_scope.
Context {W : Type} (self : KaayaanMCPNewsServer W).

(** Everything that led to a batch response that is not an error. *)
Lemma batch_success id arguments w resp_id b w' :
  _handle_batch_analysis self id arguments w
  = (inr (Result resp_id (Some b)), w') ->
  exists items raw,
    get arguments "news_items" (VList []) = VList items /\
    (1 <= List.length items <= 50)%nat /\
    resp_id = id /\
    request_id b = "mcp_batch_" ++ strftime (clock self) (ticks w) /\
    CryptoNewsAnalyzer.analyze_batch (analyzer self) items (request_id b)
    = inr raw /\
    add_metadata (request_id b) items 0 raw = inr (results b) /\
    total_items b = List.length (results b) /\
    timestamp b = isoformat (clock self) (S (ticks w)) ++ "Z" /\
    _generate_batch_summary (results b) = inr (summary b) /\
    ticks w' = S (S (ticks w)) /\
    calls w'
    = (calls w ++ AnalyzeBatch items (request_id b)
         :: match webhook_manager self with
            | Some _ => [SendBatchResults (results b) (request_id b)]
            | None => []
            end)%list.
Proof.
  unfold _handle_batch_analysis.
  destruct (get arguments "news_items" (VList [])) as [| | | | items |];
    try discriminate.
  destruct items as [| first others]; [discriminate |].
  destruct (Nat.ltb_spec 50 (List.length (first :: others))) as [| Hlen];
    [discriminate |].
  unfold bind, try_except, call, utcnow, lift, ret; simpl.
  match goal with
  | |- context [AnalyzeBatch _ ?r] => set (rid := r)
  end.
  destruct (CryptoNewsAnalyzer.analyze_batch _ _ _) as [e | raw] eqn:Hraw;
    simpl; [discriminate |].
  destruct (add_metadata rid (first :: others) 0 raw)
    as [e | annotated] eqn:Hmeta; simpl; [discriminate |].
  destruct (webhook_manager self) as [wm |]; simpl.
  - destruct (WebhookManager.send_batch_results wm annotated rid)
      as [e | []]; simpl; [discriminate |].
    destruct (_generate_batch_summary annotated) as [e | s] eqn:Hsum;
      simpl; [discriminate |].
    intros H; injection H as <- <- <-.
    exists (first :: others), raw; simpl.
    rewrite <- app_assoc. simpl in Hlen.
    repeat split; auto; lia.
  - destruct (_generate_batch_summary annotated) as [e | s] eqn:Hsum;
      simpl; [discriminate |].
    intros H; injection H as <- <- <-.
    exists (first :: others), raw; simpl. simpl in Hlen.
    repeat split; auto; lia.
Qed.

End BatchHandler.

Section BatchHandlerMore.
Import Py Effects Server Spec Props.
Local Open Scope string_scope.
Context {W : Type} (self : KaayaanMCPNewsServer W).

(** X10. In a batch response that is not an error, [summary] is the
    summary of the results as the analyzer returned them (the metadata
    written into them does not change it), and [total_items] is the
    number of results of the analyzer, which is the number of results in
    the response. *)
Theorem batch_summary_of_analysis id arguments w resp_id b w' :
  _handle_batch_analysis self id arguments w
  = (inr (Result resp_id (Some b)), w') ->
  exists items raw,
    get arguments "news_items" (VList []) = VList items /\
    CryptoNewsAnalyzer.analyze_batch (analyzer self) items (request_id b)
    = inr raw /\
    _generate_batch_summary raw = inr (summary b) /\
    total_items b = List.length raw /\
    List.length (results b) = List.length raw.
Proof.
  intros H.
  apply batch_success in H
    as (items & raw & Hget & _ & _ & _ & Hraw & Hmeta & Htot & _ & Hsum & _).
  exists items, raw. split; [exact Hget |]. split; [exact Hraw |].
  pose proof (add_metadata_same _ _ _ _ Hmeta) as Hsame.
  destruct (add_metadata_inv _ _ _ _ Hmeta) as [Hlen _].
  split; [| split; congruence].
  rewrite <- Hsum. unfold _generate_batch_summary.
  rewrite (for_each_same Hsame). reflexivity.
Qed.

Lemma add_metadata_raises request_id items : forall rs i e,
  add_metadata request_id items i rs = inl e -> e = TypeError.
Proof.
  intros rs; induction rs as [| r rest IH]; intros i e H; [discriminate |].
  cbn [add_metadata] in H.
  match type of H with
  | rbind ?m _ = _ => destruct m as [e1 | r1] eqn:Hsrc
  end.
  - simpl in H. injection H as <-.
    destruct (nth_error items i) as [item |]; [| discriminate].
    destruct item as [| b | z | s | l | d]; simpl in Hsrc;
      try (injection Hsrc as <-; reflexivity).
    + destruct (Str.is_infix _ _); simpl in Hsrc;
        [injection Hsrc as <-; reflexivity | discriminate].
    + destruct (existsb _ l); simpl in Hsrc;
        [injection Hsrc as <-; reflexivity | discriminate].
    + destruct (dict_get d "source"); discriminate.
  - cbn [rbind] in H.
    destruct (add_metadata request_id items (S i) rest) as [e2 | rest'] eqn:E;
      simpl in H; [| discriminate].
    injection H as <-. eapply IH; eassumption.
Qed.

Lemma add_metadata_non_container request_id items : forall rs i j item,
  nth_error items (i + j) = Some item ->
  not_a_container item = true ->
  j < List.length rs ->
  add_metadata request_id items i rs = inl TypeError.
Proof.
  intros rs i j item Hitem Hnc Hj.
  destruct (add_metadata request_id items i rs) as [e | annotated] eqn:E.
  - apply add_metadata_raises in E; subst; reflexivity.
  - exfalso. revert i j annotated Hitem Hj E.
    induction rs as [| r rest IH]; intros i j annotated Hitem Hj E;
      [simpl in Hj; lia |].
    cbn [add_metadata] in E.
    apply rbind_ok in E as (r1 & Hsrc & E).
    apply rbind_ok in E as (rest' & Hrest & _).
    destruct j as [| j].
    + rewrite Nat.add_0_r in Hitem. rewrite Hitem in Hsrc.
      destruct item; simpl in Hnc, Hsrc; discriminate.
    + apply (IH (S i) j rest'); [| simpl in Hj; lia | exact Hrest].
      replace (S i + j) with (i + S j) by lia. exact Hitem.
Qed.

(** X11. An item that is [None], a number or a boolean makes the whole
    batch fail once the analyzer has returned a result for its position:
    the response is the error "Batch analysis failed" with a [TypeError],
    and no webhook is notified. *)
Theorem batch_fails_on_non_container_item id arguments items raw j item w :
  get arguments "news_items" (VList []) = VList items ->
  (List.length items <= 50)%nat ->
  nth_error items j = Some item ->
  not_a_container item = true ->
  let request_id := "mcp_batch_" ++ strftime (clock self) (ticks w) in
  CryptoNewsAnalyzer.analyze_batch (analyzer self) items request_id
  = inr raw ->
  j < List.length raw ->
  _handle_batch_analysis self id arguments w
  = (inr (Error id (McpError (-32603) "Batch analysis failed"
                      (Some TypeError))),
     World (S (ticks w)) (calls w ++ [AnalyzeBatch items request_id])).
Proof.
  intros Hget Hlen Hitem Hnc rid Hraw Hj.
  unfold _handle_batch_analysis. rewrite Hget.
  destruct items as [| first others]; [destruct j; discriminate Hitem |].
  destruct (Nat.ltb_spec 50 (List.length (first :: others))); [lia |].
  unfold bind, try_except, call, utcnow, lift, ret; simpl.
  change (String "m" (String "c" (String "p" (String "_" (String "b"
           (String "a" (String "t" (String "c" (String "h" (String "_"
              (strftime (clock self) (ticks w))))))))))))
    with rid.
  rewrite Hraw; simpl.
  rewrite (@add_metadata_non_container rid (first :: others) raw 0 j item)
    by assumption.
  reflexivity.
Qed.

End BatchHandlerMore.

Lemma batch_fails_on_non_container_item_witness :
  Server._handle_batch_analysis HostSamples.odd_server (Py.VInt 7)
    [("news_items", Py.VList [Py.VInt 3])]%string Samples.world0
  = (inr (Server.Error (Py.VInt 7)
            (Server.McpError (-32603) "Batch analysis failed"
               (Some Py.TypeError))),
     Effects.World 1
       [Effects.AnalyzeBatch [Py.VInt 3] "mcp_batch_0"])%string.
Proof.
  apply (@batch_fails_on_non_container_item _ HostSamples.odd_server
           (Py.VInt 7) [("news_items", Py.VList [Py.VInt 3])]%string
           [Py.VInt 3] [[("confidence", Py.VStr "high")]]%string 0
           (Py.VInt 3) Samples.world0);
    try reflexivity; simpl; lia.
Defined.

Section BatchHandlerEffects.
Import Py Effects Server Spec Props.
Local Open Scope string_scope.
Context {W : Type} (self : KaayaanMCPNewsServer W).

(** X12. With a webhook manager, the results are sent to the webhook
    once, with their metadata, right after the analysis and before the
    summary is computed.  So the webhook has been notified even when the
    response is an error because the summary failed; and a failing
    webhook turns the response into the error "Batch analysis failed"
    although the analysis went through. *)
Theorem batch_webhook_precedes_summary id arguments items raw annotated wm w :
  get arguments "news_items" (VList []) = VList items ->
  (1 <= List.length items <= 50)%nat ->
  let request_id := "mcp_batch_" ++ strftime (clock self) (ticks w) in
  CryptoNewsAnalyzer.analyze_batch (analyzer self) items request_id
  = inr raw ->
  add_metadata request_id items 0 raw = inr annotated ->
  webhook_manager self = Some wm ->
  exists resp w',
    _handle_batch_analysis self id arguments w = (inr resp, w') /\
    calls w'
    = (calls w ++ [AnalyzeBatch items request_id;
                   SendBatchResults annotated request_id])%list /\
    match WebhookManager.send_batch_results wm annotated request_id with
    | inl e =>
        resp = Error id (McpError (-32603) "Batch analysis failed" (Some e))
    | inr _ =>
        match _generate_batch_summary annotated with
        | inl e =>
            resp = Error id (McpError (-32603) "Batch analysis failed"
                               (Some e))
        | inr s =>
            resp = Result id
                     (Some (BatchResponse annotated (List.length annotated)
                              request_id
                              (isoformat (clock self) (S (ticks w)) ++ "Z")
                              s))
        end
    end.
Proof.
  intros Hget Hlen rid Hraw Hmeta Hwm.
  unfold _handle_batch_analysis. rewrite Hget.
  destruct items as [| first others]; [simpl in Hlen; lia |].
  destruct (Nat.ltb_spec 50 (List.length (first :: others))); [lia |].
  unfold bind, try_except, call, utcnow, lift, ret; simpl.
  change (String "m" (String "c" (String "p" (String "_" (String "b"
           (String "a" (String "t" (String "c" (String "h" (String "_"
              (strftime (clock self) (ticks w))))))))))))
    with rid.
  rewrite Hraw; simpl. rewrite Hmeta; simpl. rewrite Hwm; simpl.
  destruct (WebhookManager.send_batch_results wm annotated rid)
    as [e | []]; simpl.
  - eexists _, _. split; [reflexivity |]. simpl.
    rewrite <- app_assoc. split; reflexivity.
  - destruct (_generate_batch_summary annotated) as [e | s]; simpl;
      (eexists _, _; split; [reflexivity |]; simpl;
       rewrite <- app_assoc; split; reflexivity).
Qed.

(** X13. The batch handler never raises: whatever the arguments, the
    analyzer and the webhook do, it returns a response; the response
    carries the [id] of the request and is a result, an invalid-params
    error (-32602) or an internal error (-32603); calls made before are
    kept in the log. *)
Theorem batch_handler_always_answers id arguments w :
  exists resp w',
    _handle_batch_analysis self id arguments w = (inr resp, w') /\
    response_id resp = id /\
    (error_code resp = None \/ error_code resp = Some invalid_params \/
     error_code resp = Some (-32603)%Z) /\
    exists later, calls w' = (calls w ++ later)%list.
Proof.
  unfold _handle_batch_analysis.
  assert (Hrej : forall msg,
            exists resp w',
              ret (create_mcp_response (A := batch_response) id None
                     (Some (create_mcp_error (-32602) msg None))) w
              = (inr resp, w') /\
              response_id resp = id /\
              (error_code resp = None \/
               error_code resp = Some invalid_params \/
               error_code resp = Some (-32603)%Z) /\
              exists later, calls w' = (calls w ++ later)%list).
  { intros msg. eexists _, _. split; [reflexivity |].
    split; [reflexivity |]. split; [right; left; reflexivity |].
    exists []. rewrite app_nil_r; reflexivity. }
  destruct (get arguments "news_items" (VList [])) as [| | | | items |];
    try apply Hrej.
  destruct items as [| first others]; [apply Hrej |].
  destruct (50 <? List.length (first :: others))%nat; [apply Hrej |].
  clear Hrej.
  unfold bind, try_except, call, utcnow, lift, ret; simpl.
  match goal with
  | |- context [AnalyzeBatch _ ?r] => set (rid := r); clearbody rid
  end.
  destruct (CryptoNewsAnalyzer.analyze_batch _ _ _) as [e | raw]; simpl.
  { eexists _, _. split; [reflexivity |]. simpl. eauto 8. }
  destruct (add_metadata rid (first :: others) 0 raw) as [e | annotated];
    simpl.
  { eexists _, _. split; [reflexivity |]. simpl. eauto 8. }
  destruct (webhook_manager self) as [wm |]; simpl.
  - destruct (WebhookManager.send_batch_results wm annotated rid)
      as [e | []]; simpl.
    + eexists _, _. split; [reflexivity |]. simpl.
      rewrite <- app_assoc. eauto 8.
    + destruct (_generate_batch_summary annotated); simpl;
        (eexists _, _; split; [reflexivity |]; simpl;
         rewrite <- app_assoc; eauto 8).
  - destruct (_generate_batch_summary annotated); simpl;
      (eexists _, _; split; [reflexivity |]; simpl; eauto 8).
Qed.

End BatchHandlerEffects.

Lemma batch_summary_of_analysis_witness :
  exists b w',
    Server._handle_batch_analysis Samples.server (Py.VInt 1)
      [("news_items", Py.VList [Samples.item "a"; Samples.item ""])]%string
      Samples.world0
    = (inr (Server.Result (Py.VInt 1) (Some b)), w') /\
    exists items raw,
      Py.get
        [("news_items", Py.VList [Samples.item "a"; Samples.item ""])]%string
        "news_items" (Py.VList [])
      = Py.VList items /\
      CryptoNewsAnalyzer.analyze_batch (Server.analyzer Samples.server)
        items (Server.request_id b)
      = inr raw /\
      Server._generate_batch_summary raw = inr (Server.summary b) /\
      Server.total_items b = List.length raw /\
      List.length (Server.results b) = List.length raw.
Proof.
  eexists _, _. split; [lazy; reflexivity |].
  apply (@batch_summary_of_analysis _ Samples.server (Py.VInt 1)
           [("news_items",
             Py.VList [Samples.item "a"; Samples.item ""])]%string
           Samples.world0 _ _ _ eq_refl).
Defined.

Lemma batch_webhook_precedes_summary_witness :
  exists resp w',
    Server._handle_batch_analysis HostSamples.odd_server (Py.VInt 7)
      [("news_items", Py.VList [Samples.item "a"])]%string Samples.world0
    = (inr resp, w') /\
    Effects.calls w'
    = [Effects.AnalyzeBatch [Samples.item "a"] "mcp_batch_0";
       Effects.SendBatchResults
         [[("confidence", Py.VStr "high"); ("item_index", Py.VInt 0);
           ("analysis_id", Py.VStr "mcp_batch_0_item_0")]]
         "mcp_batch_0"]%string /\
    resp = Server.Error (Py.VInt 7)
             (Server.McpError (-32603) "Batch analysis failed"
                (Some Py.TypeError)).
Proof.
  apply (@batch_webhook_precedes_summary _ HostSamples.odd_server
           (Py.VInt 7)
           [("news_items", Py.VList [Samples.item "a"])]%string
           [Samples.item "a"] [[("confidence", Py.VStr "high")]]%string
           [[("confidence", Py.VStr "high"); ("item_index", Py.VInt 0);
             ("analysis_id", Py.VStr "mcp_batch_0_item_0")]]%string
           HostSamples.sink Samples.world0);
    try reflexivity; simpl; lia.
Defined.

(* ================================================================== *)
(** ** More on the single and keyword handlers *)
(* ================================================================== *)

Section SingleHandler.
Import Py Effects Server Spec Props.
Local Open Scope string_scope.
Context {W : Type} (self : KaayaanMCPNewsServer W).

(** X14. A single-analysis request with a title and a summary is handed
    to the analyzer once, trimmed, under the request id
    [mcp_single_<time>].  If the analyzer fails, the response is the
    error "Analysis failed" with the exception.  Otherwise the response
    is the analyzer's result in which [analysis_id] is that request id,
    [timestamp] is a second clock reading, and [source] is the trimmed
    source of the request when it is not empty; every other field, and
    [source] for an empty source, is as the analyzer put it. *)
Theorem single_analysis_response id arguments title summary source w :
  str_arg arguments "title" = Some title ->
  str_arg arguments "summary" = Some summary ->
  str_arg arguments "source" = Some source ->
  Str.strip title <> "" ->
  Str.strip summary <> "" ->
  let request_id := "mcp_single_" ++ strftime (clock self) (ticks w) in
  let sent :=
    (calls w ++ [AnalyzeSingle (Str.strip title) (Str.strip summary)
                   request_id])%list in
  match CryptoNewsAnalyzer.analyze_single (analyzer self)
          (Str.strip title) (Str.strip summary) request_id with
  | inl e =>
      _handle_single_analysis self id arguments w
      = (inr (Error id (McpError (-32603) "Analysis failed" (Some e))),
         World (S (ticks w)) sent)
  | inr result =>
      exists data,
        _handle_single_analysis self id arguments w
        = (inr (Result id (Some data)), World (S (S (ticks w))) sent) /\
        dict_get data "analysis_id" = Some (VStr request_id) /\
        dict_get data "timestamp"
        = Some (VStr (isoformat (clock self) (S (ticks w)) ++ "Z")) /\
        dict_get data "source"
        = (if String.eqb (Str.strip source) "" then dict_get result "source"
           else Some (VStr (Str.strip source))) /\
        forall k,
          k <> "analysis_id" -> k <> "timestamp" -> k <> "source" ->
          dict_get data k = dict_get result k
  end.
Proof.
  intros Ht Hs Hsrc Hnt Hns rid sent.
  unfold _handle_single_analysis, bind, lift.
  rewrite (strip_value_str_arg _ _ Ht), (strip_value_str_arg _ _ Hs),
    (strip_value_str_arg _ _ Hsrc).
  apply String.eqb_neq in Hnt, Hns.
  cbv beta iota. rewrite Hnt, Hns. cbn [orb].
  unfold try_except, call, utcnow, ret, bind.
  subst sent rid. simpl.
  destruct (CryptoNewsAnalyzer.analyze_single _ _ _ _) as [e | result];
    simpl; [reflexivity |].
  eexists. split; [reflexivity |].
  split; [| split; [| split]].
  - rewrite dict_get_set_other, dict_get_set_same by discriminate.
    reflexivity.
  - rewrite dict_get_set_same. reflexivity.
  - rewrite !dict_get_set_other by discriminate.
    destruct (String.eqb (Str.strip source) ""); [reflexivity |].
    apply dict_get_set_same.
  - intros k Ha Hts Hso.
    rewrite !dict_get_set_other by congruence.
    destruct (String.eqb (Str.strip source) ""); [reflexivity |].
    apply dict_get_set_other; congruence.
Qed.

End SingleHandler.

Lemma single_analysis_response_witness :
  exists data,
    Server._handle_single_analysis Samples.server (Py.VInt 1)
      [("title", Py.VStr " a "); ("summary", Py.VStr "b")]%string
      Samples.world0
    = (inr (Server.Result (Py.VInt 1) (Some data)),
       Effects.World 2 [Effects.AnalyzeSingle "a" "b" "mcp_single_0"])%string /\
    Py.dict_get data "analysis_id" = Some (Py.VStr "mcp_single_0") /\
    Py.dict_get data "timestamp" = Some (Py.VStr "1Z") /\
    Py.dict_get data "source" = None /\
    forall k : string,
      k <> "analysis_id"%string -> k <> "timestamp"%string ->
      k <> "source"%string ->
      Py.dict_get data k
      = Py.dict_get
          [("impact", Py.VStr "Neutral"); ("confidence", Py.VInt 50);
           ("affected_coins", Py.VList []);
           ("request_id", Py.VStr "mcp_single_0")]%string k.
Proof.
  apply (@single_analysis_response _ Samples.server (Py.VInt 1)
           [("title", Py.VStr " a "); ("summary", Py.VStr "b")]%string
           " a "%string "b"%string ""%string Samples.world0);
    try reflexivity; discriminate.
Defined.

Section KeywordHandler.
Import Py Effects Server Spec Props.
Local Open Scope string_scope.
Context {W : Type} (self : KaayaanMCPNewsServer W).

Lemma matched_keywords_filter include_weights text
  (lexicon : list (string * W)) :
  map entry_keyword (matched_keywords include_weights text lexicon)
  = filter (fun k => Re.search_keyword k text) (map fst lexicon).
Proof.
  induction lexicon as [| [k wt] lexicon IH]; simpl; [reflexivity |].
  destruct (Re.search_keyword k text); simpl; rewrite IH; [| reflexivity].
  destruct (truthy include_weights); reflexivity.
Qed.

(** Every way a keyword request with a text can go. *)
Lemma keyword_runs id arguments text w :
  str_arg arguments "text" = Some text ->
  Str.strip text <> "" ->
  let stripped := Str.strip text in
  let include_weights := get arguments "include_weights" (VBool false) in
  _handle_keyword_analysis self id arguments w
  = match CryptoNewsAnalyzer._keyword_analysis (analyzer self)
            (Str.lower stripped) with
    | inl e =>
        (inr (Error id (McpError (-32603) "Keyword analysis failed"
                          (Some e))),
         World (ticks w) (calls w ++ [KeywordAnalysis (Str.lower stripped)]))
    | inr (impact, confidence) =>
        let sent :=
          (calls w ++ [KeywordAnalysis (Str.lower stripped);
                       DetectCoins stripped])%list in
        match CryptoNewsAnalyzer._detect_coins (analyzer self) stripped with
        | inl e =>
            (inr (Error id (McpError (-32603) "Keyword analysis failed"
                              (Some e))),
             World (ticks w) sent)
        | inr coins =>
            let positive :=
              matched_keywords include_weights stripped
                (CryptoNewsAnalyzer.positive_keywords (analyzer self)) in
            let negative :=
              matched_keywords include_weights stripped
                (CryptoNewsAnalyzer.negative_keywords (analyzer self)) in
            (inr (Result id
                    (Some (KeywordReport
                             (CryptoNewsAnalyzer.impact_value impact)
                             confidence positive negative coins
                             (List.length positive + List.length negative)
                             (isoformat (clock self) (ticks w) ++ "Z")))),
             World (S (ticks w)) sent)
        end
    end.
Proof.
  intros Ht Hne stripped include_weights.
  unfold _handle_keyword_analysis, bind, lift.
  rewrite (strip_value_str_arg _ _ Ht). fold stripped.
  apply String.eqb_neq in Hne. cbv beta iota. fold stripped in Hne.
  rewrite Hne.
  unfold try_except, call, utcnow, ret, bind. cbn [ticks calls].
  destruct (CryptoNewsAnalyzer._keyword_analysis _ _)
    as [e | [impact confidence]]; cbn [ok]; [reflexivity |].
  destruct (CryptoNewsAnalyzer._detect_coins _ _) as [e | coins];
    cbn [ticks calls]; rewrite <- app_assoc; reflexivity.
Qed.

(** X15. The keyword handler asks the analyzer for the impact of the
    trimmed text in lower case, and then for the coins of the trimmed
    text in its original case; when the first call fails the second is
    not made.  Either failure gives the error "Keyword analysis failed";
    otherwise the report carries the analyzer's impact, confidence and
    coins. *)
Theorem keyword_analysis_calls id arguments text w :
  str_arg arguments "text" = Some text ->
  Str.strip text <> "" ->
  let stripped := Str.strip text in
  exists resp w',
    _handle_keyword_analysis self id arguments w = (inr resp, w') /\
    match CryptoNewsAnalyzer._keyword_analysis (analyzer self)
            (Str.lower stripped) with
    | inl e =>
        resp = Error id (McpError (-32603) "Keyword analysis failed" (Some e))
        /\ calls w' = (calls w ++ [KeywordAnalysis (Str.lower stripped)])%list
    | inr (impact, confidence) =>
        calls w'
        = (calls w ++ [KeywordAnalysis (Str.lower stripped);
                       DetectCoins stripped])%list /\
        match CryptoNewsAnalyzer._detect_coins (analyzer self) stripped with
        | inl e =>
            resp = Error id (McpError (-32603) "Keyword analysis failed"
                               (Some e))
        | inr coins =>
            exists report,
              resp = Result id (Some report) /\
              Server.impact report = CryptoNewsAnalyzer.impact_value impact /\
              Server.confidence report = confidence /\
              detected_coins report = coins
        end
    end.
Proof.
  intros Ht Hne stripped.
  rewrite (@keyword_runs id arguments text w Ht Hne). fold stripped.
  destruct (CryptoNewsAnalyzer._keyword_analysis _ _)
    as [e | [impact confidence]].
  - eexists _, _; split; [reflexivity |]. split; reflexivity.
  - destruct (CryptoNewsAnalyzer._detect_coins _ _) as [e | coins];
      (eexists _, _; split; [reflexivity |]; split; [reflexivity |]).
    + reflexivity.
    + eexists; repeat split.
Qed.

(** X16. In a keyword report, the phrases of each list are the phrases of
    the lexicon that match the trimmed text, in lexicon order and once
    per lexicon entry, and [total_keywords] is the number of matching
    entries of the two lexicons together. *)
Theorem keyword_report_order id arguments text w resp_id report w' :
  str_arg arguments "text" = Some text ->
  _handle_keyword_analysis self id arguments w
  = (inr (Result resp_id (Some report)), w') ->
  let hits (lexicon : list (string * W)) :=
    filter (fun k => Re.search_keyword k (Str.strip text))
      (map fst lexicon) in
  map entry_keyword (positive_keywords report)
  = hits (CryptoNewsAnalyzer.positive_keywords (analyzer self)) /\
  map entry_keyword (negative_keywords report)
  = hits (CryptoNewsAnalyzer.negative_keywords (analyzer self)) /\
  total_keywords report
  = List.length (hits (CryptoNewsAnalyzer.positive_keywords (analyzer self)))
    + List.length
        (hits (CryptoNewsAnalyzer.negative_keywords (analyzer self))).
Proof.
  intros Ht Hrun hits.
  destruct (String.eqb_spec (Str.strip text) "") as [Hempty | Hne].
  - unfold _handle_keyword_analysis, bind, lift in Hrun.
    rewrite (strip_value_str_arg _ _ Ht), Hempty in Hrun.
    discriminate Hrun.
  - rewrite (@keyword_runs id arguments text w Ht Hne) in Hrun.
    destruct (CryptoNewsAnalyzer._keyword_analysis _ _)
      as [e | [impact confidence]]; [discriminate |].
    destruct (CryptoNewsAnalyzer._detect_coins _ _) as [e | coins];
      [discriminate |].
    injection Hrun as _ <- _. cbn [positive_keywords negative_keywords
                                   total_keywords].
    unfold hits. rewrite <- !matched_keywords_filter with
      (include_weights := get arguments "include_weights" (VBool false)).
    rewrite !length_map. repeat split.
Qed.

End KeywordHandler.

Lemma keyword_analysis_calls_witness :
  exists resp w',
    Server._handle_keyword_analysis Samples.server (Py.VInt 1)
      [("text", Py.VStr " Rally ")]%string Samples.world0
    = (inr resp, w') /\
    Effects.calls w'
    = [Effects.KeywordAnalysis "rally"; Effects.DetectCoins "Rally"]%string /\
    exists report,
      resp = Server.Result (Py.VInt 1) (Some report) /\
      Server.impact report = "Neutral"%string /\
      Server.confidence report = Py.VInt 50 /\
      Server.detected_coins report = Py.VList [].
Proof.
  apply (@keyword_analysis_calls _ Samples.server (Py.VInt 1)
           [("text", Py.VStr " Rally ")]%string " Rally "%string
           Samples.world0);
    [reflexivity | discriminate].
Defined.

Lemma keyword_report_order_witness :
  exists report w',
    Server._handle_keyword_analysis Samples.server (Py.VInt 1)
      [("text", Py.VStr "Hack after the regulatory ban")]%string
      Samples.world0
    = (inr (Server.Result (Py.VInt 1) (Some report)), w') /\
    map Spec.entry_keyword (Server.positive_keywords report) = [] /\
    map Spec.entry_keyword (Server.negative_keywords report)
    = ["ban"; "regulatory ban"; "hack"]%string /\
    Server.total_keywords report = 3.
Proof.
  eexists _, _. split; [lazy; reflexivity |].
  apply (@keyword_report_order _ Samples.server (Py.VInt 1)
           [("text", Py.VStr "Hack after the regulatory ban")]%string
           "Hack after the regulatory ban"%string
           Samples.world0 _ _ _ eq_refl eq_refl).
Defined.

(* ================================================================== *)
(** ** The dispatch of requests *)
(* ================================================================== *)

Section ResponseIds.
Import Py Effects Server Spec Props.
Local Open Scope string_scope.
Context {W : Type} (self : KaayaanMCPNewsServer W).

Lemma single_response_id id arguments w resp w' :
  _handle_single_analysis self id arguments w = (inr resp, w') ->
  response_id resp = id.
Proof.
  unfold _handle_single_analysis, bind, lift.
  destruct (strip_value (get arguments "title" (VStr ""))) as [e | title];
    [discriminate |].
  destruct (strip_value (get arguments "summary" (VStr "")))
    as [e | summary]; [discriminate |].
  destruct (strip_value (get arguments "source" (VStr "")))
    as [e | source]; [discriminate |].
  cbv beta iota.
  destruct (String.eqb title "" || String.eqb summary "").
  - intros H; injection H as <- _; reflexivity.
  - unfold try_except, call, utcnow, ret, bind; simpl.
    destruct (CryptoNewsAnalyzer.analyze_single _ _ _ _); simpl;
      intros H; injection H as <- _; reflexivity.
Qed.

Lemma batch_response_id id arguments w resp w' :
  _handle_batch_analysis self id arguments w = (inr resp, w') ->
  response_id resp = id.
Proof.
  unfold _handle_batch_analysis.
  destruct (get arguments "news_items" (VList [])) as [| | | | items |];
    try (intros H; injection H as <- _; reflexivity).
  destruct items as [| first others];
    [intros H; injection H as <- _; reflexivity |].
  destruct (50 <? List.length (first :: others))%nat;
    [intros H; injection H as <- _; reflexivity |].
  unfold bind, try_except, call, utcnow, lift, ret; simpl.
  destruct (CryptoNewsAnalyzer.analyze_batch _ _ _); simpl;
    [intros H; injection H as <- _; reflexivity |].
  destruct (add_metadata _ _ _ _); simpl;
    [intros H; injection H as <- _; reflexivity |].
  destruct (webhook_manager self) as [wm |]; simpl.
  - destruct (WebhookManager.send_batch_results _ _ _) as [e | []]; simpl;
      [intros H; injection H as <- _; reflexivity |].
    destruct (_generate_batch_summary _); simpl;
      intros H; injection H as <- _; reflexivity.
  - destruct (_generate_batch_summary _); simpl;
      intros H; injection H as <- _; reflexivity.
Qed.

Lemma keyword_response_id id arguments w resp w' :
  _handle_keyword_analysis self id arguments w = (inr resp, w') ->
  response_id resp = id.
Proof.
  unfold _handle_keyword_analysis, bind, lift.
  destruct (strip_value (get arguments "text" (VStr ""))) as [e | text];
    [discriminate |].
  cbv beta iota. destruct (String.eqb text "").
  - intros H; injection H as <- _; reflexivity.
  - unfold try_except, call, utcnow, ret, bind; simpl.
    destruct (CryptoNewsAnalyzer._keyword_analysis _ _)
      as [e | [impact confidence]]; simpl;
      [intros H; injection H as <- _; reflexivity |].
    destruct (CryptoNewsAnalyzer._detect_coins _ _); simpl;
      intros H; injection H as <- _; reflexivity.
Qed.

End ResponseIds.

Section Dispatch.
Import Py Server Spec Props Host.
Local Open Scope string_scope.
Context {W : Type} (self : Host.t W).

Lemma as_payload_id {A} (f : A -> payload W) (r : mcp_response A) :
  response_id (as_payload f r) = response_id r.
Proof. destruct r as [id [a |] | id e]; reflexivity. Qed.

Lemma bind_inr {A B} (m : M A) (k : A -> M B) w b w' :
  bind m k w = (inr b, w') ->
  exists a w1, m w = (inr a, w1) /\ k a w1 = (inr b, w').
Proof.
  unfold bind. destruct (m w) as [[e | a] w1]; [discriminate | eauto].
Qed.

Lemma try_except_id (m : M (response W)) (h : exn -> response W) w id :
  (forall resp w', m w = (inr resp, w') -> response_id resp = id) ->
  (forall e, response_id (h e) = id) ->
  exists resp w',
    try_except m (fun e => ret (h e)) w = (inr resp, w') /\
    response_id resp = id.
Proof.
  intros Hm Hh. unfold try_except, ret.
  destruct (m w) as [[e | resp] w1] eqn:E.
  - eexists _, _; split; [reflexivity | apply Hh].
  - eexists _, _; split; [reflexivity | eapply Hm; reflexivity].
Qed.

Lemma market_sentiment_answers id arguments w :
  exists resp w',
    _handle_market_sentiment self id arguments w = (inr resp, w') /\
    response_id resp = id.
Proof.
  unfold _handle_market_sentiment.
  apply try_except_id; [| reflexivity].
  intros resp w' H.
  apply bind_inr in H as (key & w1 & _ & H).
  apply bind_inr in H as (cached & w2 & _ & H).
  destruct (truthy cached).
  - injection H as <- _; reflexivity.
  - apply bind_inr in H as (data & w3 & _ & H).
    apply bind_inr in H as (u & w4 & _ & H).
    injection H as <- _; reflexivity.
Qed.

Lemma health_check_answers id w :
  exists resp w',
    _handle_health_check self id w = (inr resp, w') /\
    response_id resp = id.
Proof.
  unfold _handle_health_check.
  apply try_except_id; [| reflexivity].
  intros resp w' H.
  apply bind_inr in H as (healthy & w1 & _ & H).
  apply bind_inr in H as (stats & w2 & _ & H).
  apply bind_inr in H as (status & w3 & _ & H).
  apply bind_inr in H as (now & w4 & _ & H).
  injection H as <- _; reflexivity.
Qed.

Lemma tool_call_answers id params w :
  exists resp w',
    handle_tool_call self id (VDict params) w = (inr resp, w') /\
    response_id resp = id.
Proof.
  unfold handle_tool_call. unfold bind at 1, lift at 1. simpl Runtime.as_dict.
  cbv beta iota zeta.
  apply try_except_id; [| reflexivity].
  intros resp w'.
  set (arguments := get params "arguments" (VDict [])).
  destruct (eq_str (get params "name" VNone) "crypto_news_analyze").
  { intros H. apply bind_inr in H as (args & w1 & Hargs & H).
    apply bind_inr in H as (r0 & w2 & Hrun & H).
    injection H as <- _. rewrite as_payload_id.
    unfold core in Hrun.
    destruct (_handle_single_analysis _ _ _ _) as [r1 w3] eqn:E.
    injection Hrun as -> _.
    eapply single_response_id; eassumption. }
  destruct (eq_str (get params "name" VNone) "crypto_news_batch_analyze").
  { intros H. apply bind_inr in H as (args & w1 & Hargs & H).
    apply bind_inr in H as (r0 & w2 & Hrun & H).
    injection H as <- _. rewrite as_payload_id.
    unfold core in Hrun.
    destruct (_handle_batch_analysis _ _ _ _) as [r1 w3] eqn:E.
    injection Hrun as -> _.
    eapply batch_response_id; eassumption. }
  destruct (eq_str (get params "name" VNone) "crypto_market_sentiment").
  { intros H. apply bind_inr in H as (args & w1 & Hargs & H).
    destruct (market_sentiment_answers id args w1) as (r0 & w0 & E & Hid).
    rewrite E in H. injection H as <- _. exact Hid. }
  destruct (eq_str (get params "name" VNone) "crypto_impact_keywords").
  { intros H. apply bind_inr in H as (args & w1 & Hargs & H).
    apply bind_inr in H as (r0 & w2 & Hrun & H).
    injection H as <- _. rewrite as_payload_id.
    unfold core in Hrun.
    destruct (_handle_keyword_analysis _ _ _ _) as [r1 w3] eqn:E.
    injection Hrun as -> _.
    eapply keyword_response_id; eassumption. }
  destruct (eq_str (get params "name" VNone) "server_health_check").
  { intros H.
    destruct (health_check_answers id w) as (r0 & w0 & E & Hid).
    rewrite E in H. injection H as <- _. exact Hid. }
  intros H. injection H as <- _. reflexivity.
Qed.

(** X17. A tool call whose [params] is an object is always answered,
    whatever the tool name and the arguments are and whatever the
    collaborators do: an exception of a handler becomes an error
    response, and the response carries the [id] of the request.  With
    [params] that is not an object, [params.get] raises outside the
    [try], and the call raises [AttributeError] without touching
    anything. *)
Theorem tool_call_always_answers id params w :
  match params with
  | VDict _ =>
      exists resp w',
        handle_tool_call self id params w = (inr resp, w') /\
        response_id resp = id
  | _ => handle_tool_call self id params w = (inl AttributeError, w)
  end.
Proof.
  destruct params; try reflexivity.
  apply tool_call_answers.
Qed.

End Dispatch.

Section DispatchErrors.
Import Py Server Spec Props Host.
Local Open Scope string_scope.
Context {W : Type} (self : Host.t W).

(** X18. A tool call whose name is none of the five tools (also a name
    that is missing or not a string) is answered with the error -32601
    "Unknown tool: <name>"; nothing is called and the clock is not
    read. *)
Theorem unknown_tool_rejected id params w :
  (forall tool, In tool tool_names ->
                eq_str (get params "name" VNone) tool = false) ->
  handle_tool_call self id (VDict params) w
  = (inr (Error id
            (McpError (-32601)
               ("Unknown tool: "
                ++ Runtime.str (runtime self) (get params "name" VNone))
               None)),
     w).
Proof.
  intros H. unfold handle_tool_call, bind, lift, try_except; simpl.
  rewrite !H by (unfold tool_names; simpl; auto 10).
  reflexivity.
Qed.

Lemma world_eta (w : world) : World (ticks w) (calls w) = w.
Proof. destruct w; reflexivity. Qed.

(** X19. The four tools that read their arguments need [arguments] to
    be an object: with a list, a string, a number or [null] instead,
    [arguments.get] raises inside the [try] of the dispatch and the
    answer is the error -32603 "Internal server error"; no handler has
    called anything. *)
Theorem tool_arguments_must_be_object id params tool w :
  get params "name" VNone = VStr tool ->
  In tool ["crypto_news_analyze"; "crypto_news_batch_analyze";
           "crypto_market_sentiment"; "crypto_impact_keywords"] ->
  is_dict (get params "arguments" (VDict [])) = false ->
  handle_tool_call self id (VDict params) w
  = (inr (Error id
            (McpError (-32603) "Internal server error"
               (Some AttributeError))),
     w).
Proof.
  intros Hname Htool Hargs.
  unfold handle_tool_call, bind, lift, try_except; simpl.
  rewrite Hname.
  destruct (get params "arguments" (VDict [])); try discriminate Hargs;
    simpl in Htool;
    destruct Htool as [<- | [<- | [<- | [<- | []]]]]; reflexivity.
Qed.

Lemma single_non_string (server : KaayaanMCPNewsServer W)
  id arguments k v w0 :
  In k ["title"; "summary"; "source"] ->
  dict_get arguments k = Some v ->
  is_str v = false ->
  _handle_single_analysis server id arguments w0 = (inl AttributeError, w0).
Proof.
  intros Hk Hget Hv.
  assert (Hfail : strip_value (get arguments k (VStr ""))
                  = inl AttributeError).
  { unfold get. rewrite Hget. destruct v; try reflexivity.
    discriminate Hv. }
  assert (Hany : forall k', exists r,
             strip_value (get arguments k' (VStr "")) = r /\
             match r with inl e => e = AttributeError | inr _ => True end).
  { intros k'. eexists; split; [reflexivity |].
    destruct (get arguments k' (VStr "")); simpl; auto. }
  unfold _handle_single_analysis, Effects.bind, Effects.lift.
  destruct (Hany "title") as ([e1 | title] & E1 & H1);
    rewrite E1; [subst; reflexivity |].
  destruct (Hany "summary") as ([e2 | summary] & E2 & H2);
    rewrite E2; [subst; reflexivity |].
  destruct (Hany "source") as ([e3 | source] & E3 & H3);
    rewrite E3; [subst; reflexivity |].
  exfalso. simpl in Hk.
  destruct Hk as [<- | [<- | [<- | []]]]; congruence.
Qed.

(** X20. A [title], [summary] or [source] that is present but not a
    string makes the single-analysis tool answer with the error -32603
    "Internal server error": [strip] raises before the validation, the
    analyzer is not called and the clock is not read. *)
Theorem single_tool_needs_strings id params arguments k v w :
  get params "name" VNone = VStr "crypto_news_analyze" ->
  get params "arguments" (VDict []) = VDict arguments ->
  In k ["title"; "summary"; "source"] ->
  dict_get arguments k = Some v ->
  is_str v = false ->
  handle_tool_call self id (VDict params) w
  = (inr (Error id
            (McpError (-32603) "Internal server error"
               (Some AttributeError))),
     w).
Proof.
  intros Hname Hargs Hk Hget Hv.
  unfold handle_tool_call, bind, lift, try_except; simpl.
  rewrite Hname, Hargs; simpl.
  unfold core.
  rewrite (@single_non_string (server self) id arguments k v _ Hk Hget Hv).
  simpl. rewrite app_nil_r, world_eta. reflexivity.
Qed.

End DispatchErrors.

Lemma unknown_tool_rejected_witness :
  Host.handle_tool_call HostSamples.host (Py.VInt 5)
    (Py.VDict [("name", Py.VStr "crypto_news")])%string HostSamples.world0
  = (inr (Server.Error (Py.VInt 5)
            (Server.McpError (-32601) "Unknown tool: crypto_news" None)),
     HostSamples.world0)%string.
Proof.
  apply (@unknown_tool_rejected _ HostSamples.host (Py.VInt 5)
           [("name", Py.VStr "crypto_news")]%string HostSamples.world0).
  intros tool Htool. simpl in Htool.
  repeat (destruct Htool as [<- | Htool]; [reflexivity |]).
  destruct Htool.
Defined.

Lemma tool_arguments_must_be_object_witness :
  Host.handle_tool_call HostSamples.host (Py.VInt 5)
    (Py.VDict [("name", Py.VStr "crypto_impact_keywords");
               ("arguments", Py.VStr "bitcoin rally")])%string
    HostSamples.world0
  = (inr (Server.Error (Py.VInt 5)
            (Server.McpError (-32603) "Internal server error"
               (Some Py.AttributeError))),
     HostSamples.world0)%string.
Proof.
  apply (@tool_arguments_must_be_object _ HostSamples.host (Py.VInt 5)
           [("name", Py.VStr "crypto_impact_keywords");
            ("arguments", Py.VStr "bitcoin rally")]%string
           "crypto_impact_keywords"%string HostSamples.world0);
    [reflexivity | simpl; auto | reflexivity].
Defined.

Lemma single_tool_needs_strings_witness :
  Host.handle_tool_call HostSamples.host (Py.VInt 5)
    (Py.VDict [("name", Py.VStr "crypto_news_analyze");
               ("arguments",
                Py.VDict [("title", Py.VStr "a");
                          ("summary", Py.VInt 3)])])%string
    HostSamples.world0
  = (inr (Server.Error (Py.VInt 5)
            (Server.McpError (-32603) "Internal server error"
               (Some Py.AttributeError))),
     HostSamples.world0)%string.
Proof.
  apply (@single_tool_needs_strings _ HostSamples.host (Py.VInt 5)
           [("name", Py.VStr "crypto_news_analyze");
            ("arguments",
             Py.VDict [("title", Py.VStr "a");
                       ("summary", Py.VInt 3)])]%string
           [("title", Py.VStr "a"); ("summary", Py.VInt 3)]%string
           "summary"%string (Py.VInt 3) HostSamples.world0);
    [reflexivity | reflexivity | simpl; auto | reflexivity | reflexivity].
Defined.

(* ================================================================== *)
(** ** Requests and the message loop *)
(* ================================================================== *)

Section Requests.
Import Py Server Spec Props Host.
Local Open Scope string_scope.
Context {W : Type} (self : Host.t W).

(** The display of [handle_tools_list] refers to the name [false], which
    nothing defines. *)
Lemma tools_display_raises :
  Runtime.eval tools_display = inl (Runtime.NameError "false").
Proof. vm_compute. reflexivity. Qed.

(** X21. A [tools/list] request is never answered: building the list of
    tools raises [NameError] for the name [false], for every request id
    and every server; [handle_request] lets the exception through, and
    the message loop, which only logs it, prints nothing for the line,
    not even an error response. *)
Theorem tools_list_unanswered dumps line request w :
  Runtime.json_loads (runtime self) line = Runtime.Loaded (VDict request) ->
  eq_str (get request "method" VNone) "tools/list" = true ->
  handle_request self (VDict request) w
  = (inl (Runtime.NameError "false"), w) /\
  process_line self dumps line w = (inr [], w).
Proof.
  intros Hjson Hmethod.
  assert (Hinit : eq_str (get request "method" VNone) "initialize" = false).
  { destruct (get request "method" VNone); try discriminate Hmethod.
    simpl in *. apply String.eqb_eq in Hmethod; subst. reflexivity. }
  assert (Hreq : handle_request self (VDict request) w
                 = (inl (Runtime.NameError "false"), w)).
  { unfold handle_request, bind, lift; simpl.
    rewrite Hinit, Hmethod.
    unfold handle_tools_list, bind, lift.
    rewrite tools_display_raises. reflexivity. }
  split; [exact Hreq |].
  unfold process_line, try_except. rewrite Hjson.
  unfold bind at 1. rewrite Hreq. reflexivity.
Qed.

(** X22. Every other request that is an object is answered, with the
    [id] of the request ([None] when it has none), provided the [params]
    of a [tools/call] is an object: [initialize], a tool call, and an
    unknown or missing method, which gets the error -32601. *)
Theorem request_answered request w :
  eq_str (get request "method" VNone) "tools/list" = false ->
  (eq_str (get request "method" VNone) "tools/call" = true ->
   is_dict (get request "params" (VDict [])) = true) ->
  exists resp w',
    handle_request self (VDict request) w = (inr resp, w') /\
    response_id resp = get request "id" VNone.
Proof.
  intros Hlist Hcall.
  unfold handle_request, bind, lift; simpl.
  destruct (eq_str (get request "method" VNone) "initialize").
  { eexists _, _; split; reflexivity. }
  rewrite Hlist.
  destruct (eq_str (get request "method" VNone) "tools/call").
  - specialize (Hcall eq_refl).
    destruct (get request "params" (VDict [])) as [| | | | | params];
      try discriminate Hcall.
    apply tool_call_answers.
  - eexists _, _; split; reflexivity.
Qed.

(** X23. A line of input that holds JSON which is not an object, or a
    [tools/call] request whose [params] is not an object, gets no
    response at all: [get] raises [AttributeError] outside every [try]
    of the handlers, and the loop only logs it.  Nothing is called. *)
Theorem malformed_request_unanswered dumps line request_data w :
  Runtime.json_loads (runtime self) line = Runtime.Loaded request_data ->
  match request_data with
  | VDict request =>
      eq_str (get request "method" VNone) "tools/call" = true /\
      is_dict (get request "params" (VDict [])) = false
  | _ => True
  end ->
  handle_request self request_data w = (inl AttributeError, w) /\
  process_line self dumps line w = (inr [], w).
Proof.
  intros Hjson Hbad.
  assert (Hreq : handle_request self request_data w
                 = (inl AttributeError, w)).
  { destruct request_data as [| b | z | s | l | request]; try reflexivity.
    destruct Hbad as [Hcall Hparams].
    unfold handle_request, bind, lift; simpl.
    destruct (get request "method" VNone) as [| | | m | |];
      try discriminate Hcall.
    simpl in Hcall. apply String.eqb_eq in Hcall; subst m. simpl.
    destruct (get request "params" (VDict [])); try discriminate Hparams;
      reflexivity. }
  split; [exact Hreq |].
  unfold process_line, try_except. rewrite Hjson.
  unfold bind at 1. rewrite Hreq. reflexivity.
Qed.

Lemma process_line_prints dumps line w :
  exists out w',
    process_line self dumps line w = (inr out, w') /\
    List.length out <= 1.
Proof.
  unfold process_line, try_except.
  match goal with
  | |- context [match ?m w with _ => _ end] =>
      destruct (m w) as [[e | out] w1] eqn:E
  end.
  - eexists _, _; split; [reflexivity | simpl; lia].
  - eexists _, _; split; [reflexivity |].
    destruct (Runtime.json_loads (runtime self) line)
      as [request_data | | e].
    + apply bind_inr in E as (resp & w2 & _ & E).
      apply bind_inr in E as (printed & w3 & _ & E).
      injection E as <- _. simpl; lia.
    + apply bind_inr in E as (printed & w3 & _ & E).
      injection E as <- _. simpl; lia.
    + discriminate E.
Qed.

Lemma message_loop_runs dumps lines : forall w,
  exists out w',
    message_loop self dumps lines w = (inr out, w') /\
    List.length out <= List.length (turns lines).
Proof.
  induction lines as [| line rest IH]; intros w.
  - eexists _, _; split; [reflexivity | simpl; lia].
  - cbn [message_loop turns].
    destruct (String.eqb line "").
    + eexists _, _; split; [reflexivity | simpl; lia].
    + destruct (String.eqb (Str.strip line) ""); [apply IH |].
      destruct (process_line_prints dumps (Str.strip line) w)
        as (printed & w1 & Hline & Hlen).
      destruct (IH w1) as (later & w2 & Hrest & Hlater).
      exists (printed ++ later)%list, w2.
      unfold bind. rewrite Hline, Hrest.
      split; [reflexivity |].
      rewrite length_app. simpl; lia.
Qed.

(** X24. The message loop never raises, whatever the lines hold and
    whatever the handlers and [json.dumps] do; it prints at most one
    line per turn, where blank lines take no turn and nothing is read
    after the end of the input. *)
Theorem message_loop_output dumps lines w :
  exists out w',
    message_loop self dumps lines w = (inr out, w') /\
    List.length out <= List.length (turns lines) /\
    List.length (turns lines) <= List.length lines.
Proof.
  destruct (message_loop_runs dumps lines w) as (out & w' & Hrun & Hlen).
  exists out, w'. split; [exact Hrun |]. split; [exact Hlen |].
  clear. induction lines as [| line rest IH]; simpl; [lia |].
  destruct (String.eqb line ""); [simpl; lia |].
  destruct (String.eqb (Str.strip line) ""); simpl; lia.
Qed.

(** X25. A line that [json.loads] rejects with [JSONDecodeError] is
    answered with the error -32700 "Parse error" under the id [None],
    and the loop goes on with the next line; no handler runs.  A line on
    which [json.loads] raises anything else (a [RecursionError] on deeply
    nested brackets, say) is not answered at all, although it is not
    valid JSON either: the exception is only logged. *)
Theorem parse_error_answered dumps line rest w :
  line <> "" ->
  Str.strip line <> "" ->
  exists later w',
    message_loop self dumps rest w = (inr later, w') /\
    match Runtime.json_loads (runtime self) (Str.strip line) with
    | Runtime.JSONDecodeError =>
        forall out,
          dumps (Error VNone (McpError (-32700) "Parse error" None))
          = inr out ->
          message_loop self dumps (line :: rest) w = (inr (out :: later), w')
    | Runtime.LoadRaised _ =>
        message_loop self dumps (line :: rest) w = (inr later, w')
    | Runtime.Loaded _ => True
    end.
Proof.
  intros Hline Hstrip.
  destruct (message_loop_runs dumps rest w) as (later & w' & Hrest & _).
  exists later, w'. split; [exact Hrest |].
  cbn [message_loop].
  apply String.eqb_neq in Hline, Hstrip. rewrite Hline, Hstrip.
  unfold bind at 1, process_line, try_except.
  destruct (Runtime.json_loads (runtime self) (Str.strip line))
    as [request_data | | e]; [exact I | |].
  - intros out Hdumps.
    change (error_response VNone parse_error "Parse error" None)
      with (@Error (payload W) VNone (McpError (-32700) "Parse error" None)).
    unfold bind, lift, ret. rewrite Hdumps. unfold ok. cbv beta iota.
    rewrite Hrest. reflexivity.
  - unfold bind, lift, ret, raise. cbv beta iota.
    rewrite Hrest. reflexivity.
Qed.

End Requests.

Lemma tools_list_unanswered_witness :
  Host.handle_request HostSamples.host
    (Py.VDict [("method", Py.VStr "tools/list"); ("id", Py.VInt 2)])%string
    HostSamples.world0
  = (inl (Runtime.NameError "false"), HostSamples.world0) /\
  Host.process_line HostSamples.host HostSamples.dumps "list"
    HostSamples.world0
  = (inr [], HostSamples.world0).
Proof.
  apply (@tools_list_unanswered _ HostSamples.host HostSamples.dumps
           "list"%string
           [("method", Py.VStr "tools/list"); ("id", Py.VInt 2)]%string
           HostSamples.world0);
    reflexivity.
Defined.

Lemma request_answered_witness :
  exists resp w',
    Host.handle_request HostSamples.host
      (Py.VDict [("method", Py.VStr "tools/call"); ("id", Py.VInt 3);
                 ("params",
                  Py.VDict [("name", Py.VStr "server_health_check")])])%string
      HostSamples.world0
    = (inr resp, w') /\
    Props.response_id resp = Py.VInt 3.
Proof.
  apply (@request_answered _ HostSamples.host
           [("method", Py.VStr "tools/call"); ("id", Py.VInt 3);
            ("params",
             Py.VDict [("name", Py.VStr "server_health_check")])]%string
           HostSamples.world0);
    reflexivity.
Defined.

Lemma malformed_request_unanswered_witness :
  Host.handle_request HostSamples.host
    (Py.VList [Py.VInt 1; Py.VInt 2]) HostSamples.world0
  = (inl Py.AttributeError, HostSamples.world0) /\
  Host.process_line HostSamples.host HostSamples.dumps "[1, 2]"
    HostSamples.world0
  = (inr [], HostSamples.world0).
Proof.
  apply (@malformed_request_unanswered _ HostSamples.host HostSamples.dumps
           "[1, 2]"%string (Py.VList [Py.VInt 1; Py.VInt 2])
           HostSamples.world0 eq_refl I).
Defined.

Lemma parse_error_answered_witness :
  exists later w',
    Host.message_loop HostSamples.host HostSamples.dumps ["init"%string]
      HostSamples.world0
    = (inr later, w') /\
    (forall out,
       HostSamples.dumps
         (Server.Error Py.VNone
            (Server.McpError (-32700) "Parse error" None))
       = inr out ->
       Host.message_loop HostSamples.host HostSamples.dumps
         [" {oops "; "init"]%string HostSamples.world0
       = (inr (out :: later), w')).
Proof.
  apply (@parse_error_answered _ HostSamples.host HostSamples.dumps
           " {oops "%string ["init"%string] HostSamples.world0);
    discriminate.
Defined.

(* ================================================================== *)
(** ** Market sentiment and health check *)
(* ================================================================== *)

Section MarketSentiment.
Import Py Server Spec Props Host.
Local Open Scope string_scope.
Context {W : Type} (self : Host.t W).

(** X26. With a cache manager, the market sentiment tool reads the cache
    once.  A cached value that is truthy is returned as it is: nothing is
    computed and nothing is written.  Otherwise (nothing cached, or an
    empty value) the sentiment is computed with one clock reading,
    carries the requested [timeframe] and, for a non-empty [coins], the
    [filtered_coins], and is written once under the same key for 1800
    seconds; the response carries exactly what was written, or the error
    "Market sentiment analysis failed" when the write raises. *)
Theorem market_sentiment_caching id arguments cache key cached w :
  cache_manager self = Some cache ->
  let timeframe := get arguments "timeframe" (VStr "24h") in
  let coins := get arguments "coins" (VList []) in
  cache_key self timeframe coins = inr key ->
  CacheManager.get cache key = inr cached ->
  if truthy cached then
    _handle_market_sentiment self id arguments w
    = (inr (Result id (Some (MarketSentiment cached))),
       World (ticks w) (calls w ++ [CacheGet key]))
  else
    exists data,
      dict_get data "timeframe" = Some timeframe /\
      dict_get data "filtered_coins"
      = (if truthy coins then Some coins else None) /\
      _handle_market_sentiment self id arguments w
      = (match CacheManager.set cache key (VDict data) 1800 with
         | inr _ => inr (Result id (Some (MarketSentiment (VDict data))))
         | inl e =>
             inr (Error id
                    (McpError (-32603) "Market sentiment analysis failed"
                       (Some e)))
         end,
         World (S (ticks w))
           (calls w ++ [CacheGet key; CacheSet key (VDict data) 1800])).
Proof.
  intros Hcache timeframe coins Hkey Hget.
  assert (Hrun : _handle_market_sentiment self id arguments w
                 = try_except
                     (fun w0 =>
                        if truthy cached then
                          ret (create_mcp_response id
                                 (Some (MarketSentiment cached)) None) w0
                        else
                          bind (_calculate_market_sentiment self timeframe
                                  coins)
                            (fun sentiment_data =>
                             bind
                               (call (CacheSet key (VDict sentiment_data) 1800)
                                  (CacheManager.set cache key
                                     (VDict sentiment_data) 1800))
                               (fun _ =>
                                ret (create_mcp_response id
                                       (Some (MarketSentiment
                                                (VDict sentiment_data)))
                                       None))) w0)
                     (fun e =>
                        ret (error_response id internal_error
                               "Market sentiment analysis failed" (Some e)))
                     (World (ticks w) (calls w ++ [CacheGet key]))).
  { unfold _handle_market_sentiment, try_except, with_cache.
    fold timeframe coins. unfold bind at 1, lift at 1. rewrite Hkey.
    rewrite Hcache. unfold bind at 1, call at 1. rewrite Hget.
    cbv beta iota. destruct (truthy cached); reflexivity. }
  rewrite Hrun. clear Hrun.
  destruct (truthy cached); [reflexivity |].
  unfold try_except, bind.
  destruct (_calculate_market_sentiment self timeframe coins
              (World (ticks w) (calls w ++ [CacheGet key])))
    as [r w1] eqn:Hcalc.
  unfold _calculate_market_sentiment, bind, utcnow, ret, ok in Hcalc.
  cbn [ticks calls] in Hcalc. injection Hcalc as <- <-.
  cbv beta iota.
  match goal with
  | |- context [CacheManager.set cache key (VDict ?d) 1800] => exists d
  end.
  split; [| split].
  3: { unfold call, ret. cbn [ticks calls].
       rewrite <- app_assoc.
       destruct (CacheManager.set cache key _ 1800) as [e | []];
         reflexivity. }
  - destruct (truthy coins); reflexivity.
  - destruct (truthy coins); reflexivity.
Qed.

(** X27. Without a cache manager the market sentiment tool only answers
    errors: the response is "Market sentiment analysis failed", with the
    exception of the cache key when building it raises and with
    [AttributeError] otherwise; nothing is computed. *)
Theorem market_sentiment_needs_cache id arguments w :
  cache_manager self = None ->
  _handle_market_sentiment self id arguments w
  = (inr (Error id
            (McpError (-32603) "Market sentiment analysis failed"
               (Some match cache_key self
                             (get arguments "timeframe" (VStr "24h"))
                             (get arguments "coins" (VList [])) with
                     | inl e => e
                     | inr _ => AttributeError
                     end))),
     w).
Proof.
  intros Hcache.
  unfold _handle_market_sentiment, try_except, bind, lift, with_cache.
  rewrite Hcache.
  destruct (cache_key self _ _); reflexivity.
Qed.

End MarketSentiment.

Section SortedStrings.
Import Py Runtime.

Lemma ascii_compare_trans (a b c : ascii) :
  Ascii.compare a b <> Gt -> Ascii.compare b c <> Gt ->
  Ascii.compare a c <> Gt /\
  (Ascii.compare a c = Eq ->
   Ascii.compare a b = Eq /\ Ascii.compare b c = Eq).
Proof.
  unfold Ascii.compare.
  destruct (N.compare_spec (N_of_ascii a) (N_of_ascii b));
    destruct (N.compare_spec (N_of_ascii b) (N_of_ascii c));
    destruct (N.compare_spec (N_of_ascii a) (N_of_ascii c));
    intros Hab Hbc; split; try congruence; try lia; intros; try lia;
    try discriminate; auto.
Qed.

Lemma string_leb_trans (s1 s2 s3 : string) :
  String.leb s1 s2 = true -> String.leb s2 s3 = true ->
  String.leb s1 s3 = true.
Proof.
  assert (H : forall a b c,
            String.compare a b <> Gt -> String.compare b c <> Gt ->
            String.compare a c <> Gt).
  { induction a as [| x a IH]; intros [| y b] [| z c]; simpl;
      try congruence.
    intros H1 H2.
    assert (Hxy : Ascii.compare x y <> Gt)
      by (destruct (Ascii.compare x y); congruence).
    assert (Hyz : Ascii.compare y z <> Gt)
      by (destruct (Ascii.compare y z); congruence).
    destruct (ascii_compare_trans x y z Hxy Hyz) as [Hxz Heq].
    destruct (Ascii.compare x z) eqn:E; try congruence.
    destruct (Heq eq_refl) as [E1 E2]. rewrite E1 in H1. rewrite E2 in H2.
    eapply IH; eassumption. }
  unfold String.leb. intros H1 H2.
  specialize (H s1 s2 s3).
  destruct (String.compare s1 s2); try discriminate;
    destruct (String.compare s2 s3); try discriminate;
    destruct (String.compare s1 s3); try reflexivity;
    exfalso; apply H; congruence.
Qed.

Lemma insert_str_perm s l : Permutation (insert_str s l) (s :: l).
Proof.
  induction l as [| h t IH]; simpl; [reflexivity |].
  destruct (String.leb s h); [reflexivity |].
  rewrite IH. apply perm_swap.
Qed.

Lemma sort_strs_perm l : Permutation (sort_strs l) l.
Proof.
  induction l as [| s l IH]; simpl; [reflexivity |].
  rewrite insert_str_perm. constructor; exact IH.
Qed.

Lemma insert_str_sorted s l :
  StronglySorted (fun a b => String.leb a b = true) l ->
  StronglySorted (fun a b => String.leb a b = true) (insert_str s l).
Proof.
  induction 1 as [| h t Ht IH Hh]; simpl.
  - repeat constructor.
  - destruct (String.leb s h) eqn:E.
    + constructor; [constructor; assumption |].
      constructor; [exact E |].
      eapply Forall_impl; [| exact Hh].
      intros x Hx. eapply string_leb_trans; eassumption.
    + constructor; [exact IH |].
      assert (Hhs : String.leb h s = true)
        by (destruct (String.leb_total s h); congruence).
      eapply Permutation_Forall;
        [symmetry; apply insert_str_perm |].
      constructor; assumption.
Qed.

Lemma sort_strs_sorted l :
  StronglySorted (fun a b => String.leb a b = true) (sort_strs l).
Proof.
  induction l as [| s l IH]; simpl; [constructor |].
  apply insert_str_sorted, IH.
Qed.

Lemma sorted_strs_unique l : forall l',
  StronglySorted (fun a b => String.leb a b = true) l ->
  StronglySorted (fun a b => String.leb a b = true) l' ->
  Permutation l l' -> l = l'.
Proof.
  induction l as [| a l IH]; intros l' Hl Hl' Hp.
  - apply Permutation_nil in Hp; subst; reflexivity.
  - destruct l' as [| b l'];
      [symmetry in Hp; apply Permutation_nil in Hp; discriminate |].
    inversion Hl as [| ? ? Hl0 Ha]; subst.
    inversion Hl' as [| ? ? Hl0' Hb]; subst.
    assert (Hab : a = b).
    { assert (Hin : In b (a :: l))
        by (eapply Permutation_in; [symmetry; exact Hp | left; reflexivity]).
      assert (Hin' : In a (b :: l'))
        by (eapply Permutation_in; [exact Hp | left; reflexivity]).
      destruct Hin as [-> | Hin]; [reflexivity |].
      destruct Hin' as [-> | Hin']; [reflexivity |].
      rewrite Forall_forall in Ha, Hb.
      apply String.leb_antisym; auto. }
    subst b. f_equal. apply IH; try assumption.
    eapply Permutation_cons_inv; exact Hp.
Qed.

Lemma sort_strs_order l l' :
  Permutation l l' -> sort_strs l = sort_strs l'.
Proof.
  intros Hp. apply sorted_strs_unique; try apply sort_strs_sorted.
  rewrite !sort_strs_perm. exact Hp.
Qed.

End SortedStrings.

Section CacheKey.
Import Py Server Spec Props Host.
Local Open Scope string_scope.
Context {W : Type} (self : Host.t W).

(** X28. The cache key of a market sentiment query does not depend on
    the order in which the coins are given: two lists of coin names that
    are reorderings of one another have the same key. *)
Theorem cache_key_order_independent timeframe coins coins' :
  forallb is_str coins = true ->
  Permutation coins coins' ->
  cache_key self timeframe (VList coins')
  = cache_key self timeframe (VList coins).
Proof.
  intros Hstr Hp.
  assert (Hstr' : forallb is_str coins' = true).
  { apply forallb_forall; intros c Hc.
    rewrite forallb_forall in Hstr; apply Hstr.
    eapply Permutation_in; [symmetry; exact Hp | exact Hc]. }
  unfold cache_key, Runtime.sorted. rewrite Hstr, Hstr'.
  rewrite (@sort_strs_order (map str_of coins') (map str_of coins))
    by (apply Permutation_map; symmetry; exact Hp).
  reflexivity.
Qed.

End CacheKey.

Section HealthCheck.
Import Py Server Spec Props Host.
Local Open Scope string_scope.
Context {W : Type} (self : Host.t W).

(** X29. In every health report, [status] is "healthy" whatever the
    components say: [news_analyzer] is "healthy" or "unhealthy" as
    [self.analyzer] is truthy or not, [redis_cache] is "healthy" only
    when there is a cache manager whose connection probe answers a
    truthy value, and without a cache manager it is "unhealthy" with
    empty cache statistics.  The report costs one clock reading. *)
Theorem health_report id w resp_id h w' :
  _handle_health_check self id w
  = (inr (Result resp_id (Some (Health h))), w') ->
  resp_id = id /\
  status h = "healthy" /\
  news_analyzer h
  = (if analyzer_truthy self then "healthy" else "unhealthy") /\
  (redis_cache h = "healthy" ->
   exists cache v,
     cache_manager self = Some cache /\
     CacheManager.is_connected cache = inr v /\ truthy v = true) /\
  (cache_manager self = None ->
   redis_cache h = "unhealthy" /\ cache_stats h = VDict []) /\
  ticks w' = S (ticks w).
Proof.
  unfold _handle_health_check, try_except.
  match goal with
  | |- context [match ?m w with _ => _ end] =>
      destruct (m w) as [[e | r] w1] eqn:E
  end; [discriminate |].
  intros H; injection H as -> ->.
  apply bind_inr in E as (healthy & w2 & Hhealthy & E).
  apply bind_inr in E as (stats & w3 & Hstats & E).
  apply bind_inr in E as (wstatus & w4 & Hwebhook & E).
  apply bind_inr in E as (now & w5 & Hnow & E).
  injection E as <- <- <-.
  injection Hnow as <- <-.
  cbn [status news_analyzer redis_cache cache_stats ticks].
  assert (Hticks : ticks w4 = ticks w).
  { assert (T2 : ticks w2 = ticks w).
    { destruct (cache_manager self); injection Hhealthy as _ <-;
        reflexivity. }
    assert (T3 : ticks w3 = ticks w2).
    { destruct (cache_manager self); injection Hstats as _ <-;
        reflexivity. }
    assert (T4 : ticks w4 = ticks w3).
    { destruct (webhook_manager (server self)); [| injection Hwebhook as _ <-;
                                                    reflexivity].
      destruct (truthy (webhook_enabled self));
        [| injection Hwebhook as _ <-; reflexivity].
      apply bind_inr in Hwebhook as (t & w6 & Ht & Hw).
      apply bind_inr in Hw as (d & w7 & Hd & Hw).
      injection Hw as _ <-. unfold lift in Hd. injection Hd as _ <-.
      unfold call in Ht. injection Ht as _ <-. reflexivity. }
    congruence. }
  repeat split; try congruence.
  - intros Hredis.
    destruct (cache_manager self) as [cache |].
    + exists cache, healthy. unfold call in Hhealthy.
      injection Hhealthy as Hc _.
      repeat split; [exact Hc |].
      destruct (truthy healthy); [reflexivity | discriminate Hredis].
    + injection Hhealthy as <- _. discriminate Hredis.
  - rewrite H in Hhealthy. injection Hhealthy as <- _. reflexivity.
  - rewrite H in Hstats. injection Hstats as <- _. reflexivity.
Qed.

Ltac probed :=
  eexists _, _, _;
  (split; [reflexivity |]);
  (split; [reflexivity |]);
  (split; [cbn [calls];
           first [symmetry; apply app_nil_r
                 | rewrite <- ?app_assoc; reflexivity] |]);
  (split; [intros ev Hev; simpl in Hev |- *; tauto |]);
  (split; [simpl; intros Hin; repeat destruct Hin as [Hin | Hin];
           try discriminate Hin; try contradiction;
           (split; [discriminate | reflexivity]) |]);
  intros Hnone; try discriminate Hnone;
  simpl; split; intros Hin; repeat destruct Hin as [Hin | Hin];
  try discriminate Hin; contradiction.

(** X30. The health check never raises and only probes: whatever the
    collaborators do, it returns a response with the request's id, having
    called nothing but the connection probe and the statistics of the
    cache and the webhook test; the webhook is tested only when the
    server has a webhook manager that is enabled, and without a cache
    manager the cache is not called. *)
Theorem health_check_probes id w :
  exists resp w' later,
    _handle_health_check self id w = (inr resp, w') /\
    response_id resp = id /\
    calls w' = (calls w ++ later)%list /\
    incl later [CacheIsConnected; CacheGetStats; TestWebhook] /\
    (In TestWebhook later ->
     webhook_manager (server self) <> None /\
     truthy (webhook_enabled self) = true) /\
    (cache_manager self = None ->
     ~ In CacheIsConnected later /\ ~ In CacheGetStats later).
Proof.
  unfold _handle_health_check, try_except, bind, call, lift, utcnow, ret.
  destruct (cache_manager self) as [cache |] eqn:Hcm;
    [destruct (CacheManager.is_connected cache) as [e1 | healthy];
     [| destruct (CacheManager.get_stats cache) as [e2 | stats]] |];
    cbn [ticks calls]; try probed;
    (destruct (webhook_manager (server self)) as [wm |] eqn:Hwm;
     [destruct (truthy (webhook_enabled self)) eqn:Hen;
      [destruct (test_webhook self) as [e3 | t];
       [| destruct (Runtime.as_dict t) as [e4 | d]] |] |]);
    cbn [ticks calls]; probed.
Qed.

End HealthCheck.

Lemma market_sentiment_caching_witness :
  Host._handle_market_sentiment HostSamples.warm_host (Py.VInt 9) []
    HostSamples.world0
  = (inr (Server.Result (Py.VInt 9)
            (Some (Host.MarketSentiment
                     (Py.VDict [("overall_sentiment",
                                 Py.VStr "Positive")])))),
     Host.World 0 [Host.CacheGet "market_sentiment:24h:1"])%string.
Proof.
  apply (@market_sentiment_caching _ HostSamples.warm_host (Py.VInt 9) []
           HostSamples.warm_cache "market_sentiment:24h:1"%string
           (Py.VDict [("overall_sentiment", Py.VStr "Positive")])%string
           HostSamples.world0);
    reflexivity.
Defined.

Lemma market_sentiment_needs_cache_witness :
  Host._handle_market_sentiment HostSamples.bare_host (Py.VInt 9)
    [("coins", Py.VInt 4)]%string HostSamples.world0
  = (inr (Server.Error (Py.VInt 9)
            (Server.McpError (-32603) "Market sentiment analysis failed"
               (Some Py.TypeError))),
     HostSamples.world0)%string.
Proof.
  apply (@market_sentiment_needs_cache _ HostSamples.bare_host (Py.VInt 9)
           [("coins", Py.VInt 4)]%string HostSamples.world0).
  reflexivity.
Defined.

Lemma cache_key_order_independent_witness :
  Host.cache_key HostSamples.host (Py.VStr "1h")
    (Py.VList [Py.VStr "BTC"; Py.VStr "ETH"])
  = Host.cache_key HostSamples.host (Py.VStr "1h")
      (Py.VList [Py.VStr "ETH"; Py.VStr "BTC"]).
Proof.
  apply (@cache_key_order_independent _ HostSamples.host (Py.VStr "1h")
           [Py.VStr "ETH"; Py.VStr "BTC"] [Py.VStr "BTC"; Py.VStr "ETH"]).
  - reflexivity.
  - apply perm_swap.
Defined.

Lemma health_report_witness :
  exists h w',
    Host._handle_health_check HostSamples.bare_host (Py.VInt 3)
      HostSamples.world0
    = (inr (Server.Result (Py.VInt 3) (Some (Host.Health h))), w') /\
    Host.status h = "healthy"%string /\
    Host.news_analyzer h = "unhealthy"%string /\
    Host.redis_cache h = "unhealthy"%string.
Proof.
  eexists _, _. split; [lazy; reflexivity |].
  destruct (@health_report _ HostSamples.bare_host (Py.VInt 3)
              HostSamples.world0 _ _ _ eq_refl)
    as (_ & Hstatus & Hanalyzer & _ & Hbare & _).
  split; [exact Hstatus |].
  split; [exact Hanalyzer | exact (proj1 (Hbare eq_refl))].
Defined.
